(** * History manager of the Blender autosaver: model and verified properties

    Shallow embedding of [addon/test/4.2/history manager.py] (the version
    history engine) and of the background worker of [addon/test/4.2/core.py].

    - A project directory is a record: the text of [index.json] (when the
      file exists) and the two sub-directories [history/] and [deleted/],
      each a finite map from basenames to regular files (bytes and mtime),
      or absent.  The project directory itself exists: every caller obtains
      it from [project_dir_for], which creates it.
    - The index is kept on disk as text.  [json.dump] and [json.load] are
      modelled by an encoder and a decoder on that text, for the call the
      source makes ([indent=2], [ensure_ascii=False], strict decoding).
    - Python values read from the index are untyped JSON values; operations
      on them that Python rejects at run time raise the exception Python
      raises ([KeyError], [TypeError], [AttributeError]).  Exceptions that
      the source catches are handled where the source handles them, the
      others propagate to the caller together with the file system as it
      was left.
    - Paths are POSIX paths, parsed as [pathlib] parses them; the thread
      the worker starts is run to its end before the next operation,
      except where the two are interleaved step by step.
    - A str is kept as bytes: its UTF-8 encoding, a lone surrogate that
      stands for a byte of a file name being that byte.  A str can be
      written to [index.json] when its bytes are well-formed UTF-8.
    - [glob] is modelled for a project directory at a path that has
      none of its pattern characters, the size of a file in megabytes
      for a file of fewer than 2^53 bytes, [move_to_deleted] and
      [restore_deleted] for a basename that a directory entry can bear.
    - Times are whole seconds.  Operations of the operating system on a
      regular file that exists succeed. *)

From Stdlib Require Import ZArith NArith String Ascii List Lia Bool.
From Stdlib Require Import DecimalString DecimalFacts DecimalPos DecimalN.
From Stdlib Require Import Sorting.Sorted Sorting.Permutation.
From stdpp Require Import base option list gmap strings fin_maps.

Local Open Scope N_scope.
#[local] Arguments String.append !s1 s2.

(** ** JSON values, as Python holds them after [json.load] *)

(** A number is kept as its literal: Python's [int] and [float] values
    correspond one to one to their [repr], which is what [json.dump]
    writes.  A dict is an association list in insertion order. *)
#[warnings="-register-all"]
Inductive json : Type :=
  | JNull
  | JBool (b : bool)
  | JNum (lit : string)
  | JStr (s : string)
  | JList (items : list json)
  | JDict (fields : list (string * json)).

(** [d.get(k)] on the fields of a dict. *)
Fixpoint dict_get (k : string) (d : list (string * json)) : option json :=
  match d with
  | [] => None
  | (k', v) :: d' => if decide (k' = k) then Some v else dict_get k d'
  end.

(** [d[k] = v]: the value is replaced in place when the key is present,
    the pair is appended otherwise. *)
Fixpoint dict_set (k : string) (v : json) (d : list (string * json))
  : list (string * json) :=
  match d with
  | [] => [(k, v)]
  | (k', v') :: d' =>
      if decide (k' = k) then (k', v) :: d' else (k', v') :: dict_set k v d'
  end.

(** [dict(pairs)], as the decoder builds an object: a repeated key keeps
    its first position and takes its last value. *)
Definition dict_of_pairs (kvs : list (string * json)) : list (string * json) :=
  fold_left (fun d kv => dict_set kv.1 kv.2 d) kvs [].

(** ** Text of the index: [json.dump(data, f, indent=2, ensure_ascii=False)] *)

Definition hex_digit (n : N) : ascii :=
  ascii_of_N (if (n <? 10) then 48 + n else 87 + n).

(** [ESCAPE_DCT] of [json.encoder]: the two-character escapes, and
    [\u00XX] for the other characters below 0x20. *)
Definition escape_char (c : ascii) : string :=
  let n := N_of_ascii c in
  if (n =? 34) then String "\" (String c "")
  else if (n =? 92) then "\\"
  else if (n =? 8) then "\b"
  else if (n =? 12) then "\f"
  else if (n =? 10) then "\n"
  else if (n =? 13) then "\r"
  else if (n =? 9) then "\t"
  else if (n <? 32) then
    String "\" (String "u" (String "0" (String "0"
      (String (hex_digit (n / 16)) (String (hex_digit (n mod 16)) "")))))
  else String c "".

Fixpoint escape (s : string) : string :=
  match s with
  | "" => ""
  | String c s' => escape_char c +:+ escape s'
  end.

Definition quote : ascii := ascii_of_N 34.
Definition newline : ascii := ascii_of_N 10.

Definition encode_string (s : string) : string :=
  String quote (escape s +:+ String quote "").

(** A line break followed by [2 * level] spaces. *)
Fixpoint spaces (n : nat) : string :=
  match n with
  | O => ""
  | S n' => String " " (spaces n')
  end.

Definition newline_indent (level : nat) : string :=
  String newline (spaces (2 * level)).

(** [sep.join(parts)]. *)
Fixpoint join (sep : string) (parts : list string) : string :=
  match parts with
  | [] => ""
  | [p] => p
  | p :: ps => p +:+ sep +:+ join sep ps
  end.

(** A list or a dict at nesting depth [level]: closed on the spot when
    empty, otherwise every item on a line of its own, two more spaces in
    than the line of the opening bracket. *)
Definition block (opening closing : string) (level : nat)
    (parts : list string) : string :=
  match parts with
  | [] => opening +:+ closing
  | _ =>
      opening +:+ newline_indent (S level) +:+
      join ("," +:+ newline_indent (S level)) parts +:+
      newline_indent level +:+ closing
  end.

(** [_iterencode] of [json.encoder] with [indent=2] and the separators
    that go with it, [","] and [": "]. *)
Fixpoint encode (level : nat) (v : json) : string :=
  match v with
  | JNull => "null"
  | JBool true => "true"
  | JBool false => "false"
  | JNum lit => lit
  | JStr s => encode_string s
  | JList xs => block "[" "]" level (map (encode (S level)) xs)
  | JDict kxs =>
      block "{" "}" level
        (map (fun '(k, x) => encode_string k +:+ ": " +:+ encode (S level) x) kxs)
  end.

Definition json_dumps (v : json) : string := encode 0 v.

(** ** Text that a UTF-8 file takes *)

Definition byte_in (lo hi : N) (c : ascii) : bool :=
  (lo <=? N_of_ascii c) && (N_of_ascii c <=? hi).

(** Well-formed UTF-8, as the codec of Python accepts it: the shortest
    form of each code point, no surrogate, nothing above U+10FFFF. *)
Fixpoint is_text (s : string) : bool :=
  match s with
  | "" => true
  | String a s1 =>
      if byte_in 0 127 a then is_text s1
      else
        match s1 with
        | "" => false
        | String b s2 =>
            if byte_in 194 223 a then byte_in 128 191 b && is_text s2
            else
              match s2 with
              | "" => false
              | String c s3 =>
                  if byte_in 224 239 a then
                    (if byte_in 224 224 a then byte_in 160 191 b
                     else if byte_in 237 237 a then byte_in 128 159 b
                     else byte_in 128 191 b)
                    && byte_in 128 191 c && is_text s3
                  else
                    match s3 with
                    | "" => false
                    | String d s4 =>
                        byte_in 240 244 a
                        && (if byte_in 240 240 a then byte_in 144 191 b
                            else if byte_in 244 244 a then byte_in 128 143 b
                            else byte_in 128 191 b)
                        && byte_in 128 191 c && byte_in 128 191 d && is_text s4
                    end
              end
        end
  end.

(** Every str in the value is text, and so is every number as it is
    written. *)
Fixpoint json_text (v : json) : bool :=
  match v with
  | JNum lit => is_text lit
  | JStr s => is_text s
  | JList xs => forallb json_text xs
  | JDict kxs => forallb (fun '(k, x) => is_text k && json_text x) kxs
  | _ => true
  end.

(** The chunks [json.dump] hands to [f.write] one after the other
    ([_iterencode] of [json.encoder]): in a list the bracket or the
    separator goes out together with a scalar item, in a dict the
    separator, the key, the colon and a scalar value go out one by one. *)
Fixpoint chunks (level : nat) (v : json) : list string :=
  match v with
  | JList [] => ["[]"]
  | JList (x :: xs) =>
      let item (opening : string) (x : json) : list string :=
        let buf := opening +:+ newline_indent (S level) in
        match x with
        | JList _ | JDict _ => buf :: chunks (S level) x
        | _ => [buf +:+ encode (S level) x]
        end in
      item "[" x ++ flat_map (item ",") xs ++ [newline_indent level; "]"]
  | JDict [] => ["{}"]
  | JDict ((k, x) :: kxs) =>
      let member (kx : string * json) : list string :=
        encode_string kx.1 :: ": " :: chunks (S level) kx.2 in
      "{" :: newline_indent (S level) :: member (k, x) ++
      flat_map (fun kx => ("," +:+ newline_indent (S level)) :: member kx) kxs ++
      [newline_indent level; "}"]
  | _ => [encode level v]
  end.

(** The chunks of an item of a list and of a member of a dict. *)
Definition item_chunks (level : nat) (opening : string) (x : json) : list string :=
  let buf := opening +:+ newline_indent (S level) in
  match x with
  | JList _ | JDict _ => buf :: chunks (S level) x
  | _ => [buf +:+ encode (S level) x]
  end.

Definition member_chunks (level : nat) (kx : string * json) : list string :=
  encode_string kx.1 :: ": " :: chunks (S level) kx.2.

(** The chunks written before the first one that the UTF-8 encoder of
    the file refuses, and whether all of them were written. *)
Fixpoint write_chunks (cs : list string) : string * bool :=
  match cs with
  | [] => ("", true)
  | c :: cs' =>
      if is_text c then
        let '(txt, ok) := write_chunks cs' in (c +:+ txt, ok)
      else ("", false)
  end.

(** ** Reading the index back: [json.load(f)] *)

(** The decoder follows the scanner of [json.decoder] on the bytes of
    the text.  Limits of the interpreter are left out: the bound on the
    digits of an integer literal, the recursion limit on nested values,
    and the check that the bytes of the file are UTF-8.  A text beyond
    one of them makes [json.load] raise, and [load_index] then returns
    the empty index. *)

Inductive token : Type :=
  | TLBrace | TRBrace | TLBrack | TRBrack | TColon | TComma
  | TString (s : string)
  | TNumber (lit : string)
  | TTrue | TFalse | TNull.

(** [WHITESPACE] of [json.decoder]: space, tab, line feed, carriage return. *)
Definition is_ws (c : ascii) : bool :=
  let n := N_of_ascii c in
  (n =? 32) || (n =? 9) || (n =? 10) || (n =? 13).

Definition is_digit (c : ascii) : bool :=
  let n := N_of_ascii c in (48 <=? n) && (n <=? 57).

(** Characters a number literal is made of. *)
Definition is_num_char (c : ascii) : bool :=
  let n := N_of_ascii c in
  is_digit c || (n =? 43) || (n =? 45) || (n =? 46)
  || (n =? 101) || (n =? 69).

Fixpoint all_chars (p : ascii -> bool) (s : string) : bool :=
  match s with
  | "" => true
  | String c r => p c && all_chars p r
  end.

Fixpoint skip_digits (s : string) : string :=
  match s with
  | "" => ""
  | String c r => if is_digit c then skip_digits r else s
  end.

(** One digit or more. *)
Definition digits1 (s : string) : option string :=
  match s with
  | String c r => if is_digit c then Some (skip_digits r) else None
  | "" => None
  end.

Definition opt_minus (s : string) : string :=
  match s with
  | String c r => if (N_of_ascii c =? 45) then r else s
  | "" => ""
  end.

(** [0] or a digit from 1 to 9 followed by digits. *)
Definition int_part (s : string) : option string :=
  match s with
  | String c r =>
      if (N_of_ascii c =? 48) then Some r
      else if is_digit c then Some (skip_digits r) else None
  | "" => None
  end.

Definition opt_frac (s : string) : option string :=
  match s with
  | String c r => if (N_of_ascii c =? 46) then digits1 r else Some s
  | "" => Some ""
  end.

Definition opt_exp (s : string) : option string :=
  match s with
  | String c r =>
      if (N_of_ascii c =? 101) || (N_of_ascii c =? 69) then
        match r with
        | String sg r' =>
            if (N_of_ascii sg =? 43) || (N_of_ascii sg =? 45)
            then digits1 r' else digits1 r
        | "" => None
        end
      else Some s
  | "" => Some ""
  end.

(** [NUMBER_RE] of [json.scanner], on a whole literal: an optional minus
    sign; then a zero, or a digit from 1 to 9 and any digits; then
    optionally a point and one digit or more; then optionally [e] or [E],
    an optional sign and one digit or more. *)
Definition is_number_lit (s : string) : bool :=
  all_chars is_num_char s &&
  match r1 ← int_part (opt_minus s); r2 ← opt_frac r1; opt_exp r2 with
  | Some "" => true
  | _ => false
  end.

(** The three literals [json.load] accepts besides the grammar, and
    [json.dump] writes for the floats that are not finite. *)
Definition is_constant_lit (s : string) : bool :=
  bool_decide (s = "NaN") || bool_decide (s = "Infinity")
  || bool_decide (s = "-Infinity").

Definition hex_val (c : ascii) : option N :=
  let n := N_of_ascii c in
  if (48 <=? n) && (n <=? 57) then Some (n - 48)
  else if (97 <=? n) && (n <=? 102) then Some (n - 87)
  else if (65 <=? n) && (n <=? 70) then Some (n - 55)
  else None.

Definition hex4 (a b c d : ascii) : option N :=
  x ← hex_val a; y ← hex_val b; z ← hex_val c; w ← hex_val d;
  Some (((x * 16 + y) * 16 + z) * 16 + w).

(** UTF-8 bytes of a code point. *)
Definition utf8 (u : N) : string :=
  let byte n := ascii_of_N n in
  if (u <? 128) then String (byte u) ""
  else if (u <? 2048) then
    String (byte (192 + u / 64)) (String (byte (128 + u mod 64)) "")
  else if (u <? 65536) then
    String (byte (224 + u / 4096))
      (String (byte (128 + (u / 64) mod 64)) (String (byte (128 + u mod 64)) ""))
  else
    String (byte (240 + u / 262144))
      (String (byte (128 + (u / 4096) mod 64))
         (String (byte (128 + (u / 64) mod 64))
            (String (byte (128 + u mod 64)) ""))).

(** [BACKSLASH] of [json.decoder]. *)
Definition unescape (e : ascii) : option ascii :=
  let n := N_of_ascii e in
  if (n =? 34) || (n =? 92) || (n =? 47) then Some e
  else if (n =? 98) then Some (ascii_of_N 8)
  else if (n =? 102) then Some (ascii_of_N 12)
  else if (n =? 110) then Some (ascii_of_N 10)
  else if (n =? 114) then Some (ascii_of_N 13)
  else if (n =? 116) then Some (ascii_of_N 9)
  else None.

Definition is_high_surrogate (u : N) : bool := (55296 <=? u) && (u <=? 56319).
Definition is_low_surrogate (u : N) : bool := (56320 <=? u) && (u <=? 57343).

(** An escape sequence, from the character after the backslash: the
    text it stands for and the number of characters it takes.  Two
    [\uXXXX] in a row that are a surrogate pair stand for one code point. *)
Definition scan_escape (r : string) : option (string * nat) :=
  match r with
  | "" => None
  | String e r1 =>
      if N_of_ascii e =? 117 then
        match r1 with
        | String h1 (String h2 (String h3 (String h4 r2))) =>
            u ← hex4 h1 h2 h3 h4;
            if is_high_surrogate u then
              match r2 with
              | String b (String x (String l1 (String l2
                  (String l3 (String l4 _))))) =>
                  if (N_of_ascii b =? 92) && (N_of_ascii x =? 117) then
                    u2 ← hex4 l1 l2 l3 l4;
                    if is_low_surrogate u2 then
                      Some (utf8 (65536 + (u - 55296) * 1024 + (u2 - 56320)),
                            11%nat)
                    else Some (utf8 u, 5%nat)
                  else Some (utf8 u, 5%nat)
              | _ => Some (utf8 u, 5%nat)
              end
            else Some (utf8 u, 5%nat)
        | _ => None
        end
      else ch ← unescape e; Some (String ch "", 1%nat)
  end.

(** [scanstring] in strict mode, from the character after the opening
    quote: the decoded string and the text after the closing quote.
    [skip] counts the characters still to pass of an escape sequence
    that has been decoded. *)
Fixpoint scan_string (skip : nat) (s : string) : option (string * string) :=
  match s with
  | "" => None
  | String c r =>
      match skip with
      | S k => scan_string k r
      | O =>
          let n := N_of_ascii c in
          if n =? 34 then Some ("", r)
          else if n =? 92 then
            '(txt, len) ← scan_escape r;
            '(t, rest) ← scan_string len r;
            Some (txt +:+ t, rest)
          else if n <? 32 then None
          else '(t, rest) ← scan_string 0 r; Some (String c t, rest)
      end
  end.

(** The longest prefix made of characters that satisfy [p], and the rest. *)
Fixpoint span (p : ascii -> bool) (s : string) : string * string :=
  match s with
  | "" => ("", "")
  | String c r =>
      if p c then let '(a, b) := span p r in (String c a, b) else ("", s)
  end.

Fixpoint strip_word (p s : string) : option string :=
  match p, s with
  | "", _ => Some s
  | String a p', String b s' => if decide (a = b) then strip_word p' s' else None
  | _, "" => None
  end.

Definition punctuation (c : ascii) : option token :=
  let n := N_of_ascii c in
  if (n =? 123) then Some TLBrace
  else if (n =? 125) then Some TRBrace
  else if (n =? 91) then Some TLBrack
  else if (n =? 93) then Some TRBrack
  else if (n =? 58) then Some TColon
  else if (n =? 44) then Some TComma
  else None.

(** The words the scanner recognises by their first characters. *)
Definition keywords : list (string * token) :=
  [("null", TNull); ("true", TTrue); ("false", TFalse);
   ("NaN", TNumber "NaN"); ("Infinity", TNumber "Infinity");
   ("-Infinity", TNumber "-Infinity")].

Fixpoint scan_keyword (kws : list (string * token)) (s : string)
  : option (token * string) :=
  match kws with
  | [] => None
  | (w, t) :: kws' =>
      match strip_word w s with
      | Some r => Some (t, r)
      | None => scan_keyword kws' s
      end
  end.

(** One token: punctuation, a string, a word or a number literal. *)
Definition scan_token (c : ascii) (r : string) : option (token * string) :=
  match punctuation c with
  | Some t => Some (t, r)
  | None =>
      if (N_of_ascii c =? 34) then
        '(str, r') ← scan_string 0 r; Some (TString str, r')
      else
        match scan_keyword keywords (String c r) with
        | Some tr => Some tr
        | None =>
            let '(lit, r') := span is_num_char (String c r) in
            if is_number_lit lit then Some (TNumber lit, r') else None
        end
  end.

(** The tokens of a text; white space separates tokens and is dropped.
    [fuel] bounds the number of steps; the length of the text plus one
    is always enough, every step consuming at least one character. *)
Fixpoint lex (fuel : nat) (s : string) : option (list token) :=
  match fuel with
  | O => None
  | S fuel' =>
      match s with
      | "" => Some []
      | String c r =>
          if is_ws c then lex fuel' r
          else
            '(t, r') ← scan_token c r;
            ts ← lex fuel' r';
            Some (t :: ts)
      end
  end.

Definition lexer (s : string) : option (list token) :=
  lex (S (String.length s)) s.

(** [JSONArray], [JSONObject] and [scan_once] over the tokens: a value
    and the tokens after it.  No trailing comma is accepted, and an
    object's keys are strings. *)
Fixpoint parse_value (fuel : nat) (ts : list token) : option (json * list token) :=
  match fuel with
  | O => None
  | S fuel' =>
      match ts with
      | TNull :: r => Some (JNull, r)
      | TTrue :: r => Some (JBool true, r)
      | TFalse :: r => Some (JBool false, r)
      | TNumber lit :: r => Some (JNum lit, r)
      | TString s :: r => Some (JStr s, r)
      | TLBrack :: TRBrack :: r => Some (JList [], r)
      | TLBrack :: r =>
          '(xs, r') ← parse_items fuel' r; Some (JList xs, r')
      | TLBrace :: TRBrace :: r => Some (JDict [], r)
      | TLBrace :: r =>
          '(kxs, r') ← parse_members fuel' r; Some (JDict (dict_of_pairs kxs), r')
      | _ => None
      end
  end
with parse_items (fuel : nat) (ts : list token) : option (list json * list token) :=
  match fuel with
  | O => None
  | S fuel' =>
      '(x, r) ← parse_value fuel' ts;
      match r with
      | TComma :: r' => '(xs, r'') ← parse_items fuel' r'; Some (x :: xs, r'')
      | TRBrack :: r' => Some ([x], r')
      | _ => None
      end
  end
with parse_members (fuel : nat) (ts : list token)
  : option (list (string * json) * list token) :=
  match fuel with
  | O => None
  | S fuel' =>
      match ts with
      | TString k :: TColon :: r =>
          '(x, r1) ← parse_value fuel' r;
          match r1 with
          | TComma :: r' =>
              '(kxs, r'') ← parse_members fuel' r'; Some ((k, x) :: kxs, r'')
          | TRBrace :: r' => Some ([(k, x)], r')
          | _ => None
          end
      | _ => None
      end
  end.

(** [json.loads]: one value and nothing after it but white space. *)
Definition json_loads (s : string) : option json :=
  ts ← lexer s;
  match parse_value (S (2 * length ts)) ts with
  | Some (v, []) => Some v
  | _ => None
  end.

(** *** What the encoder writes, seen by the decoder *)

Fixpoint join_tokens (parts : list (list token)) : list token :=
  match parts with
  | [] => []
  | [p] => p
  | p :: ps => p ++ TComma :: join_tokens ps
  end.

(** The tokens of the text of a value. *)
Fixpoint tokens (v : json) : list token :=
  match v with
  | JNull => [TNull]
  | JBool true => [TTrue]
  | JBool false => [TFalse]
  | JNum lit => [TNumber lit]
  | JStr s => [TString s]
  | JList xs => TLBrack :: join_tokens (map tokens xs) ++ [TRBrack]
  | JDict kxs =>
      TLBrace ::
      join_tokens (map (fun '(k, x) => TString k :: TColon :: tokens x) kxs)
      ++ [TRBrace]
  end.

(** The values [json.load] can return: number literals are literals, and
    no key occurs twice in a dict. *)
#[warnings="-register-all"]
Inductive json_ok : json -> Prop :=
  | ok_null : json_ok JNull
  | ok_bool b : json_ok (JBool b)
  | ok_num lit :
      is_number_lit lit || is_constant_lit lit = true -> json_ok (JNum lit)
  | ok_str s : json_ok (JStr s)
  | ok_list xs : Forall json_ok xs -> json_ok (JList xs)
  | ok_dict kxs :
      NoDup kxs.*1 -> Forall (fun kx => json_ok kx.2) kxs -> json_ok (JDict kxs).

(** A text that can follow a number literal without running into it. *)
Definition ends_number (s : string) : bool :=
  match s with
  | "" => true
  | String c _ => negb (is_num_char c)
  end.

(** Steps [parse_value] needs on the tokens of a value. *)
Fixpoint parse_steps (v : json) : nat :=
  match v with
  | JList xs => S (list_sum (map (fun x => S (parse_steps x)) xs))
  | JDict kxs => S (list_sum (map (fun '(_, x) => S (parse_steps x)) kxs))
  | _ => 1
  end.

(** The text of a part of a list or of a dict is read as its tokens,
    whatever follows it. *)
Definition lexes_as (part : string) (toks : list token) : Prop :=
  forall s ts, ends_number s = true -> lexer s = Some ts ->
  lexer (part +:+ s) = Some (toks ++ ts).

(** The number tokens the scanner produces are number literals. *)
Definition token_ok (t : token) : Prop :=
  match t with
  | TNumber lit => is_number_lit lit || is_constant_lit lit = true
  | _ => True
  end.

(** ** The project directory *)

Record file : Type := File { content : string; mtime : Z }.

(** A directory of regular files, by basename. *)
Abbreviation dir := (gmap string file).

Record project : Type := Project {
  index : option string;      (* text of index.json, when the file exists *)
  history : option dir;       (* history/, when the directory exists *)
  deleted : option dir        (* deleted/, when the directory exists *)
}.

Definition set_index (txt : string) (p : project) : project :=
  Project (Some txt) (history p) (deleted p).
Definition set_history (h : dir) (p : project) : project :=
  Project (index p) (Some h) (deleted p).
Definition set_deleted (d : dir) (p : project) : project :=
  Project (index p) (history p) (Some d).

(** [os.path.exists] and the file behind a basename of a directory. *)
Definition lookup_file (d : option dir) (name : string) : option file :=
  match d with
  | Some m => m !! name
  | None => None
  end.

(** The names a file of a directory may bear: not empty, no separator,
    neither [.] nor [..].  The basenames the operations are given are
    such names. *)
Definition is_basename (name : string) : bool :=
  negb (bool_decide (name = "")) && negb (bool_decide (name = "."))
  && negb (bool_decide (name = ".."))
  && all_chars (fun c => negb (N_of_ascii c =? 47)) name.

(** [os.listdir]: the entries in the order the directory yields them,
    which is the enumeration order of the map. *)
Definition listdir (d : option dir) : list (string * file) :=
  match d with
  | Some m => map_to_list m
  | None => []
  end.

(** [glob._ishidden]. *)
Definition is_hidden (name : string) : bool :=
  match name with
  | String c _ => N_of_ascii c =? 46
  | "" => false
  end.

(** Some suffix of [s] is [suffix]. *)
Fixpoint ends_with (suffix s : string) : bool :=
  bool_decide (s = suffix) ||
  match s with
  | String _ r => ends_with suffix r
  | "" => false
  end.

(** [glob.has_magic]: the path holds one of the characters [*], [?]
    and the opening square bracket. *)
Definition has_magic (s : string) : bool :=
  negb (all_chars
          (fun c => negb ((N_of_ascii c =? 42) || (N_of_ascii c =? 63)
                          || (N_of_ascii c =? 91))) s).

(** [glob.glob(os.path.join(project_dir, sub, pattern))] for [sub] one
    of [history] and [deleted], [d] the directory at that place and a
    pattern that does not start with a dot.  With none of the pattern
    characters in [project_dir] the directory part of the path is taken
    as it is written: the names of [d] that start with a dot are left
    out, the others are matched by [fnmatch].  With one of them the
    directory part is a pattern too, and what it matches are folders
    beside this one; such a call is outside the model, and [plain]
    keeps it out. *)
Definition glob (project_dir : string) (plain : has_magic project_dir = false)
    (fnmatch : string -> bool) (d : option dir) : list (string * file) :=
  filter (fun nf => negb (is_hidden nf.1) && fnmatch nf.1 = true) (listdir d).

(** The pattern [*.blend] (matching is case sensitive). *)
Definition fnmatch_blend (name : string) : bool := ends_with ".blend" name.
(** The pattern [*]. *)
Definition fnmatch_any (name : string) : bool := true.

(** [sorted(files, key=os.path.getmtime, reverse=True)]: newest first,
    files of equal mtime in the order they were listed. *)
Fixpoint insert_by_mtime (x : string * file) (l : list (string * file))
  : list (string * file) :=
  match l with
  | [] => [x]
  | y :: l' =>
      if (mtime x.2 <? mtime y.2)%Z then y :: insert_by_mtime x l'
      else x :: l
  end.

Fixpoint sorted_newest_first (l : list (string * file)) : list (string * file) :=
  match l with
  | [] => []
  | x :: l' => insert_by_mtime x (sorted_newest_first l')
  end.

(** [l[k:]]: a negative [k] counts from the end. *)
Definition py_slice_from {A} (k : Z) (l : list A) : list A :=
  if (0 <=? k)%Z then drop (Z.to_nat k) l
  else drop (length l - Z.to_nat (- k)) l.

(** ** Exceptions and the state of a call *)

Inductive exn : Type :=
  | KeyError | TypeError | AttributeError | UnicodeEncodeError.

Inductive result (A : Type) : Type :=
  | Ok (a : A)
  | Raise (e : exn).
Arguments Ok {A} a.
Arguments Raise {A} e.

Definition result_bind {A B} (r : result A) (k : A -> result B) : result B :=
  match r with
  | Ok a => k a
  | Raise e => Raise e
  end.

(** A call runs on the project directory and leaves it changed, also
    when it raises. *)
Definition M (A : Type) : Type := project -> result A * project.

Definition ret {A} (a : A) : M A := fun p => (Ok a, p).
Definition bind {A B} (m : M A) (k : A -> M B) : M B :=
  fun p =>
    match m p with
    | (Ok a, p') => k a p'
    | (Raise e, p') => (Raise e, p')
    end.
Definition lift {A} (r : result A) : M A := fun p => (r, p).
Definition get : M project := fun p => (Ok p, p).
Definition modify (f : project -> project) : M unit := fun p => (Ok tt, f p).

Declare Scope py_scope.
Delimit Scope py_scope with py.
Notation "x <- m ;; k" := (bind m (fun x => k))
  (at level 100, m at next level, right associativity) : py_scope.
Notation "m ;; k" := (bind m (fun _ => k))
  (at level 100, right associativity) : py_scope.
Notation "x <~ r ;; k" := (result_bind r (fun x => k))
  (at level 100, r at next level, right associativity) : py_scope.

(** ** Python operations on the values of the index *)

(** [v == s] for a str [s]. *)
Definition is_str (s : string) (v : json) : bool :=
  match v with
  | JStr s' => bool_decide (s' = s)
  | _ => false
  end.

(** [v[k]] for a str key. *)
Definition py_getitem (k : string) (v : json) : result json :=
  match v with
  | JDict d =>
      match dict_get k d with
      | Some x => Ok x
      | None => Raise KeyError
      end
  | _ => Raise TypeError
  end.

(** [v.get(k, default)]. *)
Definition py_get (k : string) (default : json) (v : json) : result json :=
  match v with
  | JDict d =>
      match dict_get k d with
      | Some x => Ok x
      | None => Ok default
      end
  | _ => Raise AttributeError
  end.

Fixpoint chars (s : string) : list json :=
  match s with
  | "" => []
  | String c r => JStr (String c "") :: chars r
  end.

(** [for v in x]: the items of a list, the keys of a dict, the characters
    of a str (here one per byte); nothing else in the index iterates. *)
Definition py_iter (x : json) : result (list json) :=
  match x with
  | JList xs => Ok xs
  | JDict d => Ok (map (fun kv => JStr kv.1) d)
  | JStr s => Ok (chars s)
  | _ => Raise TypeError
  end.

(** The loop
    [for v in versions: if v["file"] == name: <update v>; break]
    over the items; [Some] of the items with the first match updated in
    place, [None] when no item matches. *)
Fixpoint update_first (name : string)
    (update : list (string * json) -> list (string * json))
    (xs : list json) : result (option (list json)) :=
  match xs with
  | [] => Ok None
  | v :: rest =>
      match py_getitem "file" v with
      | Raise e => Raise e
      | Ok f =>
          if is_str name f then
            match v with
            | JDict d => Ok (Some (JDict (update d) :: rest))
            | _ => Ok (Some xs)
            end
          else
            match update_first name update rest with
            | Ok (Some rest') => Ok (Some (v :: rest'))
            | other => other
            end
      end
  end.

(** The same loop on [data.get("versions", [])].  The entries are
    updated in place, inside [data]: the result is [data] after the
    loop and whether an entry matched. *)
Definition update_first_version (name : string)
    (update : list (string * json) -> list (string * json))
    (data : json) : result (json * bool) :=
  match data with
  | JDict d =>
      match dict_get "versions" d with
      | None => Ok (data, false)
      | Some (JList xs) =>
          match update_first name update xs with
          | Raise e => Raise e
          | Ok None => Ok (data, false)
          | Ok (Some xs') => Ok (JDict (dict_set "versions" (JList xs') d), true)
          end
      | Some x =>
          match py_iter x with
          | Raise e => Raise e
          | Ok items =>
              match update_first name update items with
              | Raise e => Raise e
              | Ok _ => Ok (data, false)
              end
          end
      end
  | _ => Raise AttributeError
  end.

(** ** The history manager *)

Definition empty_index : json := JDict [("versions", JList [])].

(** [load_index]: the value read from [index.json]; the empty index when
    the file is missing, is not UTF-8 or does not parse. *)
Definition load_index (p : project) : json :=
  match index p with
  | Some txt =>
      if is_text txt then
        match json_loads txt with
        | Some data => data
        | None => empty_index
        end
      else empty_index
  | None => empty_index
  end.

(** [save_index]: the file is opened for writing, which empties it,
    and takes the chunks of [json.dump] one after the other.  A str
    that is not text stops the writing with [UnicodeEncodeError]; what
    was written before it stays in the file. *)
Definition save_index (data : json) : M unit :=
  fun p =>
    let '(txt, ok) := write_chunks (chunks 0 data) in
    (if ok then Ok tt else Raise UnicodeEncodeError, set_index txt p).

(** [Path(path).mkdir(parents=True, exist_ok=True)] for the two
    sub-directories. *)
Definition ensure_history : M unit :=
  modify (fun p => set_history (default ∅ (history p)) p).
Definition ensure_deleted : M unit :=
  modify (fun p => set_deleted (default ∅ (deleted p)) p).

(** A path handed to [register_version]: a file of [history/] or of
    [deleted/], or a path outside the two with the size found there
    ([None] when nothing exists at the path). *)
Inductive path : Type :=
  | InHistory (name : string)
  | InDeleted (name : string)
  | Elsewhere (name : string) (size : option N).

Definition basename (f : path) : string :=
  match f with
  | InHistory name | InDeleted name | Elsewhere name _ => name
  end.

Definition file_size (f : file) : N := N.of_nat (String.length (content f)).

(** [os.path.getsize(f) if os.path.exists(f) else None]. *)
Definition getsize (p : project) (f : path) : option N :=
  match f with
  | InHistory name => file_size <$> lookup_file (history p) name
  | InDeleted name => file_size <$> lookup_file (deleted p) name
  | Elsewhere _ size => size
  end.

Definition decimal (n : N) : string := NilEmpty.string_of_uint (N.to_uint n).

(** The integer nearest to [a / b], a tie going to the even one. *)
Definition round_half_even (a b : N) : N :=
  let q := a / b in
  let r := a mod b in
  if 2 * r <? b then q
  else if b <? 2 * r then q + 1
  else if N.even q then q else q + 1.

(** [round(size / (1024 * 1024), 2)] as [json.dump] writes it, for a
    size below 2^53 bytes: the hundredths rounded half to even, no
    trailing zero after the first decimal.  (Below 2^53 the size is a
    float as it stands, the division by a power of two is exact and
    [repr] gives these digits back; from 2^53 on the float is a rounded
    size and the digits can differ.) *)
Definition size_MB (size : N) : json :=
  let h := round_half_even (size * 100) 1048576 in
  let r := h mod 100 in
  JNum (decimal (h / 100) +:+ "." +:+
        (if r mod 10 =? 0 then decimal (r / 10)
         else decimal (r / 10) +:+ decimal (r mod 10))).

(** The entry [register_version] builds; [stamp] is what
    [time.strftime("%Y-%m-%d %H:%M:%S")] returns at the call. *)
Definition new_entry (p : project) (stamp : string) (filename : path)
    (note : string) (compressed : bool) : json :=
  JDict [
    ("file", JStr (basename filename));
    ("timestamp", JStr stamp);
    ("size_MB", match getsize p filename with
                | Some n => size_MB n
                | None => JNull
                end);
    ("note", JStr note);
    ("status", JStr "active");
    ("compressed", JBool compressed)].

(** [data["versions"].append(entry)], on the data read from the index. *)
Definition append_version (entry : json) (data : json) : result json :=
  (versions <~ py_getitem "versions" data ;;
   match versions, data with
   | JList xs, JDict d => Ok (JDict (dict_set "versions" (JList (xs ++ [entry])) d))
   | _, _ => Raise AttributeError
   end)%py.

(** [register_version]. *)
Definition register_version (stamp : string) (filename : path)
    (note : string) (compressed : bool) : M json :=
  (p <- get ;;
   let data := load_index p in
   let entry := new_entry p stamp filename note compressed in
   data' <- lift (append_version entry data) ;;
   save_index data' ;;
   ret entry)%py.

(** [list_versions]. *)
Definition list_versions (include_deleted : bool) : M json :=
  (p <- get ;;
   versions <- lift (py_get "versions" (JList []) (load_index p)) ;;
   if include_deleted then ret versions
   else
     items <- lift (py_iter versions) ;;
     kept <- lift
       ((fix keep (l : list json) : result (list json) :=
           match l with
           | [] => Ok []
           | v :: l' =>
               (st <~ py_get "status" JNull v ;;
                rest <~ keep l' ;;
                Ok (if is_str "deleted" st then rest else v :: rest))%py
           end) items) ;;
     ret (JList kept))%py.

(** [save_versioned_copy].  [host] is what the call of
    [bpy.ops.wm.save_as_mainfile] does: it writes these bytes at the
    target ([Some]), or it raises ([None]).  [stem] is the stem of the
    name of the open document, [file_stamp] and [stamp] are the two
    readings of the clock, [now] is the time the file is written. *)
Definition save_versioned_copy (host : option string) (stem : string)
    (file_stamp stamp : string) (now : Z) (note : string) : M (option string) :=
  (ensure_history ;;
   let filename := stem +:+ "_" +:+ file_stamp +:+ ".blend" in
   match host with
   | None => ret None
   | Some bytes =>
       modify (fun p =>
         set_history (<[filename := File bytes now]> (default ∅ (history p))) p) ;;
       register_version stamp (InHistory filename) note false ;;
       ret (Some filename)
   end)%py.

Section Compression.

(** The path of the project directory, without pattern characters. *)
Variable project_dir : string.
Hypothesis plain : has_magic project_dir = false.

(** What [gzip.open(gz_path, "wb")] writes for the bytes copied into it. *)
Variable gzip : string -> string.

(** [compress_file] on a file of [history/]: the basename of the
    compressed file, or [None] when the file cannot be opened. *)
Definition compress_file (now : Z) (name : string) : M (option string) :=
  fun p =>
    match history p, lookup_file (history p) name with
    | Some h, Some f =>
        let gz := name +:+ ".gz" in
        (Ok (Some gz),
         set_history (delete name (<[gz := File (gzip (content f)) now]> h)) p)
    | _, _ => (Ok None, p)
    end.

(** The update of the entry of a compressed file:
    [v["compressed"] = True; v["file"] = gz; v["status"] = v.get("status", "active")]. *)
Definition mark_compressed (gz : string) (d : list (string * json))
  : list (string * json) :=
  let d1 := dict_set "compressed" (JBool true) d in
  let d2 := dict_set "file" (JStr gz) d1 in
  dict_set "status" (default (JStr "active") (dict_get "status" d2)) d2.

(** The body of the loop of [compress_old_versions] for one file. *)
Definition compress_one (now : Z) (name : string) : M unit :=
  (gz <- compress_file now name ;;
   match gz with
   | Some gz =>
       p <- get ;;
       r <- lift (update_first_version name (mark_compressed gz) (load_index p)) ;;
       save_index r.1
   | None => ret tt
   end)%py.

Fixpoint compress_each (now : Z) (names : list string) : M unit :=
  match names with
  | [] => ret tt
  | name :: rest => (compress_one now name ;; compress_each now rest)%py
  end.

(** [compress_old_versions]; [now] is the time the compressed files are
    written. *)
Definition compress_old_versions (now : Z) (keep_uncompressed : Z) : M unit :=
  (p <- get ;;
   let files :=
     sorted_newest_first (glob project_dir plain fnmatch_blend (history p)) in
   compress_each now (map fst (py_slice_from keep_uncompressed files)))%py.

End Compression.

Definition mark_status (status : string) (d : list (string * json))
  : list (string * json) :=
  dict_set "status" (JStr status) d.

(** [move_to_deleted], for a basename as [is_basename] has it.  Another
    name (the empty one, one with a separator) makes the path point at a
    directory or out of [history/], where the model does not follow. *)
Definition move_to_deleted (file_basename : string) : M bool :=
  (ensure_deleted ;;
   p <- get ;;
   match history p, lookup_file (history p) file_basename with
   | Some h, Some f =>
       modify (fun p =>
         set_deleted (<[file_basename := f]> (default ∅ (deleted p)))
           (set_history (delete file_basename h) p)) ;;
       p <- get ;;
       r <- lift (update_first_version file_basename (mark_status "deleted")
                    (load_index p)) ;;
       save_index r.1 ;;
       ret true
   | _, _ => ret false
   end)%py.

(** The entry [restore_deleted] adds when no entry bears the basename;
    [f] is the file moved back, [stamp] the reading of the clock. *)
Definition restored_entry (stamp : string) (file_basename : string) (f : file) : json :=
  JDict [
    ("file", JStr file_basename);
    ("timestamp", JStr stamp);
    ("size_MB", size_MB (file_size f));
    ("note", JStr "restored");
    ("status", JStr "active");
    ("compressed", JBool (ends_with ".gz" file_basename))].

(** [data.get("versions", []).append(entry)]: when [data] has no
    [versions] the entry goes to a list that is dropped. *)
Definition append_restored (entry : json) (data : json) : result json :=
  (versions <~ py_get "versions" (JList []) data ;;
   match versions, data with
   | JList xs, JDict fields =>
       match dict_get "versions" fields with
       | Some _ => Ok (JDict (dict_set "versions" (JList (xs ++ [entry])) fields))
       | None => Ok data
       end
   | _, _ => Raise AttributeError
   end)%py.

(** [restore_deleted], for a basename as [is_basename] has it (see
    [move_to_deleted]). *)
Definition restore_deleted (stamp : string) (file_basename : string) : M bool :=
  (p <- get ;;
   match deleted p, lookup_file (deleted p) file_basename with
   | Some d, Some f =>
       ensure_history ;;
       modify (fun p =>
         set_history (<[file_basename := f]> (default ∅ (history p)))
           (set_deleted (delete file_basename d) p)) ;;
       p <- get ;;
       r <- lift (update_first_version file_basename (mark_status "active")
                    (load_index p)) ;;
       data <- (if r.2 then ret r.1
                else lift (append_restored
                             (restored_entry stamp file_basename f) r.1)) ;;
       save_index data ;;
       ret true
   | _, _ => ret false
   end)%py.

(** The inner loop of [purge_deleted_older_than]:
    [for v in versions: if v.get("file") == name: v["status"] = "purged"]. *)
Fixpoint mark_purged (name : string) (xs : list json) : result (list json) :=
  match xs with
  | [] => Ok []
  | v :: rest =>
      (f <~ py_get "file" JNull v ;;
       let v' := match v with
                 | JDict d => if is_str name f then JDict (mark_status "purged" d) else v
                 | _ => v
                 end in
       rest' <~ mark_purged name rest ;;
       Ok (v' :: rest'))%py
  end.

(** The two nested loops, on the data read from the index. *)
Fixpoint mark_all_purged (removed : list string) (data : json) : result json :=
  match removed with
  | [] => Ok data
  | name :: removed' =>
      (versions <~ py_get "versions" (JList []) data ;;
       data' <~ match versions, data with
                | JList xs, JDict d =>
                    (xs' <~ mark_purged name xs ;;
                     Ok (match dict_get "versions" d with
                         | Some _ => JDict (dict_set "versions" (JList xs') d)
                         | None => data
                         end))
                | _, _ =>
                    (items <~ py_iter versions ;;
                     _ <~ mark_purged name items ;;
                     Ok data)
                end ;;
       mark_all_purged removed' data')%py
  end.

(** [purge_deleted_older_than]; [now] is what [time.time()] returns. *)
Definition purge_deleted_older_than (project_dir : string)
    (plain : has_magic project_dir = false) (now : Z) (days : Z)
  : M (list string) :=
  (p <- get ;;
   let removed :=
     map fst (filter (fun nf => (days * 86400 <? now - mtime nf.2)%Z = true)
                     (glob project_dir plain fnmatch_any (deleted p))) in
   modify (fun p =>
     match deleted p with
     | Some d => set_deleted (foldr delete d removed) p
     | None => p
     end) ;;
   match removed with
   | [] => ret removed
   | _ =>
       p <- get ;;
       data <- lift (mark_all_purged removed (load_index p)) ;;
       save_index data ;;
       ret removed
   end)%py.

(** ** The index as the specification sees it *)

(** The entries of the index. *)
Definition versions_of (data : json) : list json :=
  match data with
  | JDict d =>
      match dict_get "versions" d with
      | Some (JList xs) => xs
      | _ => []
      end
  | _ => []
  end.

Definition versions (p : project) : list json := versions_of (load_index p).

(** A field of an entry; [None] stands for a missing field. *)
Definition field (k : string) (v : json) : option json :=
  match v with
  | JDict d => dict_get k d
  | _ => None
  end.

Definition has_file (name : string) (v : json) : bool :=
  match field "file" v with
  | Some f => is_str name f
  | None => false
  end.

Definition has_status (status : string) (v : json) : bool :=
  match field "status" v with
  | Some st => is_str status st
  | None => false
  end.

(** An entry as the operations write it: a dict with a [file]. *)
Definition entry_wf (v : json) : bool :=
  match v with
  | JDict d => bool_decide (is_Some (dict_get "file" d))
  | _ => false
  end.

(** An object whose [versions] is a list of entries. *)
Definition index_shape (data : json) : bool :=
  match data with
  | JDict d =>
      match dict_get "versions" d with
      | Some (JList xs) => forallb entry_wf xs
      | _ => false
      end
  | _ => false
  end.

(** A well-formed index: an object whose [versions] is a list of
    entries, every str in it being text.  The index of a project
    directory that only the operations have written, with names,
    timestamps and notes that are text, is well formed. *)
Definition index_wf (data : json) : bool := index_shape data && json_text data.

(** The position of the first entry whose [file] is [name]. *)
Fixpoint first_match (name : string) (xs : list json) : option nat :=
  match xs with
  | [] => None
  | v :: rest => if has_file name v then Some O else S <$> first_match name rest
  end.

(** An update of the fields of an entry. *)
Definition on_fields (update : list (string * json) -> list (string * json))
    (v : json) : json :=
  match v with
  | JDict d => JDict (update d)
  | _ => v
  end.

(** [data] with its list of entries replaced. *)
Definition set_versions (xs : list json) (data : json) : json :=
  match data with
  | JDict d => JDict (dict_set "versions" (JList xs) d)
  | _ => data
  end.

(** [json_ok] as a test. *)
Fixpoint json_okb (v : json) : bool :=
  match v with
  | JNum lit => is_number_lit lit || is_constant_lit lit
  | JList xs => forallb json_okb xs
  | JDict kxs =>
      bool_decide (NoDup kxs.*1) && forallb (fun '(_, x) => json_okb x) kxs
  | _ => true
  end.

(** What the loop of [purge_deleted_older_than] does to an entry for
    one purged basename. *)
Definition purge_entry (name : string) (v : json) : json :=
  if has_file name v then on_fields (mark_status "purged") v else v.

Definition purge_entries (removed : list string) (xs : list json) : list json :=
  foldl (fun xs name => map (purge_entry name) xs) xs removed.

(** The basenames [purge_deleted_older_than] removes. *)
Definition expired (project_dir : string) (plain : has_magic project_dir = false)
    (now days : Z) (p : project) : list string :=
  map fst (filter (fun nf => (days * 86400 <? now - mtime nf.2)%Z = true)
                  (glob project_dir plain fnmatch_any (deleted p))).

(** The name [compress_file] gives the compressed file. *)
Definition gz_name (name : string) : string := name +:+ ".gz".

Fixpoint last_char (s : string) : option ascii :=
  match s with
  | "" => None
  | String c "" => Some c
  | String _ r => last_char r
  end.

(** [a] was modified no earlier than [b]. *)
Definition newer_or_equal (a b : string * file) : Prop :=
  (mtime b.2 <= mtime a.2)%Z.

Section Compression_done.

Variable gzip : string -> string.
Variable now : Z.

(** The project directory [p'] that the loop of [compress_old_versions]
    leaves when it runs from [p] over the files [names]: each of them is
    replaced by its compressed copy, the first entry that bore its name
    is updated, and nothing else has changed. *)
Record compression_done (names : list string) (p p' : project) : Prop := {
  cd_index_wf : index_wf (load_index p') = true;
  cd_deleted : deleted p' = deleted p;
  cd_gone : forall n f, n ∈ names -> lookup_file (history p) n = Some f ->
    lookup_file (history p') n = None /\
    lookup_file (history p') (gz_name n) = Some (File (gzip (content f)) now);
  cd_kept : forall k, k ∉ names -> (forall n, n ∈ names -> k <> gz_name n) ->
    lookup_file (history p') k = lookup_file (history p) k;
  cd_length : length (versions p') = length (versions p);
  cd_entry : forall n i v, n ∈ names ->
    first_match n (versions p) = Some i -> versions p !! i = Some v ->
    versions p' !! i = Some (on_fields (mark_compressed (gz_name n)) v);
  cd_other : forall i v, versions p !! i = Some v ->
    (forall n, n ∈ names -> first_match n (versions p) <> Some i) ->
    versions p' !! i = Some v
}.

End Compression_done.

(** A decimal numeral without leading zeros. *)
Definition canonical (u : Decimal.uint) : Prop :=
  u = Decimal.D0 Decimal.Nil \/
  match u with
  | Decimal.Nil | Decimal.D0 _ => False
  | _ => True
  end.

(** ** Sequences of operations *)

(** The operations on a project directory: a snapshot by the host
    ([save_versioned_copy]) and the five operations on the index. *)
Inductive op : Type :=
  | Snapshot (host : option string) (stem file_stamp stamp : string)
      (now : Z) (note : string)
  | Register (stamp : string) (filename : path) (note : string) (compressed : bool)
  | Compress (now keep_uncompressed : Z)
  | Move (file_basename : string)
  | Restore (stamp file_basename : string)
  | Purge (now days : Z).

Section Operations.

Variable project_dir : string.
Hypothesis plain : has_magic project_dir = false.
Variable gzip : string -> string.

(** The project directory after an operation, whatever it returned. *)
Definition run_op (o : op) (p : project) : project :=
  match o with
  | Snapshot host stem file_stamp stamp now note =>
      (save_versioned_copy host stem file_stamp stamp now note p).2
  | Register stamp filename note compressed =>
      (register_version stamp filename note compressed p).2
  | Compress now keep => (compress_old_versions project_dir plain gzip now keep p).2
  | Move name => (move_to_deleted name p).2
  | Restore stamp name => (restore_deleted stamp name p).2
  | Purge now days => (purge_deleted_older_than project_dir plain now days p).2
  end.

Definition run_ops (ops : list op) (p : project) : project :=
  foldl (fun p o => run_op o p) p ops.

End Operations.


(** Every str the operation hands to the index is text. *)
Definition op_text (o : op) : bool :=
  match o with
  | Snapshot _ stem file_stamp stamp _ note =>
      is_text stem && is_text file_stamp && is_text stamp && is_text note
  | Register stamp filename note _ =>
      is_text stamp && is_text (basename filename) && is_text note
  | Restore stamp name => is_text stamp && is_text name
  | Compress _ _ | Move _ | Purge _ _ => true
  end.

(** Every file name the operation is given or makes is a basename. *)
Definition op_basenames (o : op) : bool :=
  match o with
  | Snapshot _ stem file_stamp _ _ _ =>
      is_basename (stem +:+ "_" +:+ file_stamp +:+ ".blend")
  | Move name | Restore _ name => is_basename name
  | Register _ _ _ _ | Compress _ _ | Purge _ _ => true
  end.

(** ** The background worker and the foreground, on one index *)

(** What a background operation does to the data it has read from the
    index, between its [load_index] and its [save_index]. *)
Inductive index_update : Type :=
  | CompressUpdate (name : string)
  | PurgeUpdate (removed : list string).

Definition apply_update (u : index_update) (data : json) : result json :=
  match u with
  | CompressUpdate name =>
      (r <~ update_first_version name (mark_compressed (gz_name name)) data ;;
       Ok r.1)%py
  | PurgeUpdate removed => mark_all_purged removed data
  end.

(** The steps of the two threads that touch [index.json]: the worker of
    [_autosave_worker] reads the index and updates what it read, then
    writes it; [register_version] in the foreground reads the index and
    appends its entry, then writes it. *)
Inductive action : Type := BgLoad | BgSave | FgLoad | FgSave.

(** The file system, and what each thread holds between its two steps. *)
Record race : Type := Race {
  disk : project;
  bg_data : option json;
  fg_data : option json
}.

Definition held (r : result json) : option json :=
  match r with
  | Ok data => Some data
  | Raise _ => None
  end.

Definition step (u : index_update) (entry : json) (a : action) (s : race) : race :=
  match a with
  | BgLoad => Race (disk s) (held (apply_update u (load_index (disk s)))) (fg_data s)
  | FgLoad => Race (disk s) (bg_data s) (held (append_version entry (load_index (disk s))))
  | BgSave =>
      match bg_data s with
      | Some data => Race (save_index data (disk s)).2 None (fg_data s)
      | None => s
      end
  | FgSave =>
      match fg_data s with
      | Some data => Race (save_index data (disk s)).2 (bg_data s) None
      | None => s
      end
  end.

Definition run_schedule (u : index_update) (entry : json)
    (schedule : list action) (p : project) : project :=
  disk (foldl (fun s a => step u entry a s) (Race p None None) schedule).

(** The schedules of the two threads: each thread's two steps in order. *)
Definition interleavings : list (list action) :=
  [[BgLoad; BgSave; FgLoad; FgSave]; [BgLoad; FgLoad; BgSave; FgSave];
   [BgLoad; FgLoad; FgSave; BgSave]; [FgLoad; BgLoad; BgSave; FgSave];
   [FgLoad; BgLoad; FgSave; BgSave]; [FgLoad; FgSave; BgLoad; BgSave]].


(** ** Sample project directories *)

(** A path for them, without pattern characters. *)
Definition sample_dir : string := "/autosave/scene".

Definition sample_entry (name status : string) (compressed : bool) : json :=
  JDict [("file", JStr name); ("timestamp", JStr "2024-10-27 02:30:00");
         ("size_MB", JNum "1.5"); ("note", JStr "auto");
         ("status", JStr status); ("compressed", JBool compressed)].

Definition sample_index (entries : list json) : string :=
  json_dumps (JDict [("versions", JList entries)]).

(** Three versions, none compressed, the last the newest. *)
Definition sample_project : project :=
  Project
    (Some (sample_index [sample_entry "scene_1.blend" "active" false;
                         sample_entry "scene_2.blend" "active" false;
                         sample_entry "scene_3.blend" "active" false]))
    (Some (list_to_map [("scene_1.blend", File "one" 100);
                        ("scene_2.blend", File "two" 200);
                        ("scene_3.blend", File "three" 300)]))
    None.

(** One version in [deleted/], one purged, one active. *)
Definition sample_project_deleted : project :=
  Project
    (Some (sample_index [sample_entry "scene_1.blend" "purged" false;
                         sample_entry "scene_2.blend" "deleted" false;
                         sample_entry "scene_3.blend" "active" false]))
    (Some (list_to_map [("scene_3.blend", File "three" 300)]))
    (Some (list_to_map [("scene_2.blend", File "two" 200)])).

(** The three versions and a file of [history/] that no entry bears. *)
Definition sample_project_orphan : project :=
  Project (index sample_project)
    (Some (<["orphan.blend" := File "stray" 50]>
             (default ∅ (history sample_project))))
    None.

(** An index that is valid JSON and has no [versions]. *)
Definition project_without_versions : project :=
  Project (Some "{}") None None.

(** A file of [deleted/] whose name starts with a dot, written at time 0. *)
Definition project_with_hidden_file : project :=
  Project None None (Some (list_to_map [(".scene_1.blend", File "one" 0%Z)])).

(** Three snapshots of a document whose name starts with a dot
    ([.scene.blend] has the stem [.scene]), the last the newest. *)
Definition project_with_hidden_snapshots : project :=
  Project
    (Some (sample_index [sample_entry ".scene_1.blend" "active" false;
                         sample_entry ".scene_2.blend" "active" false;
                         sample_entry ".scene_3.blend" "active" false]))
    (Some (list_to_map [(".scene_1.blend", File "one" 100);
                        (".scene_2.blend", File "two" 200);
                        (".scene_3.blend", File "three" 300)]))
    None.

(** ** Paths, as [pathlib] reads them on a POSIX system *)

(** [s.split("/")]. *)
Fixpoint split_sep (s : string) : list string :=
  match s with
  | "" => [""]
  | String c r =>
      if N_of_ascii c =? 47 then "" :: split_sep r
      else match split_sep r with
           | x :: xs => String c x :: xs
           | [] => [String c ""]
           end
  end.

(** [s.lstrip("/")]. *)
Fixpoint lstrip_sep (s : string) : string :=
  match s with
  | String c r => if N_of_ascii c =? 47 then lstrip_sep r else s
  | "" => ""
  end.

(** A parsed path: the root ([/], [//] or none) and the components
    after it. *)
Record pure_path : Type := PurePath { root : string; parts : list string }.

(** [splitroot] of the POSIX flavour: exactly two leading separators
    are kept as they are, any other number of them is one. *)
Definition path_root (s : string) : string :=
  let n := (String.length s - String.length (lstrip_sep s))%nat in
  if (n =? 0)%nat then "" else if (n =? 2)%nat then "//" else "/".

(** [parse_parts]: empty components and [.] are dropped. *)
Definition path_parts (s : string) : list string :=
  filter (fun x => x <> "" /\ x <> ".") (split_sep s).

(** [Path(s)]. *)
Definition Path (s : string) : pure_path := PurePath (path_root s) (path_parts s).

(** [p.name]: the last component, empty when there is none. *)
Definition path_name (p : pure_path) : string := default "" (last (parts p)).

(** [name.rfind(".")]. *)
Fixpoint rfind_dot (s : string) : option nat :=
  match s with
  | "" => None
  | String c r =>
      match rfind_dot r with
      | Some i => Some (S i)
      | None => if N_of_ascii c =? 46 then Some O else None
      end
  end.

(** [p.stem]: the name without its last suffix; a dot that starts or
    ends the name starts no suffix. *)
Definition stem (p : pure_path) : string :=
  let name := path_name p in
  match rfind_dot name with
  | Some i =>
      if ((0 <? i) && (i <? String.length name - 1))%nat then substring 0 i name
      else name
  | None => name
  end.

(** [p / child]: a child with a root replaces [p]. *)
Definition joinpath (p : pure_path) (child : string) : pure_path :=
  let c := Path child in
  if bool_decide (root c = "") then PurePath (root p) (parts p ++ parts c) else c.

(** [str(p)]. *)
Definition path_str (p : pure_path) : string :=
  let s := root p +:+ join "/" (parts p) in
  if bool_decide (s = "") then "." else s.

(** [s.replace(old, new)] for two characters. *)
Fixpoint replace_char (old new : ascii) (s : string) : string :=
  match s with
  | "" => ""
  | String c r =>
      String (if bool_decide (c = old) then new else c) (replace_char old new r)
  end.

(** The name of the project of a document: [proj_name] in
    [project_dir_for], [base_name] in [save_versioned_copy] and in
    [manual_backup]. *)
Definition proj_name (blend_path : string) : string :=
  if bool_decide (blend_path = "") then "unsaved_project"
  else stem (Path blend_path).

Definition safe_name (blend_path : string) : string :=
  replace_char " " "_" (proj_name blend_path).

(** [project_dir_for]: the path it returns.  The directory is created
    at that path with its parents; it is the project directory the
    operations run on. *)
Definition project_dir_for (blend_path root_dir : string) : string :=
  path_str (joinpath (Path root_dir) (safe_name blend_path)).

(** A character other than the separator. *)
Definition no_sep (c : ascii) : bool := negb (N_of_ascii c =? 47).

(** ** The background worker of [core.py] *)

(** The settings the worker reads. *)
Record UASettings : Type := Settings {
  keep_uncompressed : Z;
  purge_days : Z
}.

Section Worker.

Variable gzip : string -> string.

(** [_compress], the function the worker hands to its thread, for a
    project directory at a path without pattern characters.  An
    exception of either call is caught and printed; [now_gz] and
    [now_purge] are the readings of the clock in the two calls. *)
Definition _compress (proj_dir : string) (plain : has_magic proj_dir = false)
    (settings : UASettings) (now_gz now_purge : Z) : M unit :=
  fun p =>
    match (compress_old_versions proj_dir plain gzip now_gz
             (keep_uncompressed settings) ;;
           if (0 <? purge_days settings)%Z
           then (purge_deleted_older_than proj_dir plain now_purge
                   (purge_days settings) ;; ret tt)
           else ret tt)%py p with
    | (Ok _, p') => (Ok tt, p')
    | (Raise _, p') => (Ok tt, p')
    end.

(** One call of [_autosave_worker] by the timer, the thread it starts
    running to its end before anything else touches the project
    directory.  [filepath] is [bpy.data.filepath] and [base_dir] the
    absolute path of the directory of the settings; the project
    directory is the one at [project_dir_for filepath base_dir].  The
    result is what [save_versioned_copy] returned.  The delay the
    worker hands back to the timer is not part of the model. *)
Definition _autosave_worker (settings : UASettings) (host : option string)
    (filepath base_dir : string)
    (plain : has_magic (project_dir_for filepath base_dir) = false)
    (file_stamp stamp : string) (now now_gz now_purge : Z)
  : M (option string) :=
  (saved <- save_versioned_copy host (proj_name filepath) file_stamp stamp now "auto" ;;
   _compress (project_dir_for filepath base_dir) plain settings now_gz now_purge ;;
   ret saved)%py.

End Worker.

(** ** The outcome of an operation *)

Definition forget {A} (r : result A) : result unit :=
  match r with
  | Ok _ => Ok tt
  | Raise e => Raise e
  end.

Section Outcomes.

Variable project_dir : string.
Hypothesis plain : has_magic project_dir = false.
Variable gzip : string -> string.

(** Whether the operation returns or raises, the value it returns
    left out. *)
Definition op_result (o : op) (p : project) : result unit :=
  match o with
  | Snapshot host stem file_stamp stamp now note =>
      forget (save_versioned_copy host stem file_stamp stamp now note p).1
  | Register stamp filename note compressed =>
      forget (register_version stamp filename note compressed p).1
  | Compress now keep =>
      forget (compress_old_versions project_dir plain gzip now keep p).1
  | Move name => forget (move_to_deleted name p).1
  | Restore stamp name => forget (restore_deleted stamp name p).1
  | Purge now days =>
      forget (purge_deleted_older_than project_dir plain now days p).1
  end.

End Outcomes.

(** An object, a dict of Python. *)
Definition is_dict (v : json) : bool :=
  match v with
  | JDict _ => true
  | _ => false
  end.

(** * Properties *)

Local Close Scope N_scope.

(** ** The text of the index is read back as it was written *)

Lemma append_assoc (a b c : string) : (a +:+ b) +:+ c = a +:+ (b +:+ c).
Proof. induction a as [|x a IH]; simpl; congruence. Qed.

Lemma append_nil_r (s : string) : s +:+ "" = s.
Proof. induction s as [|x s IH]; simpl; congruence. Qed.

Lemma length_append (a b : string) :
  String.length (a +:+ b) = String.length a + String.length b.
Proof. induction a as [|x a IH]; simpl; congruence. Qed.

Lemma scan_string_shorter s : forall skip t r,
  scan_string skip s = Some (t, r) -> String.length r < String.length s.
Proof.
  induction s as [|c s IH]; intros skip t r H; [done |].
  simpl in H. destruct skip as [|k].
  - destruct (N_of_ascii c =? 34)%N; [simplify_eq; simpl; lia |].
    destruct (N_of_ascii c =? 92)%N.
    + destruct (scan_escape s) as [[txt len]|]; [|done]. simpl in H.
      destruct (scan_string len s) as [[t' r']|] eqn:E; [|done].
      simplify_eq/=. apply IH in E. lia.
    + destruct (N_of_ascii c <? 32)%N; [done |].
      destruct (scan_string 0 s) as [[t' r']|] eqn:E; [|done].
      simplify_eq/=. apply IH in E. lia.
  - apply IH in H. simpl. lia.
Qed.

Lemma strip_word_length w : forall s r,
  strip_word w s = Some r -> String.length s = String.length w + String.length r.
Proof.
  induction w as [|a w IH]; intros s r H; simpl in *.
  - destruct s; by simplify_eq.
  - destruct s as [|b s]; [done |]. case_decide; [|done].
    apply IH in H. simpl. lia.
Qed.

Lemma scan_keyword_shorter kws s t r :
  Forall (fun wt => wt.1 <> "") kws ->
  scan_keyword kws s = Some (t, r) -> String.length r < String.length s.
Proof.
  induction 1 as [|[w t'] kws Hw _ IH]; simpl; [done |].
  destruct (strip_word w s) as [r'|] eqn:E; [|done].
  intros ?; simplify_eq. apply strip_word_length in E.
  destruct w; [done |]. simpl in E. lia.
Qed.

Lemma keywords_nonempty : Forall (fun wt : string * token => wt.1 <> "") keywords.
Proof. unfold keywords. repeat constructor; done. Qed.

Lemma span_length p s a b :
  span p s = (a, b) -> String.length s = String.length a + String.length b.
Proof.
  revert a b. induction s as [|c s IH]; intros a b H; simpl in *.
  - by simplify_eq.
  - destruct (p c); [|by simplify_eq].
    destruct (span p s) as [a' b'] eqn:E. simplify_eq/=.
    by rewrite (IH a' b).
Qed.

Lemma scan_token_shorter c s t r :
  scan_token c s = Some (t, r) -> String.length r <= String.length s.
Proof.
  unfold scan_token. intros H.
  destruct (punctuation c); [simplify_eq; lia |].
  destruct (N_of_ascii c =? 34)%N.
  { destruct (scan_string 0 s) as [[t' r']|] eqn:E; [|done].
    simplify_eq/=. apply scan_string_shorter in E. lia. }
  destruct (scan_keyword keywords (String c s)) as [[t' r']|] eqn:E.
  { simplify_eq. apply scan_keyword_shorter in E; [|apply keywords_nonempty]. simpl in E. lia. }
  destruct (span is_num_char (String c s)) as [lit r'] eqn:E'.
  destruct (is_number_lit lit) eqn:El; [|done]. simplify_eq.
  apply span_length in E'. destruct lit; [done |]. simpl in E'. lia.
Qed.

Lemma lex_fuel f1 : forall f2 s,
  String.length s < f1 -> String.length s < f2 -> lex f1 s = lex f2 s.
Proof.
  induction f1 as [|f1 IH]; intros f2 s H1 H2; [lia |].
  destruct f2 as [|f2]; [lia |].
  destruct s as [|c s]; [done |]. simpl in *.
  destruct (is_ws c); [apply IH; lia |].
  destruct (scan_token c s) as [[t r]|] eqn:E; [|done]. simpl.
  apply scan_token_shorter in E. rewrite (IH f2 r); [done | lia..].
Qed.

Lemma lex_step f c r :
  lex (S f) (String c r) =
  if is_ws c then lex f r
  else '(t, r') ← scan_token c r; ts ← lex f r'; Some (t :: ts).
Proof. done. Qed.

Lemma lexer_nil : lexer "" = Some [].
Proof. done. Qed.

Lemma lexer_ws c s : is_ws c = true -> lexer (String c s) = lexer s.
Proof.
  intros H. unfold lexer. rewrite lex_step, H. apply lex_fuel; simpl; lia.
Qed.

Lemma lexer_token c s t r :
  is_ws c = false -> scan_token c s = Some (t, r) ->
  lexer (String c s) = ts ← lexer r; Some (t :: ts).
Proof.
  intros H E. unfold lexer. rewrite lex_step, H, E. cbn -[lex String.length].
  apply scan_token_shorter in E.
  rewrite (lex_fuel _ (S (String.length r))); [done | simpl; lia..].
Qed.

Lemma lexer_spaces n s : lexer (spaces n +:+ s) = lexer s.
Proof. induction n as [|n IH]; simpl; [done |]. by rewrite lexer_ws. Qed.

Lemma lexer_newline_indent level s : lexer (newline_indent level +:+ s) = lexer s.
Proof. unfold newline_indent. simpl. rewrite lexer_ws by done. apply lexer_spaces. Qed.

Lemma lexer_punctuation c t s :
  punctuation c = Some t -> lexer (String c s) = ts ← lexer s; Some (t :: ts).
Proof.
  intros H. apply lexer_token; [|by unfold scan_token; rewrite H].
  revert H. unfold punctuation, is_ws.
  destruct c as [[] [] [] [] [] [] [] []]; by vm_compute.
Qed.

Lemma scan_escape_char c r :
  scan_string 0 (escape_char c +:+ r) =
  '(t, rest) ← scan_string 0 r; Some (String c t, rest).
Proof. destruct c as [[] [] [] [] [] [] [] []]; reflexivity. Qed.

Lemma scan_string_escape s r :
  scan_string 0 (escape s +:+ String quote r) = Some (s, r).
Proof.
  induction s as [|c s IH]; [done |].
  simpl. rewrite append_assoc, scan_escape_char, IH. done.
Qed.

Lemma lexer_string k s :
  lexer (encode_string k +:+ s) = ts ← lexer s; Some (TString k :: ts).
Proof.
  unfold encode_string. simpl. apply lexer_token; [done |].
  unfold scan_token. simpl.
  rewrite append_assoc. simpl. by rewrite scan_string_escape.
Qed.

Lemma span_all p a s :
  all_chars p a = true ->
  match s with "" => True | String c _ => p c = false end ->
  span p (a +:+ s) = (a, s).
Proof.
  intros Ha Hs. induction a as [|c a IH]; simpl in *.
  - destruct s as [|c s]; [done |]. simpl. by rewrite Hs.
  - apply andb_true_iff in Ha as [-> Ha]. by rewrite IH.
Qed.

Lemma num_char_plain c :
  is_num_char c = true ->
  is_ws c = false /\ punctuation c = None /\ (N_of_ascii c =? 34)%N = false.
Proof. destruct c as [[] [] [] [] [] [] [] []]; by vm_compute. Qed.

Lemma number_not_keyword c l s :
  is_number_lit (String c l) = true ->
  scan_keyword keywords (String c l +:+ s) = None.
Proof.
  unfold is_number_lit. intros [Hc Hg]%andb_true_iff.
  simpl in Hc. apply andb_true_iff in Hc as [Hc _].
  destruct c as [[] [] [] [] [] [] [] []];
    try (by vm_compute in Hc); try reflexivity.
  destruct l as [|d l]; [by simpl in Hg |].
  destruct d as [[] [] [] [] [] [] [] []];
    try (by simpl in Hg); reflexivity.
Qed.

Lemma lexer_number lit s :
  is_number_lit lit || is_constant_lit lit = true -> ends_number s = true ->
  lexer (lit +:+ s) = ts ← lexer s; Some (TNumber lit :: ts).
Proof.
  intros [Hl|Hl]%orb_true_iff Hs.
  - destruct lit as [|c l]; [done |].
    pose proof Hl as [Hc Hg]%andb_true_iff.
    pose proof Hc as [Hc1 _]%andb_true_iff.
    destruct (num_char_plain c Hc1) as (Hws & Hp & Hq).
    simpl. apply lexer_token; [done |].
    unfold scan_token. rewrite Hp, Hq.
    change (String c (l +:+ s)) with (String c l +:+ s).
    rewrite number_not_keyword by done.
    rewrite (span_all _ _ _ Hc), Hl; [done |].
    destruct s; [done |]. by apply negb_true_iff.
  - unfold is_constant_lit in Hl.
    repeat (apply orb_true_iff in Hl as [Hl|Hl]);
      apply bool_decide_eq_true in Hl as ->; by apply lexer_token.
Qed.

Lemma json_ind_nested (P : json -> Prop) :
  P JNull -> (forall b, P (JBool b)) -> (forall lit, P (JNum lit)) ->
  (forall s, P (JStr s)) ->
  (forall xs, Forall P xs -> P (JList xs)) ->
  (forall kxs, Forall (fun kx => P kx.2) kxs -> P (JDict kxs)) ->
  forall v, P v.
Proof.
  intros Hnull Hbool Hnum Hstr Hlist Hdict.
  fix IH 1. intros [| b | lit | s | xs | kxs].
  - exact Hnull.
  - apply Hbool.
  - apply Hnum.
  - apply Hstr.
  - apply Hlist. induction xs as [|x xs IHxs]; constructor; [apply IH | exact IHxs].
  - apply Hdict.
    induction kxs as [|[k x] kxs IHkxs]; constructor; [apply IH | exact IHkxs].
Qed.


Lemma lexer_separator level s :
  lexer (("," +:+ newline_indent level) +:+ s) = ts ← lexer s; Some (TComma :: ts).
Proof.
  simpl. rewrite (lexer_punctuation _ TComma) by done.
  rewrite lexer_ws by done. by rewrite lexer_spaces.
Qed.

Lemma lexer_join sep parts toks s ts :
  (forall s', lexer (sep +:+ s') = ts' ← lexer s'; Some (TComma :: ts')) ->
  (forall s', ends_number (sep +:+ s') = true) ->
  Forall2 lexes_as parts toks -> parts <> [] ->
  ends_number s = true -> lexer s = Some ts ->
  lexer (join sep parts +:+ s) = Some (join_tokens toks ++ ts).
Proof.
  intros Hsep Hend H. revert s ts.
  induction H as [|p t ps tks Hp Hps IH]; [done |].
  intros s ts _ Hs Hts. destruct Hps as [|p' t' ps tks Hp' Hps].
  - by apply Hp.
  - change (join sep (p :: p' :: ps)) with (p +:+ sep +:+ join sep (p' :: ps)).
    change (join_tokens (t :: t' :: tks))
      with (t ++ TComma :: join_tokens (t' :: tks)).
    rewrite !append_assoc, <- app_assoc. apply Hp; [apply Hend |].
    rewrite Hsep, (IH s ts) by done. done.
Qed.

Lemma block_cons opening closing level p ps :
  block opening closing level (p :: ps) =
  opening +:+ newline_indent (S level) +:+
  join ("," +:+ newline_indent (S level)) (p :: ps) +:+
  newline_indent level +:+ closing.
Proof. done. Qed.

Lemma append_char c s : String c "" +:+ s = String c s.
Proof. done. Qed.

Lemma lexer_block oc cc ot ct level parts toks s ts :
  punctuation oc = Some ot -> punctuation cc = Some ct ->
  Forall2 lexes_as parts toks -> lexer s = Some ts ->
  lexer (block (String oc "") (String cc "") level parts +:+ s)
  = Some (ot :: join_tokens toks ++ ct :: ts).
Proof.
  intros Ho Hc H Hts. destruct H as [|p t ps tks Hp Hps].
  - unfold block. rewrite append_assoc, !append_char.
    by rewrite (lexer_punctuation _ _ _ Ho), (lexer_punctuation _ _ _ Hc), Hts.
  - rewrite block_cons, !append_assoc, !append_char.
    rewrite (lexer_punctuation _ _ _ Ho), lexer_newline_indent.
    rewrite (lexer_join _ _ (t :: tks) _ (ct :: ts));
      [done | apply lexer_separator | done | by constructor | done | done |].
    by rewrite lexer_newline_indent, (lexer_punctuation _ _ _ Hc), Hts.
Qed.

Lemma lexer_word w t s :
  (w, t) ∈ [("null", TNull); ("true", TTrue); ("false", TFalse)] ->
  lexer (w +:+ s) = ts ← lexer s; Some (t :: ts).
Proof.
  intros H. repeat (apply elem_of_cons in H as [H|H]; [simplify_eq; by apply lexer_token |]).
  by apply elem_of_nil in H.
Qed.

Lemma lexer_encode v : json_ok v -> forall level, lexes_as (encode level v) (tokens v).
Proof.
  induction v as [| b | lit | k | xs IH | kxs IH] using json_ind_nested;
    intros Hok level s ts Hs Hts.
  - simpl encode. rewrite (lexer_word _ TNull), Hts; [done | set_solver].
  - destruct b; simpl encode.
    + rewrite (lexer_word _ TTrue), Hts; [done | set_solver].
    + rewrite (lexer_word _ TFalse), Hts; [done | set_solver].
  - inversion_clear Hok. simpl encode. rewrite lexer_number by done. by rewrite Hts.
  - simpl encode. rewrite lexer_string. by rewrite Hts.
  - inversion_clear Hok as [| | | | ? Hxs |]. simpl encode.
    rewrite (lexer_block _ _ TLBrack TRBrack _ _ (map tokens xs) s ts); try done.
    + simpl. by rewrite <- app_assoc.
    + clear Hs Hts. induction xs as [|x xs IHxs]; simpl; constructor.
      * apply Forall_cons in IH as [IH _]. apply Forall_cons in Hxs as [Hx _]. auto.
      * apply IHxs; [by apply Forall_cons in IH as [_ IH] | by apply Forall_cons in Hxs as [_ ?]].
  - inversion_clear Hok as [| | | | | ? _ Hxs]. simpl encode.
    rewrite (lexer_block _ _ TLBrace TRBrace _ _
      (map (fun '(k, x) => TString k :: TColon :: tokens x) kxs) s ts); try done.
    + simpl. by rewrite <- app_assoc.
    + clear Hs Hts. induction kxs as [|[k x] kxs IHkxs]; cbn [map]; constructor.
      * apply Forall_cons in IH as [IH _]. apply Forall_cons in Hxs as [Hx _].
        intros s' ts' Hs' Hts'.
        change (lexer ((encode_string k +:+ ": " +:+ encode (S level) x) +:+ s')
                = Some ((TString k :: TColon :: tokens x) ++ ts')).
        rewrite !append_assoc, lexer_string.
        change (": " +:+ ?x) with (String ":" (String " " x)).
        rewrite (lexer_punctuation _ TColon) by done.
        rewrite lexer_ws by done. simpl in IH, Hx.
        rewrite (IH Hx (S level) s' ts') by done. done.
      * apply IHkxs; [by apply Forall_cons in IH as [_ IH] | by apply Forall_cons in Hxs as [_ ?]].
Qed.

(** *** Parsing the tokens of a value *)

Lemma tokens_first v :
  exists t rest, tokens v = t :: rest /\ t <> TRBrack /\ t <> TRBrace.
Proof. destruct v as [| [] | | | |]; simpl; eauto. Qed.

Lemma parse_value_list f x rest :
  parse_value (S f) (TLBrack :: tokens x ++ rest) =
  '(xs, r') ← parse_items f (tokens x ++ rest); Some (JList xs, r').
Proof.
  destruct (tokens_first x) as (t & ts & -> & Ht & _). by destruct t.
Qed.

Lemma parse_items_step f ts :
  parse_items (S f) ts =
  '(x, r) ← parse_value f ts;
  match r with
  | TComma :: r' => '(xs, r'') ← parse_items f r'; Some (x :: xs, r'')
  | TRBrack :: r' => Some ([x], r')
  | _ => None
  end.
Proof. done. Qed.

Lemma parse_members_step f k ts :
  parse_members (S f) (TString k :: TColon :: ts) =
  '(x, r1) ← parse_value f ts;
  match r1 with
  | TComma :: r' => '(kxs, r'') ← parse_members f r'; Some ((k, x) :: kxs, r'')
  | TRBrace :: r' => Some ([(k, x)], r')
  | _ => None
  end.
Proof. done. Qed.

Lemma dict_set_fresh k v d : k ∉ d.*1 -> dict_set k v d = d ++ [(k, v)].
Proof.
  induction d as [|[k' v'] d IH]; simpl; [done |].
  intros [Hk Hd]%not_elem_of_cons. case_decide; [done |]. by rewrite IH.
Qed.

Lemma dict_of_pairs_nodup kxs : NoDup kxs.*1 -> dict_of_pairs kxs = kxs.
Proof.
  unfold dict_of_pairs.
  cut (forall acc, NoDup ((acc ++ kxs).*1) ->
         fold_left (fun d kv => dict_set kv.1 kv.2 d) kxs acc = acc ++ kxs).
  { intros H ?. by apply (H []). }
  induction kxs as [|[k v] kxs IH]; intros acc Hnd; simpl.
  - by rewrite app_nil_r.
  - rewrite dict_set_fresh.
    + rewrite IH; rewrite <- app_assoc; done.
    + rewrite fmap_app in Hnd. apply NoDup_app in Hnd as (_ & Hnd & _).
      intros Hk. apply (Hnd k Hk). simpl. left.
Qed.

Lemma parse_encode v : json_ok v -> forall fuel r,
  parse_steps v <= fuel -> parse_value fuel (tokens v ++ r) = Some (v, r).
Proof.
  induction v as [| b | lit | k | xs IH | kxs IH] using json_ind_nested;
    intros Hok fuel r Hf; (destruct fuel as [|f]; [simpl in Hf; lia |]).
  1-4: try destruct b; done.
  - inversion_clear Hok as [| | | | ? Hxs |].
    destruct xs as [|x xs]; [done |].
    change (tokens (JList (x :: xs)))
      with (TLBrack :: join_tokens (map tokens (x :: xs)) ++ [TRBrack]).
    cut (parse_items f (join_tokens (map tokens (x :: xs)) ++ TRBrack :: r)
         = Some (x :: xs, r)).
    { intros Hcut.
      assert (exists rest, join_tokens (map tokens (x :: xs)) ++ TRBrack :: r
                           = tokens x ++ rest) as [rest Hj].
      { destruct xs; [by exists (TRBrack :: r) |].
        eexists. cbn [map join_tokens]. by rewrite <- app_assoc. }
      rewrite <- app_comm_cons, <- app_assoc.
      change ([TRBrack] ++ r) with (TRBrack :: r).
      rewrite Hj in *. by rewrite parse_value_list, Hcut. }
    simpl in Hf. apply Nat.succ_le_mono in Hf.
    clear - IH Hxs Hf. revert f Hf.
    induction xs as [|y ys IHys] in x, IH, Hxs |- *; intros f Hf.
    + apply Forall_cons in IH as [IHx _]. apply Forall_cons in Hxs as [Hx _].
      simpl in Hf. destruct f as [|f]; [lia |].
      rewrite parse_items_step. simpl. rewrite IHx; [done | done | lia].
    + apply Forall_cons in IH as [IHx IH]. apply Forall_cons in Hxs as [Hx Hxs].
      simpl in Hf. destruct f as [|f]; [lia |].
      rewrite parse_items_step.
      change (join_tokens (map tokens (x :: y :: ys)))
        with (tokens x ++ TComma :: join_tokens (map tokens (y :: ys))).
      rewrite <- app_assoc. rewrite IHx; [| done | lia]. simpl.
      rewrite (IHys y); [done | done | done | simpl; lia].
  - inversion_clear Hok as [| | | | | ? Hnd Hxs].
    destruct kxs as [|[k x] kxs]; [done |].
    set (part := fun '(k, x) => TString k :: TColon :: tokens x).
    change (tokens (JDict ((k, x) :: kxs)))
      with (TLBrace :: join_tokens (map part ((k, x) :: kxs)) ++ [TRBrace]).
    cut (parse_members f (join_tokens (map part ((k, x) :: kxs)) ++ TRBrace :: r)
         = Some ((k, x) :: kxs, r)).
    { intros Hcut.
      assert (exists rest, join_tokens (map part ((k, x) :: kxs)) ++ TRBrace :: r
                           = TString k :: rest) as [rest Hj].
      { destruct kxs; cbn [map join_tokens part]; eauto. }
      rewrite <- app_comm_cons, <- app_assoc.
      change ([TRBrace] ++ r) with (TRBrace :: r).
      rewrite Hj in *.
      change (parse_value (S f) (TLBrace :: TString k :: rest))
        with ('(kxs, r') ← parse_members f (TString k :: rest);
              Some (JDict (dict_of_pairs kxs), r')).
      rewrite Hcut. simpl. by rewrite dict_of_pairs_nodup. }
    simpl in Hf. apply Nat.succ_le_mono in Hf.
    clear - IH Hxs Hf. revert f Hf.
    induction kxs as [|[k' y] ys IHys] in k, x, IH, Hxs |- *; intros f Hf.
    + apply Forall_cons in IH as [IHx _]. apply Forall_cons in Hxs as [Hx _]. simpl in IHx, Hx.
      simpl in Hf. destruct f as [|f]; [lia |].
      simpl join_tokens. simpl app. rewrite parse_members_step.
      rewrite IHx; [done | done | lia].
    + apply Forall_cons in IH as [IHx IH]. apply Forall_cons in Hxs as [Hx Hxs]. simpl in IHx, Hx.
      simpl in Hf. destruct f as [|f]; [lia |].
      change (join_tokens (map part ((k, x) :: (k', y) :: ys)))
        with (TString k :: TColon :: tokens x ++
              TComma :: join_tokens (map part ((k', y) :: ys))).
      simpl app. rewrite parse_members_step.
      rewrite <- app_assoc. rewrite IHx; [| done | lia]. simpl.
      rewrite (IHys k' y); [done | done | done | simpl; lia].
Qed.

Lemma join_tokens_length parts :
  list_sum (map length parts) + length parts <= S (length (join_tokens parts)).
Proof.
  induction parts as [|p [|q ps] IH]; simpl in *; [lia.. |].
  rewrite length_app. simpl. lia.
Qed.

Lemma parse_steps_bound v : parse_steps v <= 2 * length (tokens v).
Proof.
  induction v as [| b | lit | k | xs IH | kxs IH] using json_ind_nested;
    try destruct b; simpl; try lia.
  - rewrite length_app. simpl.
    pose proof (join_tokens_length (map tokens xs)) as Hj.
    rewrite length_map, map_map in Hj.
    assert (list_sum (map (fun x => S (parse_steps x)) xs)
            <= 2 * list_sum (map (fun x => length (tokens x)) xs) + length xs).
    { clear Hj. induction IH as [|x xs Hx _ IHxs]; simpl; lia. }
    lia.
  - rewrite length_app. simpl.
    pose proof (join_tokens_length
      (map (fun '(k, x) => TString k :: TColon :: tokens x) kxs)) as Hj.
    rewrite length_map, map_map in Hj.
    assert (list_sum (map (fun '(_, x) => S (parse_steps x)) kxs)
            <= 2 * list_sum (map (fun kx => length
                 (let '(k, x) := kx in TString k :: TColon :: tokens x)) kxs)
               + length kxs).
    { clear Hj. induction IH as [|[k x] kxs Hx _ IHxs]; simpl in *; lia. }
    lia.
Qed.

(** Reading back what was written gives the value that was written. *)
Lemma json_loads_dumps v : json_ok v -> json_loads (json_dumps v) = Some v.
Proof.
  intros Hok. unfold json_loads, json_dumps.
  pose proof (lexer_encode v Hok 0 "" [] eq_refl eq_refl) as Hl.
  rewrite append_nil_r, app_nil_r in Hl. rewrite Hl. cbn [mbind option_bind].
  pose proof (parse_encode v Hok (S (2 * length (tokens v))) []) as Hp.
  rewrite app_nil_r in Hp. rewrite Hp; [done |].
  pose proof (parse_steps_bound v). lia.
Qed.

(** *** What the decoder returns *)


Lemma scan_keyword_ok kws s t r :
  Forall (fun wt => token_ok wt.2) kws ->
  scan_keyword kws s = Some (t, r) -> token_ok t.
Proof.
  induction 1 as [|[w t'] kws Hw _ IH]; simpl; [done |].
  destruct (strip_word w s); [|done]. by intros; simplify_eq.
Qed.

Lemma keywords_ok : Forall (fun wt : string * token => token_ok wt.2) keywords.
Proof. unfold keywords. repeat constructor. Qed.

Lemma scan_token_ok c s t r : scan_token c s = Some (t, r) -> token_ok t.
Proof.
  unfold scan_token. intros H.
  destruct (punctuation c) eqn:Hp.
  { simplify_eq. unfold punctuation in Hp. repeat case_match; by simplify_eq. }
  destruct (N_of_ascii c =? 34)%N.
  { destruct (scan_string 0 s) as [[??]|]; by simplify_eq/=. }
  destruct (scan_keyword keywords (String c s)) as [[??]|] eqn:Hk.
  { simplify_eq. eapply scan_keyword_ok; [apply keywords_ok | done]. }
  destruct (span is_num_char (String c s)) as [lit r'].
  destruct (is_number_lit lit) eqn:Hl; simplify_eq. simpl. by rewrite Hl.
Qed.

Lemma lex_ok fuel : forall s ts, lex fuel s = Some ts -> Forall token_ok ts.
Proof.
  induction fuel as [|f IH]; intros s ts H; [done |].
  destruct s as [|c s]; [by simplify_eq/= |].
  rewrite lex_step in H. destruct (is_ws c); [by eapply IH |].
  destruct (scan_token c s) as [[t r]|] eqn:Ht; [|done]. simpl in H.
  destruct (lex f r) as [ts'|] eqn:Hr; simplify_eq/=.
  constructor; [by eapply scan_token_ok | by eapply IH].
Qed.

Lemma dict_set_keys k v d :
  (dict_set k v d).*1 = if decide (k ∈ d.*1) then d.*1 else d.*1 ++ [k].
Proof.
  induction d as [|[k' v'] d IH]; [done |].
  cbn [dict_set]. destruct (decide (k' = k)) as [->|Hne]; rewrite !fmap_cons; cbn [fst].
  - rewrite decide_True; [done | apply elem_of_cons; by left].
  - rewrite IH. destruct (decide (k ∈ d.*1)).
    + rewrite decide_True; [done | apply elem_of_cons; by right].
    + rewrite decide_False; [done |]. intros [?|?]%elem_of_cons; done.
Qed.

Lemma dict_set_nodup k v d : NoDup d.*1 -> NoDup (dict_set k v d).*1.
Proof.
  intros H. rewrite dict_set_keys. case_decide; [done |].
  apply NoDup_app. split_and!; [done | | apply NoDup_singleton].
  intros x Hx ->%list_elem_of_singleton. done.
Qed.

Lemma dict_set_Forall (P : json -> Prop) k v d :
  P v -> Forall (fun kx => P kx.2) d -> Forall (fun kx => P kx.2) (dict_set k v d).
Proof.
  intros Hv. induction 1 as [|[k' v'] d Hx Hd IH]; simpl.
  - by constructor.
  - case_decide; constructor; done.
Qed.

Lemma dict_of_pairs_ok kxs :
  Forall json_ok kxs.*2 -> json_ok (JDict (dict_of_pairs kxs)).
Proof.
  unfold dict_of_pairs.
  cut (forall acc, json_ok (JDict acc) -> Forall json_ok kxs.*2 ->
         json_ok (JDict (fold_left (fun d kv => dict_set kv.1 kv.2 d) kxs acc))).
  { intros H. apply H. constructor; constructor. }
  induction kxs as [|[k v] kxs IH]; intros acc Hacc Hkxs; simpl; [done |].
  apply Forall_cons in Hkxs as [Hv Hkxs]. apply IH; [|done].
  inversion_clear Hacc. constructor;
    [by apply dict_set_nodup | by apply dict_set_Forall].
Qed.

Lemma parse_value_brace f ts v r :
  parse_value (S f) (TLBrace :: ts) = Some (v, r) ->
  (v = JDict [] /\ ts = TRBrace :: r) \/
  (exists kxs, parse_members f ts = Some (kxs, r) /\ v = JDict (dict_of_pairs kxs)).
Proof.
  destruct ts as [|t ts].
  - cbn -[parse_members]. destruct (parse_members f []) as [[??]|]; intros; simplify_eq/=; eauto.
  - destruct t; cbn -[parse_members];
      try (destruct (parse_members f _) as [[??]|]; intros; simplify_eq/=; eauto).
    all: try (intros; simplify_eq; eauto).
Qed.

Lemma parse_value_brack f ts v r :
  parse_value (S f) (TLBrack :: ts) = Some (v, r) ->
  (v = JList [] /\ ts = TRBrack :: r) \/
  (exists xs, parse_items f ts = Some (xs, r) /\ v = JList xs).
Proof.
  destruct ts as [|t ts].
  - cbn -[parse_items]. destruct (parse_items f []) as [[??]|]; intros; simplify_eq/=; eauto.
  - destruct t; cbn -[parse_items];
      try (destruct (parse_items f _) as [[??]|]; intros; simplify_eq/=; eauto).
    all: try (intros; simplify_eq; eauto).
Qed.

Lemma parse_ok fuel :
  (forall ts v r, Forall token_ok ts -> parse_value fuel ts = Some (v, r) ->
     json_ok v /\ Forall token_ok r) /\
  (forall ts xs r, Forall token_ok ts -> parse_items fuel ts = Some (xs, r) ->
     Forall json_ok xs /\ Forall token_ok r) /\
  (forall ts kxs r, Forall token_ok ts -> parse_members fuel ts = Some (kxs, r) ->
     Forall json_ok kxs.*2 /\ Forall token_ok r).
Proof.
  induction fuel as [|f (IHv & IHi & IHm)]; [done |]. split_and!.
  - intros ts v r Hts H.
    destruct ts as [|t ts]; [done |]. apply Forall_cons in Hts as [Ht Hts].
    destruct t; try done; try (simplify_eq/=; split; [by constructor | done]).
    + apply parse_value_brace in H as [[-> ->]|(kxs & H & ->)].
      * apply Forall_cons in Hts as [_ ?]. split; [repeat constructor | done].
      * apply IHm in H as [??]; [|done]. split; [by apply dict_of_pairs_ok | done].
    + apply parse_value_brack in H as [[-> ->]|(xs & H & ->)].
      * apply Forall_cons in Hts as [_ ?]. split; [repeat constructor | done].
      * apply IHi in H as [??]; [|done]. split; [by constructor | done].
  - intros ts xs r Hts H. rewrite parse_items_step in H.
    destruct (parse_value f ts) as [[x r1]|] eqn:E; [|done].
    cbn -[parse_items] in H.
    apply IHv in E as [Hx Hr1]; [|done].
    destruct r1 as [|t r1]; [done |]. apply Forall_cons in Hr1 as [_ Hr1].
    destruct t; try done.
    + simplify_eq. split; [repeat constructor; done | done].
    + destruct (parse_items f r1) as [[xs' r2]|] eqn:E'; [|done].
      simplify_eq/=. apply IHi in E' as [??]; [|done]. split; [by constructor | done].
  - intros ts kxs r Hts H.
    destruct ts as [|t1 [|t2 ts]]; try done; destruct t1; try done; destruct t2; try done.
    rewrite parse_members_step in H.
    apply Forall_cons in Hts as [_ [_ Hts]%Forall_cons].
    destruct (parse_value f ts) as [[x r1]|] eqn:E; [|done].
    cbn -[parse_members] in H.
    apply IHv in E as [Hx Hr1]; [|done].
    destruct r1 as [|t r1]; [done |]. apply Forall_cons in Hr1 as [_ Hr1].
    destruct t; try done.
    + simplify_eq. split; [repeat constructor; done | done].
    + destruct (parse_members f r1) as [[xs' r2]|] eqn:E'; [|done].
      simplify_eq/=. apply IHm in E' as [??]; [|done]. split; [by constructor | done].
Qed.

Lemma json_loads_ok s v : json_loads s = Some v -> json_ok v.
Proof.
  unfold json_loads. intros H.
  destruct (lexer s) as [ts|] eqn:Hl; [|done]. cbn [mbind option_bind] in H.
  apply lex_ok in Hl.
  destruct (parse_value (S (2 * length ts)) ts) as [[v' r]|] eqn:Hp; [|done].
  destruct r; simplify_eq. by apply (parse_ok _) in Hp as [? _].
Qed.

(** ** Text and the writing of the index *)

Lemma is_text_app_fuel n : forall a b,
  String.length a <= n -> is_text a = true -> is_text (a +:+ b) = is_text b.
Proof.
  induction n as [|n IH]; intros a b Hlen Ha.
  { destruct a; [done | simpl in Hlen; lia]. }
  destruct a as [|c1 a1]; [done |].
  cbn [is_text String.append] in *. simpl in Hlen.
  destruct (byte_in 0 127 c1); [apply IH; [lia | done] |].
  destruct a1 as [|c2 a2]; [done |].
  cbn [is_text String.append] in *. simpl in Hlen.
  destruct (byte_in 194 223 c1).
  { apply andb_true_iff in Ha as [-> Ha]. apply IH; [lia | done]. }
  destruct a2 as [|c3 a3]; [done |].
  cbn [is_text String.append] in *. simpl in Hlen.
  destruct (byte_in 224 239 c1).
  { apply andb_true_iff in Ha as [-> Ha]. apply IH; [lia | done]. }
  destruct a3 as [|c4 a4]; [done |].
  cbn [is_text String.append] in *. simpl in Hlen.
  apply andb_true_iff in Ha as [-> Ha]. apply IH; [lia | done].
Qed.

Lemma is_text_app a b :
  is_text a = true -> is_text b = true -> is_text (a +:+ b) = true.
Proof. intros Ha Hb. by rewrite (is_text_app_fuel (String.length a)). Qed.

Lemma is_text_ascii s : all_chars (byte_in 0 127) s = true -> is_text s = true.
Proof.
  induction s as [|c s IH]; [done |]. simpl.
  intros [-> H]%andb_true_iff. by apply IH.
Qed.

Lemma escape_char_text c : is_text (escape_char c) = byte_in 0 127 c.
Proof. destruct c as [[] [] [] [] [] [] [] []]; reflexivity. Qed.

Lemma escape_char_high c : byte_in 0 127 c = false -> escape_char c = String c "".
Proof. destruct c as [[] [] [] [] [] [] [] []]; done. Qed.

Lemma byte_in_high lo hi c :
  (128 <= lo)%N -> byte_in lo hi c = true -> byte_in 0 127 c = false.
Proof.
  unfold byte_in. intros Hlo [H1%N.leb_le _]%andb_true_iff.
  apply andb_false_iff. right. apply N.leb_gt. lia.
Qed.

Ltac high_byte H := eapply byte_in_high; [|exact H]; lia.

Lemma is_text_escape_fuel n : forall s,
  String.length s <= n -> is_text s = true -> is_text (escape s) = true.
Proof.
  induction n as [|n IH]; intros s Hlen Hs.
  { destruct s; [done | simpl in Hlen; lia]. }
  destruct s as [|c1 s1]; [done |].
  cbn [is_text escape] in *. simpl in Hlen.
  destruct (byte_in 0 127 c1) eqn:E1.
  { apply is_text_app; [by rewrite escape_char_text | apply IH; [lia | done]]. }
  rewrite (escape_char_high c1 E1).
  destruct s1 as [|c2 s2]; [done |].
  cbn [is_text escape String.append] in *. simpl in Hlen. rewrite E1.
  destruct (byte_in 194 223 c1).
  { apply andb_true_iff in Hs as [H2 Hs].
    rewrite (escape_char_high c2) by high_byte H2.
    cbn [String.append]. rewrite H2. apply IH; [lia | done]. }
  destruct s2 as [|c3 s3]; [done |].
  cbn [escape] in *. simpl in Hlen.
  assert (byte_in 0 127 c2 = false /\ byte_in 0 127 c3 = false) as [E2 E3].
  { destruct (byte_in 224 239 c1).
    - apply andb_true_iff in Hs as [[H2 H3]%andb_true_iff _]. split.
      + destruct (byte_in 224 224 c1); [high_byte H2 |].
        destruct (byte_in 237 237 c1); high_byte H2.
      + high_byte H3.
    - destruct s3 as [|c4 s4]; [done |].
      apply andb_true_iff in Hs as [[[[_ H2]%andb_true_iff H3]%andb_true_iff _]%andb_true_iff _].
      split.
      + destruct (byte_in 240 240 c1); [high_byte H2 |].
        destruct (byte_in 244 244 c1); high_byte H2.
      + high_byte H3. }
  rewrite (escape_char_high c2 E2), (escape_char_high c3 E3).
  cbn [String.append is_text]. rewrite ?E1.
  destruct (byte_in 224 239 c1).
  { apply andb_true_iff in Hs as [-> Hs]. apply IH; [lia | done]. }
  destruct s3 as [|c4 s4]; [done |].
  cbn [escape] in *. simpl in Hlen.
  apply andb_true_iff in Hs as [H Hs].
  assert (byte_in 0 127 c4 = false) as E4.
  { apply andb_true_iff in H as [_ H4]. high_byte H4. }
  rewrite (escape_char_high c4 E4). cbn [String.append]. rewrite H.
  apply IH; [lia | done].
Qed.

Lemma is_text_encode_string s : is_text s = true -> is_text (encode_string s) = true.
Proof.
  intros Hs. unfold encode_string.
  change (String quote (escape s +:+ String quote ""))
    with (String quote "" +:+ (escape s +:+ String quote "")).
  apply is_text_app; [done |]. apply is_text_app; [|done].
  by apply (is_text_escape_fuel (String.length s)).
Qed.

Lemma is_text_spaces n : is_text (spaces n) = true.
Proof. induction n; [done |]. done. Qed.

Lemma is_text_newline_indent level : is_text (newline_indent level) = true.
Proof. unfold newline_indent. cbn [is_text]. apply is_text_spaces. Qed.

Lemma chunks_list level x xs :
  chunks level (JList (x :: xs))
  = item_chunks level "[" x ++ flat_map (item_chunks level ",") xs
    ++ [newline_indent level; "]"].
Proof. reflexivity. Qed.

Lemma chunks_dict level kx kxs :
  chunks level (JDict (kx :: kxs))
  = "{" :: newline_indent (S level) :: member_chunks level kx ++
    flat_map (fun kx => ("," +:+ newline_indent (S level)) :: member_chunks level kx) kxs
    ++ [newline_indent level; "}"].
Proof. by destruct kx. Qed.

Lemma cat_app (a b : list string) :
  foldr String.append "" (a ++ b)
  = foldr String.append "" a +:+ foldr String.append "" b.
Proof. induction a as [|x a IH]; simpl; [done |]. by rewrite IH, append_assoc. Qed.

Lemma join_cons sep p ps :
  join sep (p :: ps) = p +:+ foldr (fun q acc => sep +:+ q +:+ acc) "" ps.
Proof.
  revert p. induction ps as [|q ps IH]; intros p.
  - simpl. by rewrite append_nil_r.
  - change (join sep (p :: q :: ps)) with (p +:+ sep +:+ join sep (q :: ps)).
    by rewrite IH.
Qed.

Lemma item_chunks_cat level opening x :
  foldr String.append "" (chunks (S level) x) = encode (S level) x ->
  foldr String.append "" (item_chunks level opening x)
  = (opening +:+ newline_indent (S level)) +:+ encode (S level) x.
Proof.
  intros IH. unfold item_chunks.
  destruct x; cbn [foldr]; rewrite ?append_nil_r; try done; by rewrite IH.
Qed.

Lemma chunks_cat level v : foldr String.append "" (chunks level v) = encode level v.
Proof.
  revert level.
  induction v as [| b | lit | s | xs IH | kxs IH] using json_ind_nested; intros level.
  - done.
  - by destruct b.
  - cbn [chunks encode foldr]. apply append_nil_r.
  - cbn [chunks encode foldr]. apply append_nil_r.
  - destruct xs as [|x xs]; [done |].
    rewrite chunks_list. cbn [encode map]. rewrite block_cons, join_cons.
    inversion_clear IH as [|? ? Hx Hxs].
    rewrite cat_app, (item_chunks_cat level "[" x (Hx _)), !append_assoc.
    f_equal. f_equal. f_equal. rewrite cat_app. f_equal.
    induction Hxs as [|y ys Hy _ IHys]; [done |].
    cbn [flat_map map foldr]. rewrite cat_app, (item_chunks_cat level "," y (Hy _)).
    rewrite IHys. by rewrite !append_assoc.
  - destruct kxs as [|[k x] kxs]; [done |].
    rewrite chunks_dict. cbn [encode map]. rewrite block_cons, join_cons.
    inversion_clear IH as [|? ? Hx Hxs]. cbn [snd] in Hx.
    assert (foldr String.append ""
              (flat_map (fun kx => ("," +:+ newline_indent (S level))
                                   :: member_chunks level kx) kxs)
            = foldr (fun q acc => ("," +:+ newline_indent (S level)) +:+ q +:+ acc) ""
                (map (fun '(k, x) => encode_string k +:+ ": " +:+ encode (S level) x)
                   kxs)) as Hrest.
    { induction Hxs as [|[k' y] ys Hy _ IHys]; [done |].
      cbn [flat_map map foldr app]. rewrite cat_app. unfold member_chunks at 1.
      cbn [foldr fst snd] in *. rewrite Hy. rewrite IHys. by rewrite !append_assoc. }
    cbn [foldr app]. rewrite !cat_app. unfold member_chunks at 1. cbn [foldr fst snd].
    rewrite Hx, Hrest. cbn [foldr]. by rewrite !append_assoc, ?append_nil_r.
Qed.

Lemma item_chunks_text level opening x :
  is_text opening = true -> json_text x = true ->
  Forall (fun c => is_text c = true) (chunks (S level) x) ->
  Forall (fun c => is_text c = true) (item_chunks level opening x).
Proof.
  intros Hop Hx IH. unfold item_chunks.
  assert (is_text (opening +:+ newline_indent (S level)) = true) as Hbuf
    by (apply is_text_app; [done | apply is_text_newline_indent]).
  destruct x as [| [] | lit | s | xs | kxs]; try by constructor.
  - constructor; [|done]. by apply is_text_app.
  - constructor; [|done]. by apply is_text_app.
  - constructor; [|done]. by apply is_text_app.
  - constructor; [|done]. by apply is_text_app.
  - constructor; [|done]. apply is_text_app; [done |]. by apply is_text_encode_string.
Qed.

Lemma chunks_text level v :
  json_text v = true -> Forall (fun c => is_text c = true) (chunks level v).
Proof.
  revert level.
  induction v as [| b | lit | s | xs IH | kxs IH] using json_ind_nested;
    intros level Hv.
  - by repeat constructor.
  - destruct b; by repeat constructor.
  - by repeat constructor.
  - repeat constructor. by apply is_text_encode_string.
  - destruct xs as [|x xs]; [by repeat constructor |].
    rewrite chunks_list. cbn [json_text forallb] in Hv.
    apply andb_true_iff in Hv as [Hx Hxs].
    inversion_clear IH as [|? ? IHx IHxs].
    apply Forall_app. split; [by apply item_chunks_text; auto |].
    apply Forall_app. split.
    + clear Hx IHx. induction IHxs as [|y ys IHy _ IHys]; [done |].
      cbn [forallb] in Hxs. apply andb_true_iff in Hxs as [Hy Hys].
      cbn [flat_map]. apply Forall_app. split; [by apply item_chunks_text; auto |].
      by apply IHys.
    + repeat constructor. apply is_text_newline_indent.
  - destruct kxs as [|[k x] kxs]; [by repeat constructor |].
    rewrite chunks_dict. cbn [json_text forallb] in Hv.
    apply andb_true_iff in Hv as [[Hk Hx]%andb_true_iff Hxs].
    inversion_clear IH as [|? ? IHx IHxs]. cbn [snd] in IHx.
    constructor; [done |]. constructor; [apply is_text_newline_indent |].
    apply Forall_app. split.
    { unfold member_chunks. cbn [fst snd].
      constructor; [by apply is_text_encode_string |]. constructor; [done |]. auto. }
    apply Forall_app. split.
    + clear Hx IHx. induction IHxs as [|[k' y] ys IHy _ IHys]; [done |].
      cbn [forallb] in Hxs. apply andb_true_iff in Hxs as [[Hk' Hy]%andb_true_iff Hys].
      cbn [flat_map snd] in *. constructor.
      { apply is_text_app; [done | apply is_text_newline_indent]. }
      apply Forall_app. split; [|by apply IHys].
      unfold member_chunks. cbn [fst snd].
      constructor; [by apply is_text_encode_string |]. constructor; [done |]. auto.
    + repeat constructor. apply is_text_newline_indent.
Qed.

Lemma write_chunks_text cs :
  Forall (fun c => is_text c = true) cs ->
  write_chunks cs = (foldr String.append "" cs, true).
Proof.
  induction 1 as [|c cs Hc _ IH]; [done |].
  cbn [write_chunks foldr]. by rewrite Hc, IH.
Qed.

Lemma is_text_cat cs :
  Forall (fun c => is_text c = true) cs -> is_text (foldr String.append "" cs) = true.
Proof. induction 1 as [|c cs Hc _ IH]; [done |]. by apply is_text_app. Qed.

Lemma json_dumps_text data : json_text data = true -> is_text (json_dumps data) = true.
Proof.
  intros H. unfold json_dumps. rewrite <- chunks_cat. by apply is_text_cat, chunks_text.
Qed.

(** [save_index] of a value whose strs are text writes the text of
    [json.dump] and returns. *)
Lemma save_index_text data p :
  json_text data = true ->
  save_index data p = (Ok tt, set_index (json_dumps data) p).
Proof.
  intros H. unfold save_index.
  by rewrite (write_chunks_text _ (chunks_text 0 data H)), chunks_cat.
Qed.

(** ** Strs that are not text *)

(** A byte that opens a code point does not continue one. *)
Lemma is_text_first c s : is_text (String c s) = true -> byte_in 128 191 c = false.
Proof.
  intros H. destruct (byte_in 128 191 c) eqn:E; [|done].
  exfalso. revert H. cbn [is_text].
  assert (byte_in 0 127 c = false) as -> by high_byte E.
  assert (byte_in 194 223 c = false) as ->.
  { revert E. unfold byte_in. rewrite !andb_true_iff, andb_false_iff, !N.leb_le, !N.leb_gt. lia. }
  assert (byte_in 224 239 c = false) as ->.
  { revert E. unfold byte_in. rewrite !andb_true_iff, andb_false_iff, !N.leb_le, !N.leb_gt. lia. }
  assert (byte_in 240 244 c = false) as ->.
  { revert E. unfold byte_in. rewrite !andb_true_iff, andb_false_iff, !N.leb_le, !N.leb_gt. lia. }
  destruct s as [|b [|c3 [|d s4]]]; done.
Qed.














(** ** Dicts and the index *)

Lemma json_okb_ok v : json_okb v = true -> json_ok v.
Proof.
  induction v as [| b | lit | k | xs IH | kxs IH] using json_ind_nested;
    simpl; intros H; try by constructor.
  - constructor. induction IH as [|x xs Hx _ IHxs]; [done |].
    simpl in H. apply andb_true_iff in H as [??]. constructor; auto.
  - apply andb_true_iff in H as [Hnd H]. apply bool_decide_eq_true in Hnd.
    constructor; [done |]. clear Hnd.
    induction IH as [|[k x] kxs Hx _ IHxs]; [done |].
    simpl in H. apply andb_true_iff in H as [??]. constructor; auto.
Qed.

Lemma empty_index_ok : json_ok empty_index.
Proof. by apply json_okb_ok. Qed.

Lemma load_index_ok p : json_ok (load_index p).
Proof.
  unfold load_index. destruct (index p) as [txt|]; [|apply empty_index_ok].
  destruct (is_text txt); [|apply empty_index_ok].
  destruct (json_loads txt) eqn:H; [by eapply json_loads_ok | apply empty_index_ok].
Qed.

Lemma load_index_set_index data p :
  json_ok data -> json_text data = true ->
  load_index (set_index (json_dumps data) p) = data.
Proof.
  intros H Htext. unfold load_index. simpl.
  by rewrite json_dumps_text, json_loads_dumps.
Qed.

Lemma dict_get_set k v d : dict_get k (dict_set k v d) = Some v.
Proof.
  induction d as [|[k' v'] d IH]; simpl.
  - by rewrite decide_True.
  - destruct (decide (k' = k)) as [->|Hne]; simpl.
    + by rewrite decide_True.
    + by rewrite decide_False.
Qed.

Lemma dict_get_set_ne k k' v d : k <> k' -> dict_get k' (dict_set k v d) = dict_get k' d.
Proof.
  intros Hne. induction d as [|[k1 v1] d IH]; simpl.
  - by rewrite decide_False.
  - destruct (decide (k1 = k)) as [->|Hne1]; simpl.
    + by rewrite !decide_False.
    + by rewrite IH.
Qed.

Lemma dict_get_set_is_Some k k' v d :
  is_Some (dict_get k' d) -> is_Some (dict_get k' (dict_set k v d)).
Proof.
  intros H. destruct (decide (k = k')) as [->|Hne].
  - rewrite dict_get_set. eauto.
  - by rewrite dict_get_set_ne.
Qed.

Lemma dict_set_ok k v d : json_ok v -> json_ok (JDict d) -> json_ok (JDict (dict_set k v d)).
Proof.
  intros Hv Hd. inversion_clear Hd.
  constructor; [by apply dict_set_nodup | by apply dict_set_Forall].
Qed.

Lemma dict_get_ok k d v : json_ok (JDict d) -> dict_get k d = Some v -> json_ok v.
Proof.
  intros Hd. inversion_clear Hd as [| | | | | ? _ H].
  induction H as [|[k' v'] d Hx _ IH]; simpl; [done |].
  case_decide; [by intros; simplify_eq | done].
Qed.

Lemma versions_of_ok data : json_ok data -> Forall json_ok (versions_of data).
Proof.
  intros H. unfold versions_of. destruct data as [| | | | |d]; try done.
  destruct (dict_get "versions" d) as [[| | | |xs|]|] eqn:E; try done.
  apply (dict_get_ok _ _ _ H) in E. by inversion_clear E.
Qed.

Lemma set_versions_ok xs data :
  Forall json_ok xs -> json_ok data -> json_ok (set_versions xs data).
Proof.
  intros Hxs Hd. destruct data; try done. apply dict_set_ok; [by constructor | done].
Qed.

(** *** Text in the values of the index *)

Lemma json_text_dict_get k d v :
  json_text (JDict d) = true -> dict_get k d = Some v -> json_text v = true.
Proof.
  induction d as [|[k' v'] d IH]; [done |]. cbn [json_text forallb dict_get].
  intros [[_ Hv]%andb_true_iff Hd]%andb_true_iff.
  case_decide; [by intros; simplify_eq | by apply IH].
Qed.

Lemma json_text_dict_set k v d :
  is_text k = true -> json_text v = true -> json_text (JDict d) = true ->
  json_text (JDict (dict_set k v d)) = true.
Proof.
  intros Hk Hv. induction d as [|[k' v'] d IH]; cbn [json_text forallb dict_set].
  - intros _. by rewrite Hk, Hv.
  - intros [[Hk' Hv']%andb_true_iff Hd]%andb_true_iff. case_decide.
    + cbn [forallb]. by rewrite Hk', Hv, Hd.
    + cbn [forallb]. rewrite Hk', Hv'. by apply IH.
Qed.

Lemma json_text_versions_of data :
  json_text data = true -> forallb json_text (versions_of data) = true.
Proof.
  intros H. unfold versions_of. destruct data as [| | | | |d]; try done.
  destruct (dict_get "versions" d) as [[| | | |xs|]|] eqn:E; try done.
  by apply (json_text_dict_get _ _ _ H) in E.
Qed.

Lemma json_text_set_versions xs data :
  forallb json_text xs = true -> json_text data = true ->
  json_text (set_versions xs data) = true.
Proof.
  intros Hxs Hd. destruct data; try done. by apply json_text_dict_set.
Qed.

Lemma json_text_on_fields update v :
  (forall d, json_text (JDict d) = true -> json_text (JDict (update d)) = true) ->
  json_text v = true -> json_text (on_fields update v) = true.
Proof. intros Hu. destruct v; try done. apply Hu. Qed.

Lemma has_file_text name v :
  json_text v = true -> has_file name v = true -> is_text name = true.
Proof.
  unfold has_file, field. destruct v as [| | | | |d]; try done.
  destruct (dict_get "file" d) as [f|] eqn:E; [|done].
  intros H. apply (json_text_dict_get _ _ _ H) in E.
  destruct f; try done. simpl. by intros ->%bool_decide_eq_true.
Qed.

(** *** The shape of the index *)

Lemma index_wf_shape data : index_wf data = true -> index_shape data = true.
Proof. by intros [? _]%andb_true_iff. Qed.

Lemma index_wf_text data : index_wf data = true -> json_text data = true.
Proof. by intros [_ ?]%andb_true_iff. Qed.

Lemma load_index_saved data p :
  json_ok data -> index_wf data = true ->
  load_index (set_index (json_dumps data) p) = data.
Proof. intros H Hwf. by apply load_index_set_index, index_wf_text. Qed.

Lemma versions_of_set_versions xs data :
  index_wf data = true -> versions_of (set_versions xs data) = xs.
Proof.
  intros H%index_wf_shape. revert H.
  destruct data as [| | | | |d]; try done. simpl. by rewrite dict_get_set.
Qed.

Lemma index_wf_set_versions xs data :
  index_wf data = true -> forallb entry_wf xs = true ->
  forallb json_text xs = true ->
  index_wf (set_versions xs data) = true.
Proof.
  intros [Hs Ht]%andb_true_iff Hxs Htx. apply andb_true_iff. split.
  - revert Hs. destruct data as [| | | | |d]; try done. simpl.
    by rewrite dict_get_set.
  - by apply json_text_set_versions.
Qed.

Lemma index_wf_versions data :
  index_wf data = true -> forallb entry_wf (versions_of data) = true.
Proof.
  intros H%index_wf_shape. revert H.
  unfold index_shape, versions_of. destruct data as [| | | | |d]; try done.
  by destruct (dict_get "versions" d) as [[| | | |xs|]|].
Qed.

Lemma index_wf_versions_text data :
  index_wf data = true -> forallb json_text (versions_of data) = true.
Proof. intros H%index_wf_text. by apply json_text_versions_of. Qed.

(** ** The loop that updates the first matching entry *)

Lemma update_first_wf name update xs :
  forallb entry_wf xs = true ->
  update_first name update xs =
  Ok ((fun i => alter (on_fields update) i xs) <$> first_match name xs).
Proof.
  induction xs as [|v xs IH]; [done |].
  simpl. intros [Hv Hxs]%andb_true_iff.
  destruct v as [| | | | |d]; try done.
  simpl in Hv. apply bool_decide_eq_true in Hv as [f Hf].
  unfold has_file. simpl. rewrite Hf.
  destruct (is_str name f); [done |].
  rewrite IH by done. by destruct (first_match name xs).
Qed.

Lemma update_first_version_wf name update data :
  index_wf data = true ->
  update_first_version name update data =
  Ok (match first_match name (versions_of data) with
      | Some i =>
          (set_versions (alter (on_fields update) i (versions_of data)) data, true)
      | None => (data, false)
      end).
Proof.
  intros H. pose proof (index_wf_versions _ H) as Hxs.
  apply index_wf_shape in H. revert H Hxs.
  unfold index_shape, versions_of, update_first_version.
  destruct data as [| | | | |d]; try done.
  destruct (dict_get "versions" d) as [[| | | |xs|]|]; try done.
  intros _ Hxs. rewrite update_first_wf by done.
  by destruct (first_match name xs).
Qed.

Lemma first_match_lookup name xs i :
  first_match name xs = Some i ->
  exists v, xs !! i = Some v /\ has_file name v = true /\
  forall j w, j < i -> xs !! j = Some w -> has_file name w = false.
Proof.
  revert i. induction xs as [|v xs IH]; intros i; [done |]. simpl.
  destruct (has_file name v) eqn:Hv.
  - intros ?; simplify_eq. exists v. split; [done | split; [done | intros; lia]].
  - destruct (first_match name xs) as [i'|]; [|done]. intros ?; simplify_eq/=.
    destruct (IH i' eq_refl) as (w & Hw & Hf & Hlt). exists w. split; [done | split; [done |]].
    intros [|j] w' Hj Hw'; simplify_eq/=; [done |]. eapply Hlt; [|done]. lia.
Qed.

Lemma first_match_None name xs :
  first_match name xs = None <-> Forall (fun v => has_file name v = false) xs.
Proof.
  induction xs as [|v xs IH]; simpl; [by split; [constructor |] |].
  destruct (has_file name v) eqn:Hv.
  - split; [done |]. intros [? _]%Forall_cons; congruence.
  - destruct (first_match name xs); simpl.
    + split; [done |]. intros [_ H]%Forall_cons. by apply IH in H.
    + split; [|done]. intros _. constructor; [done | by apply IH].
Qed.

Lemma entry_wf_on_fields update v :
  (forall d, is_Some (dict_get "file" d) -> is_Some (dict_get "file" (update d))) ->
  entry_wf v = true -> entry_wf (on_fields update v) = true.
Proof.
  intros Hu. destruct v; try done. simpl.
  intros H%bool_decide_eq_true. apply bool_decide_eq_true. auto.
Qed.

Lemma forallb_alter {A} (P : A -> bool) f i (l : list A) :
  (forall x, P x = true -> P (f x) = true) ->
  forallb P l = true -> forallb P (alter f i l) = true.
Proof.
  intros Hf. rewrite !forallb_forall. intros H y Hy%list_elem_of_In.
  apply list_elem_of_lookup in Hy as [j Hj].
  destruct (decide (i = j)) as [->|Hne].
  - rewrite list_lookup_alter_eq in Hj.
    destruct (l !! j) as [x|] eqn:Hx; simplify_eq/=.
    apply Hf, H, list_elem_of_In, list_elem_of_lookup. eauto.
  - rewrite list_lookup_alter_ne in Hj by done.
    apply H, list_elem_of_In, list_elem_of_lookup. eauto.
Qed.

Lemma forallb_alter_at {A} (P : A -> bool) f i (l : list A) :
  (forall x, l !! i = Some x -> P x = true -> P (f x) = true) ->
  forallb P l = true -> forallb P (alter f i l) = true.
Proof.
  intros Hf. rewrite !forallb_forall. intros H y Hy%list_elem_of_In.
  apply list_elem_of_lookup in Hy as [j Hj].
  destruct (decide (i = j)) as [->|Hne].
  - rewrite list_lookup_alter_eq in Hj.
    destruct (l !! j) as [x|] eqn:Hx; simplify_eq/=.
    apply Hf; [done |]. apply H, list_elem_of_In, list_elem_of_lookup. eauto.
  - rewrite list_lookup_alter_ne in Hj by done.
    apply H, list_elem_of_In, list_elem_of_lookup. eauto.
Qed.

Ltac run_call :=
  unfold ensure_deleted, ensure_history;
  unfold bind, ret, get, modify, lift;
  cbn [fst snd].

Lemma py_get_versions_wf data :
  index_wf data = true ->
  py_get "versions" (JList []) data = Ok (JList (versions_of data)).
Proof.
  intros H%index_wf_shape. revert H.
  unfold index_shape, versions_of, py_get. destruct data as [| | | | |d]; try done.
  by destruct (dict_get "versions" d) as [[| | | |xs|]|].
Qed.

Lemma has_status_get status v :
  entry_wf v = true ->
  py_get "status" JNull v = Ok (default JNull (field "status" v)) /\
  has_status status v = is_str status (default JNull (field "status" v)).
Proof.
  destruct v as [| | | | |d]; try done. intros _. unfold has_status. simpl.
  by destruct (dict_get "status" d).
Qed.

(** C4. [list_versions(project_dir, include_deleted=False)] returns the
    entries of the index in index order without those whose status is
    [deleted], and with those whose status is [purged]. *)
Theorem list_versions_hides_deleted_only (p : project) :
  index_wf (load_index p) = true ->
  list_versions false p
  = (Ok (JList (filter (fun v => has_status "deleted" v = false) (versions p))), p)
  /\ (forall v, v ∈ versions p -> has_status "purged" v = true ->
      v ∈ filter (fun v => has_status "deleted" v = false) (versions p)).
Proof.
  intros Hwf. split.
  - unfold list_versions. run_call. rewrite py_get_versions_wf by done.
    cbn [py_iter]. fold (versions p).
    pose proof (index_wf_versions _ Hwf) as Hxs. fold (versions p) in Hxs.
    induction (versions p) as [|v xs IH]; [done |].
    simpl in Hxs. apply andb_true_iff in Hxs as [Hv Hxs].
    specialize (IH Hxs).
    destruct (has_status_get "deleted" v Hv) as [Hget Hst].
    rewrite Hget. cbn [result_bind].
    match type of IH with
    | (match ?k with _ => _ end) = _ => destruct k as [kept|] eqn:Hk; [|done]
    end.
    cbn [result_bind]. rewrite filter_cons. rewrite Hst.
    destruct (is_str "deleted" _) eqn:E.
    + rewrite decide_False by done. exact IH.
    + rewrite decide_True by done. by simplify_eq.
  - intros v Hv Hp. apply list_elem_of_filter. split; [|done].
    unfold has_status in *. destruct (field "status" v) as [st|]; [|done].
    destruct st; try done. simpl in *.
    apply bool_decide_eq_true in Hp as ->. done.
Qed.

(** ** Moving a version to [deleted/] and back *)

Lemma mark_status_file status d :
  dict_get "file" (mark_status status d) = dict_get "file" d.
Proof. unfold mark_status. by rewrite dict_get_set_ne. Qed.

Lemma has_file_mark_status name status v :
  has_file name (on_fields (mark_status status) v) = has_file name v.
Proof. destruct v; try done. unfold has_file. simpl. by rewrite mark_status_file. Qed.

Lemma has_status_mark_status status v :
  entry_wf v = true -> has_status status (on_fields (mark_status status) v) = true.
Proof.
  destruct v; try done. intros _. unfold has_status, mark_status. simpl.
  rewrite dict_get_set. simpl. by apply bool_decide_eq_true.
Qed.

Lemma entry_wf_mark_status status v :
  entry_wf v = true -> entry_wf (on_fields (mark_status status) v) = true.
Proof.
  apply entry_wf_on_fields. intros d Hd. by rewrite mark_status_file.
Qed.

Lemma json_ok_mark_status status v :
  json_ok v -> json_ok (on_fields (mark_status status) v).
Proof. destruct v; try done. intros H. apply dict_set_ok; [constructor | done]. Qed.

Lemma json_text_mark_status status :
  is_text status = true ->
  forall v, json_text v = true -> json_text (on_fields (mark_status status) v) = true.
Proof.
  intros Hs v. apply json_text_on_fields. intros d Hd.
  by apply json_text_dict_set.
Qed.

Lemma first_match_alter name g i xs :
  (forall v, has_file name (g v) = has_file name v) ->
  first_match name (alter g i xs) = first_match name xs.
Proof.
  intros Hg. revert i. induction xs as [|v xs IH]; intros i; [done |].
  destruct i as [|i]; simpl.
  - by rewrite Hg.
  - destruct (has_file name v); [done |]. f_equal. apply IH.
Qed.

(** The index after the loop over the entries, for an update that keeps
    the [file] of an entry in place and keeps the entry that bears the
    name text. *)
Lemma saved_update_at name update p data found :
  index_wf (load_index p) = true ->
  (forall v, json_ok v -> json_ok (on_fields update v)) ->
  (forall v, entry_wf v = true -> entry_wf (on_fields update v) = true) ->
  (forall v, has_file name v = true -> json_text v = true ->
             json_text (on_fields update v) = true) ->
  update_first_version name update (load_index p) = Ok (data, found) ->
  json_ok data /\ index_wf data = true /\
  match first_match name (versions p) with
  | Some i => versions_of data = alter (on_fields update) i (versions p) /\ found = true
  | None => data = load_index p /\ found = false
  end.
Proof.
  intros Hwf Hok Hent Htext. rewrite update_first_version_wf by done.
  pose proof (load_index_ok p) as Hp.
  pose proof (index_wf_versions _ Hwf) as Hxs.
  pose proof (index_wf_versions_text _ Hwf) as Htx.
  unfold versions.
  destruct (first_match name (versions_of (load_index p))) as [i|] eqn:Hi;
    intros ?; simplify_eq; [|done].
  split_and!.
  - apply set_versions_ok; [|done].
    apply Forall_alter; [by apply versions_of_ok | auto].
  - apply index_wf_set_versions; [done | by apply forallb_alter |].
    apply forallb_alter_at; [|done]. intros v Hv. apply Htext.
    apply first_match_lookup in Hi as (w & Hw & Hfile & _). congruence.
  - by rewrite versions_of_set_versions.
  - done.
Qed.

Lemma saved_update name update p data found :
  index_wf (load_index p) = true ->
  (forall v, json_ok v -> json_ok (on_fields update v)) ->
  (forall v, entry_wf v = true -> entry_wf (on_fields update v) = true) ->
  (forall v, json_text v = true -> json_text (on_fields update v) = true) ->
  update_first_version name update (load_index p) = Ok (data, found) ->
  json_ok data /\ index_wf data = true /\
  match first_match name (versions p) with
  | Some i => versions_of data = alter (on_fields update) i (versions p) /\ found = true
  | None => data = load_index p /\ found = false
  end.
Proof. intros Hwf Hok Hent Htext. apply saved_update_at; auto. Qed.

(** C5 as the specification states it does not hold: the call creates
    [deleted/] before it looks for the file. *)
Lemma move_to_deleted_missing_creates_deleted_dir :
  let p := Project None (Some ∅) None in
  is_basename "a.blend" = true /\
  lookup_file (history p) "a.blend" = None /\
  (move_to_deleted "a.blend" p).1 = Ok false /\
  deleted p = None /\ deleted (move_to_deleted "a.blend" p).2 = Some ∅ /\
  (move_to_deleted "a.blend" p).2 <> p.
Proof. done. Qed.

Lemma move_to_deleted_absent name p :
  lookup_file (history p) name = None ->
  move_to_deleted name p = (Ok false, set_deleted (default ∅ (deleted p)) p).
Proof.
  intros Hmiss. unfold move_to_deleted. run_call.
  change (history (set_deleted _ p)) with (history p). rewrite Hmiss.
  by destruct (history p).
Qed.

(** C5, amended.  When no file of [history/] bears the basename,
    [move_to_deleted] returns false and leaves the index, [history/] and
    the files of [deleted/] as they were; [deleted/] exists afterwards,
    created empty when it was missing. *)
Theorem move_to_deleted_missing (name : string) (p : project) :
  is_basename name = true ->
  lookup_file (history p) name = None ->
  exists p',
    move_to_deleted name p = (Ok false, p') /\
    index p' = index p /\ history p' = history p /\
    deleted p' = Some (default ∅ (deleted p)) /\
    (forall n, lookup_file (deleted p') n = lookup_file (deleted p) n).
Proof.
  intros _ Hmiss. eexists. split; [by apply move_to_deleted_absent |].
  simpl. split_and!; try done. intros n. by destruct (deleted p).
Qed.

Lemma move_to_deleted_missing_witness :
  exists p',
    move_to_deleted "a.blend" (Project None (Some ∅) None) = (Ok false, p') /\
    index p' = None /\ history p' = Some ∅ /\ deleted p' = Some ∅ /\
    (forall n, lookup_file (deleted p') n = None).
Proof.
  exact (move_to_deleted_missing "a.blend" (Project None (Some ∅) None)
           eq_refl eq_refl).
Defined.

Lemma move_to_deleted_found name p h f :
  history p = Some h -> h !! name = Some f ->
  move_to_deleted name p =
  let p1 := set_deleted (<[name := f]> (default ∅ (deleted p)))
              (set_history (delete name h) p) in
  match update_first_version name (mark_status "deleted") (load_index p) with
  | Ok r =>
      match save_index r.1 p1 with
      | (Ok _, p2) => (Ok true, p2)
      | (Raise e, p2) => (Raise e, p2)
      end
  | Raise e => (Raise e, p1)
  end.
Proof.
  intros Hh Hf. unfold move_to_deleted. run_call.
  change (history (set_deleted _ p)) with (history p). rewrite Hh. simpl. rewrite Hf.
  simpl. unfold load_index at 1. simpl. fold (load_index p).
  by destruct (update_first_version name (mark_status "deleted") (load_index p)).
Qed.

(** C10. When the file is in [history/] and no entry of the index bears
    its basename, [move_to_deleted] moves the file to [deleted/] and
    returns true; the index is written again with the entries it had,
    none of them changed. *)
Theorem move_to_deleted_without_entry (name : string) (p : project) (f : file) :
  is_basename name = true ->
  index_wf (load_index p) = true ->
  lookup_file (history p) name = Some f ->
  Forall (fun v => has_file name v = false) (versions p) ->
  exists p',
    move_to_deleted name p = (Ok true, p') /\
    lookup_file (history p') name = None /\
    lookup_file (deleted p') name = Some f /\
    index p' = Some (json_dumps (load_index p)) /\
    load_index p' = load_index p /\
    versions p' = versions p.
Proof.
  intros _ Hwf Hf Hnone.
  destruct (history p) as [h|] eqn:Hh; [|done]. simpl in Hf.
  rewrite (move_to_deleted_found _ _ _ _ Hh Hf).
  rewrite update_first_version_wf by done.
  apply first_match_None in Hnone. unfold versions in Hnone. rewrite Hnone.
  cbn zeta. cbn [fst]. rewrite save_index_text by by apply index_wf_text.
  eexists. split; [reflexivity |].
  assert (load_index (set_index (json_dumps (load_index p))
            (set_deleted (<[name:=f]> (default ∅ (deleted p)))
               (set_history (delete name h) p))) = load_index p) as Hl.
  { apply load_index_saved; [apply load_index_ok | done]. }
  split_and!; try done.
  - simpl. apply lookup_delete_eq.
  - simpl. apply lookup_insert_eq.
  - unfold versions. by rewrite Hl.
Qed.

Lemma restore_deleted_found stamp name p d f data :
  deleted p = Some d -> d !! name = Some f ->
  update_first_version name (mark_status "active") (load_index p) = Ok (data, true) ->
  json_text data = true ->
  restore_deleted stamp name p =
  (Ok true,
   set_index (json_dumps data)
     (set_history (<[name := f]> (default ∅ (history p)))
        (set_deleted (delete name d) p))).
Proof.
  intros Hd Hf Hu Ht. unfold restore_deleted. run_call.
  rewrite Hd. simpl. rewrite Hf. simpl.
  unfold load_index at 1. simpl. fold (load_index p). rewrite Hu. simpl.
  by rewrite save_index_text.
Qed.

(** C6. [move_to_deleted] followed by [restore_deleted] with the same
    basename, for a file of [history/] that has an active entry: both
    calls return true, the file is back in [history/] with the bytes
    (and the mtime) it had, [history/] as a whole is as it was, and
    every entry for the basename that was active is active. *)
Theorem move_then_restore (name stamp : string) (p : project) (f : file) :
  is_basename name = true ->
  index_wf (load_index p) = true ->
  lookup_file (history p) name = Some f ->
  (exists v, v ∈ versions p /\ has_file name v = true /\ has_status "active" v = true) ->
  exists p1 p2,
    move_to_deleted name p = (Ok true, p1) /\
    restore_deleted stamp name p1 = (Ok true, p2) /\
    lookup_file (history p2) name = Some f /\
    history p2 = history p /\
    lookup_file (deleted p2) name = None /\
    length (versions p2) = length (versions p) /\
    (forall i v, versions p !! i = Some v -> has_file name v = true ->
       has_status "active" v = true ->
       exists v', versions p2 !! i = Some v' /\ has_file name v' = true /\
                  has_status "active" v' = true).
Proof.
  intros _ Hwf Hf (v0 & Hv0 & Hfile0 & _).
  destruct (history p) as [h|] eqn:Hh; [|done]. simpl in Hf.
  rewrite (move_to_deleted_found _ _ _ _ Hh Hf).
  destruct (update_first_version name (mark_status "deleted") (load_index p))
    as [[data1 found1]|] eqn:Hu1;
    [|by rewrite update_first_version_wf in Hu1].
  apply saved_update in Hu1 as (Hok1 & Hwf1 & Hm1);
    [| done | apply json_ok_mark_status | apply entry_wf_mark_status
     | by apply json_text_mark_status].
  destruct (first_match name (versions p)) as [i0|] eqn:Hi0; cycle 1.
  { apply first_match_None in Hi0. rewrite Forall_forall in Hi0.
    rewrite (Hi0 _ Hv0) in Hfile0. done. }
  destruct Hm1 as [Hv1 ->]. cbn zeta. cbn [fst].
  rewrite save_index_text by by apply index_wf_text.
  set (p1 := set_index (json_dumps data1) _).
  assert (load_index p1 = data1) as Hl1 by by apply load_index_saved.
  assert (deleted p1 = Some (<[name:=f]> (default ∅ (deleted p)))) as Hd1 by done.
  assert (first_match name (versions p1) = Some i0) as Hi1.
  { unfold versions. rewrite Hl1, Hv1, first_match_alter; [done |].
    apply has_file_mark_status. }
  destruct (update_first_version name (mark_status "active") (load_index p1))
    as [[data2 found2]|] eqn:Hu2;
    [|by rewrite update_first_version_wf in Hu2; [|rewrite Hl1]].
  pose proof Hu2 as Hu2'.
  apply saved_update in Hu2' as (Hok2 & Hwf2 & Hm2);
    [| by rewrite Hl1 | apply json_ok_mark_status | apply entry_wf_mark_status
     | by apply json_text_mark_status].
  rewrite Hi1 in Hm2. destruct Hm2 as [Hv2 ->].
  exists p1. eexists. split; [done |]. split.
  { eapply restore_deleted_found;
      [exact Hd1 | apply lookup_insert_eq | exact Hu2 | by apply index_wf_text]. }
  set (p2 := set_index (json_dumps data2) _).
  assert (versions p2 = alter (on_fields (mark_status "active")) i0
                          (alter (on_fields (mark_status "deleted")) i0 (versions p)))
    as Hv.
  { unfold versions at 1. unfold p2. rewrite load_index_saved by done.
    rewrite Hv2. unfold versions at 1. by rewrite Hl1, Hv1. }
  split_and!.
  - simpl. apply lookup_insert_eq.
  - simpl. f_equal. rewrite insert_delete_eq. by apply insert_id.
  - simpl. apply lookup_delete_eq.
  - by rewrite Hv, !length_alter.
  - intros i v Hi Hfile Hact. rewrite Hv.
    destruct (decide (i0 = i)) as [->|Hne].
    + rewrite !list_lookup_alter_eq, Hi. simpl. eexists. split; [done |].
      pose proof (index_wf_versions _ Hwf) as Hall.
      rewrite forallb_forall in Hall.
      assert (entry_wf v = true) as Hent.
      { apply Hall, list_elem_of_In, list_elem_of_lookup. eauto. }
      split.
      * by rewrite !has_file_mark_status.
      * apply has_status_mark_status. by apply entry_wf_mark_status.
    + rewrite !list_lookup_alter_ne by done. eauto.
Qed.

Lemma list_versions_hides_deleted_only_witness :
  list_versions false sample_project_deleted
  = (Ok (JList (filter (fun v => has_status "deleted" v = false)
                       (versions sample_project_deleted))),
     sample_project_deleted)
  /\ (forall v, v ∈ versions sample_project_deleted ->
      has_status "purged" v = true ->
      v ∈ filter (fun v => has_status "deleted" v = false)
                 (versions sample_project_deleted)).
Proof.
  apply (list_versions_hides_deleted_only sample_project_deleted).
  vm_compute. reflexivity.
Defined.

Lemma move_to_deleted_without_entry_witness :
  exists p',
    move_to_deleted "orphan.blend" sample_project_orphan = (Ok true, p') /\
    lookup_file (history p') "orphan.blend" = None /\
    lookup_file (deleted p') "orphan.blend" = Some (File "stray" 50) /\
    index p' = Some (json_dumps (load_index sample_project_orphan)) /\
    load_index p' = load_index sample_project_orphan /\
    versions p' = versions sample_project_orphan.
Proof.
  apply (move_to_deleted_without_entry "orphan.blend" sample_project_orphan
           (File "stray" 50));
    [reflexivity | vm_compute; reflexivity | vm_compute; reflexivity |].
  vm_compute. repeat constructor.
Defined.

Lemma move_then_restore_witness :
  exists p1 p2,
    move_to_deleted "scene_2.blend" sample_project = (Ok true, p1) /\
    restore_deleted "2024-10-27 02:31:00" "scene_2.blend" p1 = (Ok true, p2) /\
    lookup_file (history p2) "scene_2.blend" = Some (File "two" 200) /\
    history p2 = history sample_project /\
    lookup_file (deleted p2) "scene_2.blend" = None /\
    length (versions p2) = length (versions sample_project) /\
    (forall i v, versions sample_project !! i = Some v ->
       has_file "scene_2.blend" v = true -> has_status "active" v = true ->
       exists v', versions p2 !! i = Some v' /\
                  has_file "scene_2.blend" v' = true /\
                  has_status "active" v' = true).
Proof.
  apply (move_then_restore "scene_2.blend" "2024-10-27 02:31:00" sample_project
           (File "two" 200));
    [reflexivity | vm_compute; reflexivity | vm_compute; reflexivity |].
  exists (sample_entry "scene_2.blend" "active" false).
  split; [|split; reflexivity].
  assert (versions sample_project !! 1%nat
          = Some (sample_entry "scene_2.blend" "active" false)) as H
    by (vm_compute; reflexivity).
  by apply list_elem_of_lookup_2 in H.
Defined.

(** ** Writing the index and reading it back *)





(** ** Exceptions *)

(** C8 fails on the code: an index that is valid JSON and has no
    [versions] makes [register_version] raise [KeyError], where the
    other operations read the entries with [data.get("versions", [])].
    [save_versioned_copy] lets the exception through, after the copy
    was written. *)
Theorem register_version_raises_KeyError :
  register_version "2024-10-27 02:30:00" (InHistory "scene_1.blend") "auto" false
    project_without_versions
  = (Raise KeyError, project_without_versions)
  /\ (save_versioned_copy (Some "one") "scene" "2024-10-27_02-30-00"
        "2024-10-27 02:30:00" 100 "auto" project_without_versions).1
     = Raise KeyError
  /\ (list_versions false project_without_versions).1 = Ok (JList []).
Proof. split_and!; vm_compute; reflexivity. Qed.

(** ** Files whose name starts with a dot *)

(** C1 fails on the code: [glob] with the pattern [*.blend] leaves out
    the names that start with a dot, so the snapshots of a document
    whose name starts with a dot are never compressed, however many
    there are. *)
Theorem compress_skips_hidden_snapshots (gzip : string -> string) :
  let p := project_with_hidden_snapshots in
  let r := compress_old_versions sample_dir eq_refl gzip 400 1 p in
  proj_name "/home/me/.scene.blend" = ".scene" /\
  length (filter (fun nf => fnmatch_blend nf.1 = true) (listdir (history p))) = 3 /\
  r = (Ok tt, p) /\
  length (filter (fun nf => fnmatch_blend nf.1 = true) (listdir (history r.2))) = 3 /\
  lookup_file (history r.2) ".scene_1.blend" = Some (File "one" 100) /\
  lookup_file (history r.2) (gz_name ".scene_1.blend") = None.
Proof. split_and!; vm_compute; reflexivity. Qed.

(** C2 fails on the code: [glob] with the pattern [*] leaves out the
    names that start with a dot, so a file of [deleted/] with such a
    name is never purged, however old. *)
Theorem purge_skips_hidden_file :
  let p := project_with_hidden_file in
  let r := purge_deleted_older_than sample_dir eq_refl 1000000 1 p in
  lookup_file (deleted p) ".scene_1.blend" = Some (File "one" 0) /\
  (1 * 86400 < 1000000 - 0)%Z /\
  r.1 = Ok [] /\
  lookup_file (deleted r.2) ".scene_1.blend" = Some (File "one" 0).
Proof. split_and!; vm_compute; reflexivity. Qed.

(** ** Names of files *)

Lemma last_char_append a b : b <> "" -> last_char (a +:+ b) = last_char b.
Proof.
  intros Hb. induction a as [|c a IH]; [done |].
  simpl. rewrite IH. destruct (a +:+ b) eqn:E; [|done].
  destruct a; simpl in E; [done | discriminate].
Qed.

Lemma ends_with_append suffix s :
  ends_with suffix s = true -> exists pre, s = pre +:+ suffix.
Proof.
  induction s as [|c s IH]; simpl.
  - rewrite orb_false_r. intros ->%bool_decide_eq_true. by exists "".
  - intros [->%bool_decide_eq_true | H]%orb_true_iff; [by exists "" |].
    destruct (IH H) as [pre ->]. by exists (String c pre).
Qed.

Lemma blend_not_gz name name' :
  fnmatch_blend name = true -> name <> name' +:+ ".gz".
Proof.
  intros [pre ->]%ends_with_append E.
  apply (f_equal last_char) in E. by rewrite !last_char_append in E.
Qed.

(** ** Sorting by mtime *)

Lemma insert_by_mtime_perm x l : Permutation (insert_by_mtime x l) (x :: l).
Proof.
  induction l as [|y l IH]; simpl; [done |].
  destruct (mtime x.2 <? mtime y.2)%Z; [|done].
  rewrite IH. apply perm_swap.
Qed.

Lemma sorted_newest_first_perm l : Permutation (sorted_newest_first l) l.
Proof.
  induction l as [|x l IH]; simpl; [done |].
  by rewrite insert_by_mtime_perm, IH.
Qed.

Lemma insert_by_mtime_sorted x l :
  StronglySorted newer_or_equal l -> StronglySorted newer_or_equal (insert_by_mtime x l).
Proof.
  induction 1 as [|y l Hl IH Hy]; simpl; [by repeat constructor |].
  destruct (mtime x.2 <? mtime y.2)%Z eqn:E.
  - apply Z.ltb_lt in E. constructor; [done |].
    rewrite insert_by_mtime_perm. constructor; [unfold newer_or_equal; lia | done].
  - apply Z.ltb_ge in E. constructor; [by constructor |].
    constructor; [done |].
    eapply Forall_impl; [exact Hy |]. unfold newer_or_equal. intros; lia.
Qed.

Lemma sorted_newest_first_sorted l : StronglySorted newer_or_equal (sorted_newest_first l).
Proof.
  induction l as [|x l IH]; simpl; [constructor | by apply insert_by_mtime_sorted].
Qed.

Lemma sorted_app_order (l1 l2 : list (string * file)) :
  StronglySorted newer_or_equal (l1 ++ l2) ->
  forall a b, a ∈ l1 -> b ∈ l2 -> newer_or_equal a b.
Proof.
  induction l1 as [|x l1 IH]; simpl; intros H a b Ha Hb.
  - by apply elem_of_nil in Ha.
  - apply StronglySorted_inv in H as [H Hx].
    apply elem_of_cons in Ha as [->|Ha]; [|by eapply IH].
    rewrite Forall_forall in Hx. apply Hx, elem_of_app. by right.
Qed.

(** ** Listing a directory *)

Lemma elem_of_glob project_dir plain fnmatch d name f :
  (name, f) ∈ glob project_dir plain fnmatch d <->
  lookup_file d name = Some f /\ is_hidden name = false /\ fnmatch name = true.
Proof.
  unfold glob, listdir, lookup_file. rewrite list_elem_of_filter. simpl.
  destruct d as [m|].
  - rewrite elem_of_map_to_list, andb_true_iff, negb_true_iff. tauto.
  - rewrite elem_of_nil. split; [tauto | by intros [? _]].
Qed.

Lemma NoDup_glob_names project_dir plain fnmatch d :
  NoDup (glob project_dir plain fnmatch d).*1.
Proof.
  unfold glob, listdir. destruct d as [m|]; [|constructor].
  apply NoDup_fmap_fst.
  - intros name f1 f2 [_ H1]%list_elem_of_filter [_ H2]%list_elem_of_filter.
    apply elem_of_map_to_list in H1, H2. congruence.
  - apply NoDup_filter, NoDup_map_to_list.
Qed.

(** ** Compressing one file and its entry *)

Lemma append_inj_l a b suffix : a +:+ suffix = b +:+ suffix -> a = b.
Proof.
  revert b. induction a as [|c a IH]; intros [|d b] H; simpl in *; try done.
  - apply (f_equal String.length) in H. simpl in H. rewrite length_append in H. lia.
  - apply (f_equal String.length) in H. simpl in H. rewrite length_append in H. lia.
  - injection H as -> H. by rewrite (IH b).
Qed.

Lemma mark_compressed_file gz d :
  dict_get "file" (mark_compressed gz d) = Some (JStr gz).
Proof.
  unfold mark_compressed. cbn zeta.
  rewrite dict_get_set_ne by done. apply dict_get_set.
Qed.

Lemma mark_compressed_compressed gz d :
  dict_get "compressed" (mark_compressed gz d) = Some (JBool true).
Proof.
  unfold mark_compressed. cbn zeta.
  rewrite !dict_get_set_ne by done. apply dict_get_set.
Qed.


Lemma mark_compressed_other gz d k :
  k <> "compressed" -> k <> "file" -> k <> "status" ->
  dict_get k (mark_compressed gz d) = dict_get k d.
Proof.
  intros. unfold mark_compressed. cbn zeta. by rewrite !dict_get_set_ne.
Qed.

Lemma json_ok_mark_compressed gz v :
  json_ok v -> json_ok (on_fields (mark_compressed gz) v).
Proof.
  destruct v as [| | | | |d]; try done. intros H. unfold mark_compressed. cbn zeta. simpl.
  assert (json_ok (JDict (dict_set "file" (JStr gz)
                            (dict_set "compressed" (JBool true) d)))) as H2.
  { apply dict_set_ok; [constructor |]. apply dict_set_ok; [constructor | done]. }
  apply dict_set_ok; [|done].
  destruct (dict_get "status" _) eqn:E; [|constructor].
  simpl. by eapply dict_get_ok.
Qed.

Lemma entry_wf_mark_compressed gz v :
  entry_wf v = true -> entry_wf (on_fields (mark_compressed gz) v) = true.
Proof.
  apply entry_wf_on_fields. intros d _. rewrite mark_compressed_file. eauto.
Qed.

Lemma has_file_mark_compressed name gz v :
  entry_wf v = true ->
  has_file name (on_fields (mark_compressed gz) v) = bool_decide (gz = name).
Proof.
  destruct v; try done. intros _. unfold has_file. simpl.
  by rewrite mark_compressed_file.
Qed.

Lemma has_file_unique n m v : has_file n v = true -> has_file m v = true -> n = m.
Proof.
  unfold has_file. destruct (field "file" v) as [[| | |s| |]|]; try done. simpl.
  intros <-%bool_decide_eq_true <-%bool_decide_eq_true. done.
Qed.

Lemma first_match_alter_other name g i xs w :
  xs !! i = Some w -> has_file name w = false -> has_file name (g w) = false ->
  first_match name (alter g i xs) = first_match name xs.
Proof.
  revert i. induction xs as [|v xs IH]; intros i Hi Hw Hg; [done |].
  destruct i as [|i]; simplify_eq/=.
  - by rewrite Hw, Hg.
  - destruct (has_file name v); [done |]. f_equal. by apply IH.
Qed.

Lemma first_match_has_file name xs i :
  first_match name xs = Some i -> exists v, xs !! i = Some v /\ has_file name v = true.
Proof. intros (v & ? & ? & _)%first_match_lookup. eauto. Qed.

Lemma json_text_mark_compressed gz :
  is_text gz = true ->
  forall v, json_text v = true -> json_text (on_fields (mark_compressed gz) v) = true.
Proof.
  intros Hgz v. apply json_text_on_fields. intros d Hd.
  unfold mark_compressed. cbn zeta.
  assert (json_text (JDict (dict_set "file" (JStr gz)
                              (dict_set "compressed" (JBool true) d))) = true) as H2.
  { apply json_text_dict_set; [done | done |]. by apply json_text_dict_set. }
  apply json_text_dict_set; [done | | done].
  destruct (dict_get "status" _) as [st|] eqn:E; [|done].
  by apply (json_text_dict_get _ _ _ H2) in E.
Qed.

Lemma is_text_gz_name name : is_text name = true -> is_text (gz_name name) = true.
Proof. intros H. by apply is_text_app. Qed.

Section Compression_facts.

Variable gzip : string -> string.
Variable now : Z.

Lemma compress_one_step name p h f :
  index_wf (load_index p) = true ->
  history p = Some h -> h !! name = Some f ->
  exists data found,
    update_first_version name (mark_compressed (gz_name name)) (load_index p)
      = Ok (data, found) /\
    json_ok data /\ index_wf data = true /\
    match first_match name (versions p) with
    | Some i =>
        versions_of data
        = alter (on_fields (mark_compressed (gz_name name))) i (versions p) /\
        found = true
    | None => data = load_index p /\ found = false
    end /\
    compress_one gzip now name p =
    (Ok tt,
     set_index (json_dumps data)
       (set_history
          (delete name (<[gz_name name := File (gzip (content f)) now]> h)) p)).
Proof.
  intros Hwf Hh Hf.
  destruct (update_first_version name (mark_compressed (gz_name name)) (load_index p))
    as [[data found]|] eqn:Hu; [|by rewrite update_first_version_wf in Hu].
  exists data, found. split; [done |].
  pose proof Hu as Hu'.
  apply saved_update_at in Hu' as (Hok & Hwf1 & HM);
    [| done | apply json_ok_mark_compressed | apply entry_wf_mark_compressed |];
    cycle 1.
  { intros v Hfile Hv. apply json_text_mark_compressed; [|done].
    apply is_text_gz_name. by eapply has_file_text. }
  split_and!; try done.
  unfold compress_one, compress_file. run_call.
  rewrite Hh. simpl. rewrite Hf.
  unfold load_index at 1. simpl. fold (load_index p).
  fold (gz_name name). rewrite Hu. simpl.
  by rewrite save_index_text by by apply index_wf_text.
Qed.

Lemma versions_entry_wf p i v :
  index_wf (load_index p) = true -> versions p !! i = Some v -> entry_wf v = true.
Proof.
  intros Hwf Hi. pose proof (index_wf_versions _ Hwf) as Hall.
  rewrite forallb_forall in Hall.
  apply Hall, list_elem_of_In, list_elem_of_lookup. eauto.
Qed.

Lemma compress_each_spec names : forall p,
  index_wf (load_index p) = true ->
  NoDup names ->
  (forall n, n ∈ names ->
     fnmatch_blend n = true /\ is_Some (lookup_file (history p) n)) ->
  exists p', compress_each gzip now names p = (Ok tt, p') /\
             compression_done gzip now names p p'.
Proof.
  induction names as [|n ns IH]; intros p Hwf Hnd Hnames.
  { exists p. split; [done |]. split; try done.
    - intros ?? []%elem_of_nil.
    - intros ??? []%elem_of_nil. }
  apply NoDup_cons in Hnd as [Hn Hnd].
  destruct (Hnames n) as [Hblend [f Hf]]; [by left |].
  destruct (history p) as [h|] eqn:Hh; [|done]. simpl in Hf.
  destruct (compress_one_step n p h f Hwf Hh Hf)
    as (data & found & Hu & Hok & Hwf1 & HM & Hone).
  set (p1 := set_index (json_dumps data) _) in Hone.
  assert (load_index p1 = data) as Hl1 by by apply load_index_saved.
  assert (forall k, k <> n -> k <> gz_name n ->
            lookup_file (history p1) k = h !! k) as Hsame.
  { intros k ??. simpl. by rewrite lookup_delete_ne, lookup_insert_ne. }
  assert (n <> gz_name n) as Hngz by by apply blend_not_gz.
  assert (lookup_file (history p1) n = None) as Hgone by apply lookup_delete_eq.
  assert (lookup_file (history p1) (gz_name n)
          = Some (File (gzip (content f)) now)) as Hgz.
  { simpl. rewrite lookup_delete_ne by done. apply lookup_insert_eq. }
  assert (forall m, m ∈ ns -> m <> n /\ m <> gz_name n /\ fnmatch_blend m = true)
    as Hns.
  { intros m Hm. destruct (Hnames m) as [Hb _]; [by right |].
    split_and!; [intros E; by rewrite E in Hm | by apply blend_not_gz | done]. }
  destruct (IH p1) as (p' & Heach & Hdone); [by rewrite Hl1 | done | |].
  { intros m Hm. destruct (Hns m Hm) as (? & ? & ?). split; [done |].
    rewrite Hsame by done. destruct (Hnames m) as [_ ?]; [by right | done]. }
  exists p'. split.
  { simpl. unfold bind. by rewrite Hone. }
  destruct Hdone as [Cwf Cdel Cgone Ckept Clen Centry Cother].
  assert (versions p1 = versions_of data) as Hv1 by (unfold versions; by rewrite Hl1).
  split.
  - done.
  - by rewrite Cdel.
  - intros m fm [->|Hm]%elem_of_cons Hfm; rewrite Hh in Hfm; simpl in Hfm.
    + simplify_eq. split.
      * rewrite Ckept; [done | done |]. intros m Hm. by apply blend_not_gz.
      * rewrite Ckept; [done | |].
        -- intros Hin. destruct (Hns _ Hin) as (_ & ? & _). done.
        -- intros m Hm E. apply append_inj_l in E. by rewrite <- E in Hm.
    + destruct (Hns m Hm) as (? & ? & ?). apply Cgone; [done |].
      by rewrite Hsame.
  - intros k Hk Hgzk. apply not_elem_of_cons in Hk as [? ?]. rewrite Hh. simpl.
    rewrite Ckept; [| done | intros; apply Hgzk; by right].
    apply Hsame; [done |]. apply Hgzk. by left.
  - rewrite Clen, Hv1. destruct (first_match n (versions p)).
    + destruct HM as [-> _]. by rewrite length_alter.
    + by destruct HM as [-> _].
  - intros m i v Hin Hfirst Hi.
    pose proof (versions_entry_wf _ _ _ Hwf Hi) as Hent.
    apply elem_of_cons in Hin as [->|Hin].
    + rewrite Hfirst in HM. destruct HM as [HM _].
      apply Cother.
      * by rewrite Hv1, HM, list_lookup_alter_eq, Hi.
      * intros m Hin (w & Hw & Hfile)%first_match_has_file.
        rewrite Hv1, HM, list_lookup_alter_eq, Hi in Hw. simplify_eq/=.
        rewrite has_file_mark_compressed in Hfile by done.
        apply bool_decide_eq_true in Hfile. destruct (Hns _ Hin) as (_ & ? & _). done.
    + destruct (Hns m Hin) as (Hmn & Hmgz & _).
      destruct (first_match_has_file _ _ _ Hfirst) as (v' & Hv' & Hfile).
      simplify_eq.
      destruct (first_match n (versions p)) as [i0|] eqn:Hi0.
      * destruct HM as [HM _].
        destruct (first_match_has_file _ _ _ Hi0) as (w & Hw & Hfw).
        assert (i0 <> i) as Hne.
        { intros ->. simplify_eq. by pose proof (has_file_unique _ _ _ Hfile Hfw). }
        apply Centry; [done | |].
        -- rewrite Hv1, HM. rewrite (first_match_alter_other _ _ _ _ w); try done.
           ++ destruct (has_file m w) eqn:E; [|done].
              by pose proof (has_file_unique _ _ _ E Hfw).
           ++ rewrite has_file_mark_compressed
             by (eapply versions_entry_wf; [exact Hwf | exact Hw]).
              by apply bool_decide_eq_false.
        -- by rewrite Hv1, HM, list_lookup_alter_ne.
      * destruct HM as [HM _]. apply Centry; [done | |]; by rewrite Hv1, HM.
  - intros i v Hi Hnone.
    destruct (first_match n (versions p)) as [i0|] eqn:Hi0.
    + destruct HM as [HM _].
      destruct (first_match_has_file _ _ _ Hi0) as (w & Hw & Hfw).
      assert (i0 <> i) as Hne.
      { intros ->. apply (Hnone n); [by left | done]. }
      apply Cother.
      * by rewrite Hv1, HM, list_lookup_alter_ne.
      * intros m Hin. destruct (Hns m Hin) as (Hmn & Hmgz & _).
        rewrite Hv1, HM. rewrite (first_match_alter_other _ _ _ _ w); try done.
        -- apply Hnone. by right.
        -- destruct (has_file m w) eqn:E; [|done].
           by pose proof (has_file_unique _ _ _ E Hfw).
        -- rewrite has_file_mark_compressed
             by (eapply versions_entry_wf; [exact Hwf | exact Hw]).
           by apply bool_decide_eq_false.
    + destruct HM as [HM _]. apply Cother; [by rewrite Hv1, HM |].
      intros m Hin. rewrite Hv1, HM. apply Hnone. by right.
Qed.

End Compression_facts.

(** ** The size written in an entry is a number literal *)

Lemma all_digits_uint (u : Decimal.uint) :
  all_chars is_digit (NilEmpty.string_of_uint u) = true.
Proof. induction u; simpl; try done. Qed.

Lemma digit_is_num_char s : all_chars is_digit s = true -> all_chars is_num_char s = true.
Proof.
  induction s as [|c s IH]; simpl; [done |].
  intros [Hc Hs]%andb_true_iff. unfold is_num_char. rewrite Hc. simpl. auto.
Qed.

Lemma all_chars_append p a b :
  all_chars p (a +:+ b) = all_chars p a && all_chars p b.
Proof. induction a as [|c a IH]; simpl; [done |]. by rewrite IH, andb_assoc. Qed.

Lemma skip_digits_append a s :
  all_chars is_digit a = true -> skip_digits (a +:+ s) = skip_digits s.
Proof.
  induction a as [|c a IH]; simpl; [done |].
  intros [-> Ha]%andb_true_iff. auto.
Qed.

Lemma unorm_canonical u : canonical (Decimal.unorm u).
Proof.
  unfold canonical, Decimal.unorm.
  induction u; simpl; auto.
Qed.

Lemma to_uint_canonical n : canonical (N.to_uint n).
Proof.
  rewrite <- (DecimalN.Unsigned.of_to n) at 1.
  rewrite DecimalN.Unsigned.to_of. apply unorm_canonical.
Qed.

Lemma int_part_decimal n s :
  match s with String c _ => is_digit c = false | "" => True end ->
  int_part (decimal n +:+ s) = Some s.
Proof.
  intros Hs. unfold decimal.
  assert (skip_digits s = s) as Hskip.
  { destruct s as [|c s]; [done |]. simpl. by rewrite Hs. }
  destruct (to_uint_canonical n) as [->|Hc]; [done |].
  pose proof (all_digits_uint (N.to_uint n)) as Hd.
  destruct (N.to_uint n) as [|u|u|u|u|u|u|u|u|u|u]; try done; simpl in *;
    rewrite skip_digits_append by done; by rewrite Hskip.
Qed.

Lemma decimal_digit d : (d < 10)%N ->
  exists c, decimal d = String c "" /\ is_digit c = true.
Proof.
  intros Hd.
  assert (d ∈ [0; 1; 2; 3; 4; 5; 6; 7; 8; 9]%N) as Hin.
  { destruct d as [|p]; [set_solver |].
    do 9 (destruct p as [p|p|]; try lia; try set_solver). }
  repeat (apply elem_of_cons in Hin as [->|Hin]; [by eexists |]).
  by apply elem_of_nil in Hin.
Qed.

Lemma size_MB_ok n : json_ok (size_MB n).
Proof.
  unfold size_MB. set (h := round_half_even _ _). cbn zeta.
  set (r := (h mod 100)%N).
  assert (r < 100)%N as Hr by (apply N.mod_lt; lia).
  destruct (decimal_digit (r / 10)) as (c1 & E1 & H1).
  { apply N.Div0.div_lt_upper_bound. lia. }
  destruct (decimal_digit (r mod 10)) as (c2 & E2 & H2).
  { apply N.mod_lt. lia. }
  set (frac := if (r mod 10 =? 0)%N then decimal (r / 10)
               else decimal (r / 10) +:+ decimal (r mod 10)).
  assert (all_chars is_digit frac = true /\ exists c rest, frac = String c rest /\
            is_digit c = true) as (Hfd & c & rest & Hfrac & Hc).
  { unfold frac. rewrite E1, E2. destruct (r mod 10 =? 0)%N; simpl.
    - rewrite H1. eauto.
    - rewrite H1, H2. eauto. }
  constructor. apply orb_true_iff. left. unfold is_number_lit.
  apply andb_true_iff. split.
  - rewrite !all_chars_append. rewrite digit_is_num_char by apply all_digits_uint.
    simpl. by rewrite digit_is_num_char.
  - assert (opt_minus (decimal (h / 100) +:+ "." +:+ frac)
            = decimal (h / 100) +:+ "." +:+ frac) as ->.
    { unfold decimal.
      pose proof (all_digits_uint (N.to_uint (h / 100))) as Hd.
      destruct (to_uint_canonical (h / 100)) as [->|Hcan]; [done |].
      destruct (N.to_uint (h / 100)); done. }
    rewrite int_part_decimal by done. simpl.
    rewrite Hfrac. simpl. rewrite Hc.
    rewrite Hfrac in Hfd. simpl in Hfd. apply andb_true_iff in Hfd as [_ Hrest].
    rewrite <- (append_nil_r rest), skip_digits_append by done. done.
Qed.

(** ** Registering a version *)

Lemma dict_set_same k v d : dict_get k d = Some v -> dict_set k v d = d.
Proof.
  induction d as [|[k' v'] d IH]; simpl; [done |].
  case_decide; [by intros; simplify_eq | intros Hd; by rewrite IH].
Qed.

Lemma set_versions_same data :
  index_wf data = true -> set_versions (versions_of data) data = data.
Proof.
  intros H%index_wf_shape. revert H.
  unfold index_shape, versions_of, set_versions. destruct data as [| | | | |d]; try done.
  destruct (dict_get "versions" d) as [[| | | |xs|]|] eqn:E; try done.
  intros _. by rewrite dict_set_same.
Qed.

Lemma append_version_wf entry data :
  index_wf data = true ->
  append_version entry data = Ok (set_versions (versions_of data ++ [entry]) data).
Proof.
  intros H%index_wf_shape. revert H.
  unfold index_shape, versions_of, append_version, py_getitem.
  destruct data as [| | | | |d]; try done.
  by destruct (dict_get "versions" d) as [[| | | |xs|]|].
Qed.

Lemma new_entry_ok p stamp filename note compressed :
  json_ok (new_entry p stamp filename note compressed) /\
  entry_wf (new_entry p stamp filename note compressed) = true.
Proof.
  split; [|done]. unfold new_entry. constructor.
  - simpl. apply (bool_decide_unpack _). by vm_compute.
  - repeat constructor. simpl. destruct (getsize p filename); [apply size_MB_ok | constructor].
Qed.

Lemma all_chars_impl (P Q : ascii -> bool) s :
  (forall c, P c = true -> Q c = true) -> all_chars P s = true -> all_chars Q s = true.
Proof.
  intros HPQ. induction s as [|c s IH]; [done |]. simpl.
  intros [Hc Hs]%andb_true_iff. by rewrite (HPQ c Hc), IH.
Qed.

Lemma is_num_char_ascii c : is_num_char c = true -> byte_in 0 127 c = true.
Proof. destruct c as [[] [] [] [] [] [] [] []]; done. Qed.

(** A number that [json.load] returned or [json.dump] can write is
    written in ASCII. *)
Lemma number_text lit :
  is_number_lit lit || is_constant_lit lit = true -> is_text lit = true.
Proof.
  intros [H|H]%orb_true_iff.
  - apply andb_true_iff in H as [H _]. apply is_text_ascii.
    by apply (all_chars_impl is_num_char _ _ is_num_char_ascii).
  - unfold is_constant_lit in H.
    apply orb_true_iff in H as [[H|H]%orb_true_iff|H];
      apply bool_decide_eq_true in H; by subst.
Qed.

Lemma size_MB_text n : json_text (size_MB n) = true.
Proof.
  pose proof (size_MB_ok n) as H. unfold size_MB in *. cbn zeta in *.
  inversion_clear H as [| | ? Hlit | | |]. cbn [json_text]. by apply number_text.
Qed.

Lemma new_entry_text p stamp filename note compressed :
  is_text stamp = true -> is_text (basename filename) = true -> is_text note = true ->
  json_text (new_entry p stamp filename note compressed) = true.
Proof.
  intros Hs Hf Hn. unfold new_entry. cbn [json_text forallb is_text andb].
  rewrite Hs, Hf, Hn. cbn [andb].
  destruct (getsize p filename); [by rewrite size_MB_text | done].
Qed.

Lemma forallb_app_entry xs entry :
  forallb entry_wf xs = true -> entry_wf entry = true ->
  forallb entry_wf (xs ++ [entry]) = true.
Proof. intros Hxs He. rewrite forallb_app. simpl. by rewrite Hxs, He. Qed.

(** The index after an entry was appended and the index saved. *)
Lemma appended p entry :
  index_wf (load_index p) = true -> json_ok entry -> entry_wf entry = true ->
  json_text entry = true ->
  let data := set_versions (versions p ++ [entry]) (load_index p) in
  forall q, index q = Some (json_dumps data) ->
  index_wf (load_index q) = true /\ versions q = versions p ++ [entry].
Proof.
  intros Hwf Hok Hent Htext data q Hq.
  assert (json_ok data) as Hdata.
  { apply set_versions_ok; [|apply load_index_ok].
    apply Forall_app. split; [apply versions_of_ok, load_index_ok | by constructor]. }
  assert (json_text data = true) as Hdtext.
  { apply json_text_set_versions; [|by apply index_wf_text].
    rewrite forallb_app. cbn [forallb]. rewrite Htext.
    unfold versions. by rewrite (index_wf_versions_text _ Hwf). }
  assert (load_index q = data) as Hl.
  { unfold load_index. rewrite Hq. by rewrite json_dumps_text, json_loads_dumps. }
  unfold versions at 1. rewrite Hl. split.
  - apply index_wf_set_versions; [done | |].
    + apply forallb_app_entry; [by apply index_wf_versions | done].
    + rewrite forallb_app. cbn [forallb]. rewrite Htext. unfold versions.
      by rewrite (index_wf_versions_text _ Hwf).
  - by apply versions_of_set_versions.
Qed.

Lemma appended_text p entry :
  index_wf (load_index p) = true -> json_text entry = true ->
  json_text (set_versions (versions p ++ [entry]) (load_index p)) = true.
Proof.
  intros Hwf Htext. apply json_text_set_versions; [|by apply index_wf_text].
  rewrite forallb_app. cbn [forallb]. rewrite Htext.
  unfold versions. by rewrite (index_wf_versions_text _ Hwf).
Qed.

Lemma register_version_run stamp filename note compressed p :
  index_wf (load_index p) = true ->
  is_text stamp = true -> is_text (basename filename) = true -> is_text note = true ->
  let entry := new_entry p stamp filename note compressed in
  register_version stamp filename note compressed p =
  (Ok entry,
   set_index (json_dumps (set_versions (versions p ++ [entry]) (load_index p))) p).
Proof.
  intros Hwf Hs Hf Hn entry. unfold register_version.
  unfold bind, ret, get, modify, lift.
  cbn zeta. rewrite append_version_wf by done. fold entry. fold (versions p).
  rewrite save_index_text; [done |].
  apply appended_text; [done |]. by apply new_entry_text.
Qed.

(** ** Purging *)

Lemma mark_purged_wf name xs :
  forallb entry_wf xs = true -> mark_purged name xs = Ok (map (purge_entry name) xs).
Proof.
  induction xs as [|v xs IH]; [done |]. simpl. intros [Hv Hxs]%andb_true_iff.
  rewrite IH by done. destruct v as [| | | | |d]; try done.
  simpl in Hv. apply bool_decide_eq_true in Hv as [f Hf].
  unfold purge_entry, has_file. simpl. rewrite Hf. simpl. by destruct (is_str name f).
Qed.

Lemma entry_wf_purge_entry name v : entry_wf v = true -> entry_wf (purge_entry name v) = true.
Proof.
  intros H. unfold purge_entry. destruct (has_file name v); [|done].
  by apply entry_wf_mark_status.
Qed.

Lemma json_ok_purge_entry name v : json_ok v -> json_ok (purge_entry name v).
Proof.
  intros H. unfold purge_entry. destruct (has_file name v); [|done].
  by apply json_ok_mark_status.
Qed.

Lemma json_text_purge_entry name v :
  json_text v = true -> json_text (purge_entry name v) = true.
Proof.
  intros H. unfold purge_entry. destruct (has_file name v); [|done].
  by apply json_text_mark_status.
Qed.

Lemma forallb_map_text name xs :
  forallb json_text xs = true -> forallb json_text (map (purge_entry name) xs) = true.
Proof.
  induction xs as [|v xs IH]; [done |]. simpl. intros [Hv Hxs]%andb_true_iff.
  by rewrite json_text_purge_entry, IH.
Qed.

Lemma forallb_map_entry_wf name xs :
  forallb entry_wf xs = true -> forallb entry_wf (map (purge_entry name) xs) = true.
Proof.
  induction xs as [|v xs IH]; [done |]. simpl. intros [Hv Hxs]%andb_true_iff.
  by rewrite entry_wf_purge_entry, IH.
Qed.

Lemma mark_all_purged_wf removed : forall data,
  index_wf data = true -> json_ok data ->
  exists data', mark_all_purged removed data = Ok data' /\
    index_wf data' = true /\ json_ok data' /\
    versions_of data' = purge_entries removed (versions_of data).
Proof.
  induction removed as [|name removed IH]; intros data Hwf Hok.
  { exists data. by split_and!. }
  simpl. rewrite py_get_versions_wf by done. cbn [result_bind].
  pose proof (index_wf_versions _ Hwf) as Hxs.
  assert (exists d, data = JDict d /\ is_Some (dict_get "versions" d)) as (d & -> & [x Hx]).
  { pose proof (index_wf_shape _ Hwf) as Hsh. revert Hsh.
    unfold index_shape. destruct data as [| | | | |d]; try done.
    destruct (dict_get "versions" d) eqn:E; [eauto | done]. }
  rewrite mark_purged_wf by done. cbn [result_bind]. rewrite Hx.
  set (data1 := JDict (dict_set "versions" (JList (map (purge_entry name) (versions_of (JDict d)))) d)).
  assert (data1 = set_versions (map (purge_entry name) (versions_of (JDict d))) (JDict d))
    as Hd1 by done.
  destruct (IH data1) as (data' & Hrun & Hwf' & Hok' & Hv').
  - rewrite Hd1. apply index_wf_set_versions; [done | by apply forallb_map_entry_wf |].
    by apply forallb_map_text, index_wf_versions_text.
  - rewrite Hd1. apply set_versions_ok; [|done].
    apply Forall_forall. intros v (w & -> & Hw)%list_elem_of_fmap.
    apply json_ok_purge_entry. eapply Forall_forall; [by apply versions_of_ok | done].
  - exists data'. split_and!; try done.
    rewrite Hv', Hd1, versions_of_set_versions by done. done.
Qed.

(** ** What each operation leaves in the index *)

Lemma load_index_same_index p q : index q = index p -> load_index q = load_index p.
Proof. unfold load_index. by intros ->. Qed.

Lemma versions_same_index p q : index q = index p -> versions q = versions p.
Proof. intros H. unfold versions. by rewrite (load_index_same_index _ _ H). Qed.

Lemma purge_run project_dir plain now days p :
  index_wf (load_index p) = true ->
  exists p',
    purge_deleted_older_than project_dir plain now days p = (Ok (expired project_dir plain now days p), p') /\
    history p' = history p /\
    deleted p' = (fun d => foldr delete d (expired project_dir plain now days p)) <$> deleted p /\
    index_wf (load_index p') = true /\
    versions p' = purge_entries (expired project_dir plain now days p) (versions p).
Proof.
  intros Hwf. unfold purge_deleted_older_than. run_call. fold (expired project_dir plain now days p).
  set (p1 := match deleted p with
             | Some d => set_deleted (foldr delete d (expired project_dir plain now days p)) p
             | None => p
             end).
  assert (index p1 = index p) as Hidx by (unfold p1; by destruct (deleted p)).
  assert (history p1 = history p) as Hhis by (unfold p1; by destruct (deleted p)).
  assert (deleted p1 = (fun d => foldr delete d (expired project_dir plain now days p)) <$> deleted p)
    as Hdel.
  { unfold p1. by destruct (deleted p) eqn:E. }
  destruct (expired project_dir plain now days p) as [|n removed] eqn:E.
  { exists p1. split_and!; try done.
    - by rewrite (load_index_same_index _ _ Hidx).
    - by rewrite (versions_same_index _ _ Hidx). }
  rewrite (load_index_same_index _ _ Hidx).
  destruct (mark_all_purged_wf (n :: removed) (load_index p) Hwf (load_index_ok p))
    as (data & -> & Hwf' & Hok' & Hv).
  cbn [result_bind]. rewrite save_index_text by by apply index_wf_text.
  eexists. split; [reflexivity |].
  assert (load_index (set_index (json_dumps data) p1) = data) as Hl
    by by apply load_index_saved.
  split_and!; try done.
  - by rewrite Hl.
  - unfold versions at 1. by rewrite Hl.
Qed.



Lemma restored_entry_ok stamp name f :
  json_ok (restored_entry stamp name f) /\ entry_wf (restored_entry stamp name f) = true.
Proof.
  split; [|done]. unfold restored_entry. constructor.
  - simpl. apply (bool_decide_unpack _). by vm_compute.
  - do 2 (constructor; [constructor |]).
    constructor; [apply size_MB_ok |]. repeat constructor.
Qed.

Lemma restored_entry_text stamp name f :
  is_text stamp = true -> is_text name = true ->
  json_text (restored_entry stamp name f) = true.
Proof.
  intros Hs Hn. unfold restored_entry. cbn [json_text forallb is_text andb].
  by rewrite Hs, Hn, size_MB_text.
Qed.

Lemma append_restored_wf entry data :
  index_wf data = true ->
  append_restored entry data = Ok (set_versions (versions_of data ++ [entry]) data).
Proof.
  intros H%index_wf_shape. revert H.
  unfold index_shape, versions_of, append_restored, py_get.
  destruct data as [| | | | |d]; try done.
  by destruct (dict_get "versions" d) as [[| | | |xs|]|] eqn:E.
Qed.

Lemma restore_deleted_missing stamp name p :
  lookup_file (deleted p) name = None -> restore_deleted stamp name p = (Ok false, p).
Proof.
  intros H. unfold restore_deleted. run_call. rewrite H. by destruct (deleted p).
Qed.

Lemma move_to_deleted_state name p h f :
  index_wf (load_index p) = true ->
  history p = Some h -> h !! name = Some f ->
  exists data,
    move_to_deleted name p
      = (Ok true,
         set_index (json_dumps data)
           (set_deleted (<[name := f]> (default ∅ (deleted p)))
              (set_history (delete name h) p))) /\
    json_ok data /\ index_wf data = true /\
    versions_of data =
      match first_match name (versions p) with
      | Some i => alter (on_fields (mark_status "deleted")) i (versions p)
      | None => versions p
      end.
Proof.
  intros Hwf Hh Hf. rewrite (move_to_deleted_found _ _ _ _ Hh Hf).
  destruct (update_first_version name (mark_status "deleted") (load_index p))
    as [[data found]|] eqn:Hu; [|by rewrite update_first_version_wf in Hu].
  apply saved_update in Hu as (Hok & Hwf1 & HM);
    [| done | apply json_ok_mark_status | apply entry_wf_mark_status
     | by apply json_text_mark_status].
  cbn zeta. cbn [fst]. rewrite save_index_text by by apply index_wf_text.
  exists data. split_and!; try done.
  destruct (first_match name (versions p)).
  - by destruct HM as [-> _].
  - by destruct HM as [-> _].
Qed.

Lemma restore_deleted_state stamp name p d f :
  index_wf (load_index p) = true ->
  is_text stamp = true -> is_text name = true ->
  deleted p = Some d -> d !! name = Some f ->
  exists data,
    restore_deleted stamp name p
      = (Ok true,
         set_index (json_dumps data)
           (set_history (<[name := f]> (default ∅ (history p)))
              (set_deleted (delete name d) p))) /\
    json_ok data /\ index_wf data = true /\
    versions_of data =
      match first_match name (versions p) with
      | Some i => alter (on_fields (mark_status "active")) i (versions p)
      | None => versions p ++ [restored_entry stamp name f]
      end.
Proof.
  intros Hwf Hstamp Hname Hd Hf. unfold restore_deleted. run_call.
  rewrite Hd. simpl. rewrite Hf. simpl.
  unfold load_index at 1. simpl. fold (load_index p).
  destruct (update_first_version name (mark_status "active") (load_index p))
    as [[data found]|] eqn:Hu; [|by rewrite update_first_version_wf in Hu].
  apply saved_update in Hu as (Hok & Hwf1 & HM);
    [| done | apply json_ok_mark_status | apply entry_wf_mark_status
     | by apply json_text_mark_status].
  simpl. destruct (first_match name (versions p)) as [i|].
  - destruct HM as [Hv ->]. rewrite save_index_text by by apply index_wf_text.
    by exists data.
  - destruct HM as [-> ->]. rewrite append_restored_wf by done.
    destruct (restored_entry_ok stamp name f) as [Hrok Hrwf].
    pose proof (restored_entry_text stamp name f Hstamp Hname) as Hrtext.
    cbn [result_bind]. fold (versions p).
    rewrite save_index_text by by apply appended_text.
    eexists. split; [reflexivity |].
    split_and!.
    + apply set_versions_ok; [|apply load_index_ok].
      apply Forall_app. split; [|by constructor].
      apply versions_of_ok, load_index_ok.
    + apply index_wf_set_versions; [done | |].
      * apply forallb_app_entry; [by apply index_wf_versions | done].
      * rewrite forallb_app. cbn [forallb]. rewrite Hrtext. unfold versions.
        by rewrite (index_wf_versions_text _ Hwf).
    + by apply versions_of_set_versions.
Qed.

Lemma restore_deleted_run stamp name p d f :
  index_wf (load_index p) = true ->
  is_text stamp = true -> is_text name = true ->
  deleted p = Some d -> d !! name = Some f ->
  exists p',
    restore_deleted stamp name p = (Ok true, p') /\
    index_wf (load_index p') = true /\
    versions p' =
      match first_match name (versions p) with
      | Some i => alter (on_fields (mark_status "active")) i (versions p)
      | None => versions p ++ [restored_entry stamp name f]
      end.
Proof.
  intros Hwf Hstamp Hname Hd Hf.
  destruct (restore_deleted_state stamp name p d f Hwf Hstamp Hname Hd Hf)
    as (data & -> & Hok & Hwf' & Hv).
  eexists. split; [reflexivity |]. rewrite load_index_saved by done.
  split; [done |]. unfold versions at 1. by rewrite load_index_saved.
Qed.

Lemma move_to_deleted_run name p h f :
  index_wf (load_index p) = true ->
  history p = Some h -> h !! name = Some f ->
  exists p',
    move_to_deleted name p = (Ok true, p') /\
    index_wf (load_index p') = true /\
    versions p' =
      match first_match name (versions p) with
      | Some i => alter (on_fields (mark_status "deleted")) i (versions p)
      | None => versions p
      end.
Proof.
  intros Hwf Hh Hf.
  destruct (move_to_deleted_state name p h f Hwf Hh Hf) as (data & -> & Hok & Hwf' & Hv).
  eexists. split; [reflexivity |]. rewrite load_index_saved by done.
  split; [done |]. unfold versions at 1. by rewrite load_index_saved.
Qed.

Lemma save_versioned_copy_saved stem file_stamp stamp now note bytes p :
  index_wf (load_index p) = true ->
  is_text stem = true -> is_text file_stamp = true ->
  is_text stamp = true -> is_text note = true ->
  let filename := stem +:+ "_" +:+ file_stamp +:+ ".blend" in
  let h := <[filename := File bytes now]> (default ∅ (history p)) in
  exists entry p',
    save_versioned_copy (Some bytes) stem file_stamp stamp now note p
      = (Ok (Some filename), p') /\
    history p' = Some h /\ deleted p' = deleted p /\
    index_wf (load_index p') = true /\
    versions p' = versions p ++ [entry] /\
    entry = JDict [("file", JStr filename); ("timestamp", JStr stamp);
                   ("size_MB", size_MB (file_size (File bytes now)));
                   ("note", JStr note); ("status", JStr "active");
                   ("compressed", JBool false)].
Proof.
  intros Hwf Hstem Hfs Hstamp Hnote filename h. unfold save_versioned_copy. run_call.
  fold filename.
  set (p0 := set_history (default ∅ (history p)) p).
  set (p1 := set_history _ p0).
  assert (index p1 = index p) as Hidx by done.
  assert (history p1 = Some h) as Hh by done.
  assert (is_text filename = true) as Hfile.
  { unfold filename. repeat (apply is_text_app; [done |]). done. }
  rewrite register_version_run; [| by rewrite (load_index_same_index _ _ Hidx) | done..].
  cbn zeta. rewrite (load_index_same_index _ _ Hidx), (versions_same_index _ _ Hidx).
  set (entry := new_entry p1 stamp (InHistory filename) note false).
  destruct (new_entry_ok p1 stamp (InHistory filename) note false) as [Hok Hent].
  assert (json_text entry = true) as Htext by by apply new_entry_text.
  set (q := set_index _ p1).
  destruct (appended p entry Hwf Hok Hent Htext q eq_refl) as [Hwf' Hv].
  exists entry, q. split_and!; try done.
  unfold entry, new_entry. simpl. by rewrite lookup_insert_eq.
Qed.


Lemma dropped_names_ok project_dir plain m p :
  let names := (drop m (sorted_newest_first (glob project_dir plain fnmatch_blend (history p)))).*1 in
  NoDup names /\
  forall n, n ∈ names -> fnmatch_blend n = true /\ is_Some (lookup_file (history p) n).
Proof.
  intros names.
  set (files := sorted_newest_first (glob project_dir plain fnmatch_blend (history p))) in *.
  assert (Permutation files (glob project_dir plain fnmatch_blend (history p))) as Hperm
    by apply sorted_newest_first_perm.
  split.
  - assert (NoDup files.*1) as Hnd by (rewrite Hperm; apply NoDup_glob_names).
    rewrite <- (take_drop m files), fmap_app in Hnd.
    by apply NoDup_app in Hnd as (_ & _ & ?).
  - intros n ([n' f] & -> & Hin)%list_elem_of_fmap. simpl.
    assert ((n', f) ∈ files) as Hin'.
    { rewrite <- (take_drop m files). apply elem_of_app. by right. }
    rewrite Hperm in Hin'. apply elem_of_glob in Hin' as (Hf & _ & Hb).
    rewrite Hf. eauto.
Qed.

Lemma compress_old_versions_run project_dir plain gzip now k p :
  index_wf (load_index p) = true ->
  exists p' names,
    compress_old_versions project_dir plain gzip now k p = (Ok tt, p') /\
    compression_done gzip now names p p'.
Proof.
  intros Hwf. unfold compress_old_versions. run_call.
  set (files := sorted_newest_first (glob project_dir plain fnmatch_blend (history p))).
  assert (exists m, py_slice_from k files = drop m files) as [m ->].
  { unfold py_slice_from. destruct (0 <=? k)%Z; eauto. }
  destruct (dropped_names_ok project_dir plain m p) as [Hnd Hnames].
  destruct (compress_each_spec gzip now _ p Hwf Hnd Hnames) as (p' & Hrun & Hdone).
  exists p', (drop m files).*1. split; [exact Hrun | exact Hdone].
Qed.


(** ** The states of an entry *)



Lemma lookup_foldr_delete (d : gmap string file) names k :
  foldr delete d names !! k = if decide (k ∈ names) then None else d !! k.
Proof.
  induction names as [|n names IH]; cbn [foldr].
  - by rewrite decide_False by apply not_elem_of_nil.
  - destruct (decide (n = k)) as [->|Hne].
    + rewrite lookup_delete_eq. by rewrite decide_True by (apply elem_of_cons; by left).
    + rewrite lookup_delete_ne, IH by done.
      destruct (decide (k ∈ names)).
      * by rewrite decide_True by (apply elem_of_cons; by right).
      * rewrite decide_False; [done |]. intros [?|?]%elem_of_cons; done.
Qed.

Lemma elem_of_expired project_dir plain now days p n :
  n ∈ expired project_dir plain now days p <->
  exists f, lookup_file (deleted p) n = Some f /\ is_hidden n = false /\
            (days * 86400 < now - mtime f)%Z.
Proof.
  unfold expired. rewrite list_elem_of_fmap. split.
  - intros ([n' f] & -> & [Hage Hin]%list_elem_of_filter). simpl in *.
    apply elem_of_glob in Hin as (Hf & Hhid & _). apply Z.ltb_lt in Hage. eauto.
  - intros (f & Hf & Hhid & Hage). exists (n, f). split; [done |].
    apply list_elem_of_filter. split; [by apply Z.ltb_lt |].
    by apply elem_of_glob.
Qed.

Lemma mark_status_idem status d :
  mark_status status (mark_status status d) = mark_status status d.
Proof.
  unfold mark_status. apply dict_set_same, dict_get_set.
Qed.

Lemma purge_entry_purged name v :
  purge_entry name (on_fields (mark_status "purged") v)
  = on_fields (mark_status "purged") v.
Proof.
  unfold purge_entry. rewrite has_file_mark_status.
  destruct (has_file name v); [|done].
  destruct v; simpl; by rewrite ?mark_status_idem.
Qed.

Lemma on_fields_mark_status_idem status v :
  on_fields (mark_status status) (on_fields (mark_status status) v)
  = on_fields (mark_status status) v.
Proof. destruct v; simpl; by rewrite ?mark_status_idem. Qed.

Lemma purge_entries_lookup removed : forall xs i v,
  xs !! i = Some v ->
  purge_entries removed xs !! i =
  Some (if existsb (fun n => has_file n v) removed
        then on_fields (mark_status "purged") v else v).
Proof.
  induction removed as [|n removed IH]; intros xs i v Hi; [done |].
  simpl. rewrite (IH _ i (purge_entry n v)) by by rewrite list_lookup_fmap, Hi.
  unfold purge_entry. destruct (has_file n v) eqn:E; simpl; [|done].
  assert (forall w, has_file w (on_fields (mark_status "purged") v) = has_file w v)
    as Hsame by (intros; apply has_file_mark_status).
  destruct (existsb _ removed); [|done].
  by rewrite on_fields_mark_status_idem.
Qed.

(** X13. What [purge_deleted_older_than] does on a well-formed index,
    for a project directory at a path without pattern characters.
    The files it removes are those of [deleted/] whose name does not
    start with a dot and whose age exceeds [days * 86400] seconds; it
    returns their basenames; every entry that bears one of these
    basenames gets the status [purged]; the other files and entries are
    as they were. *)
Theorem purge_deleted_older_than_spec (project_dir : string)
    (plain : has_magic project_dir = false) (now days : Z) (p : project) :
  index_wf (load_index p) = true ->
  exists p',
    purge_deleted_older_than project_dir plain now days p
      = (Ok (expired project_dir plain now days p), p') /\
    (forall n, n ∈ expired project_dir plain now days p <->
       exists f, lookup_file (deleted p) n = Some f /\ is_hidden n = false /\
                 (days * 86400 < now - mtime f)%Z) /\
    (forall n, lookup_file (deleted p') n =
       if decide (n ∈ expired project_dir plain now days p) then None
       else lookup_file (deleted p) n) /\
    history p' = history p /\
    (forall i v, versions p !! i = Some v ->
       versions p' !! i =
       Some (if existsb (fun n => has_file n v) (expired project_dir plain now days p)
             then on_fields (mark_status "purged") v else v)).
Proof.
  intros Hwf. destruct (purge_run project_dir plain now days p Hwf) as (p' & Hrun & Hh & Hd & _ & Hv).
  exists p'. split_and!; try done.
  - apply elem_of_expired.
  - intros n. rewrite Hd. destruct (deleted p) as [d|]; simpl.
    + apply lookup_foldr_delete.
    + by destruct (decide _).
  - intros i v Hi. rewrite Hv. by apply purge_entries_lookup.
Qed.


(** ** Two threads on one index *)

Lemma apply_update_wf u data :
  index_wf data = true -> json_ok data ->
  exists data', apply_update u data = Ok data' /\
                index_wf data' = true /\ json_ok data'.
Proof.
  intros Hwf Hok. destruct u as [name|removed]; simpl.
  - rewrite update_first_version_wf by done. cbn [result_bind].
    destruct (first_match name (versions_of data)) as [i|] eqn:Hi; [|by eexists].
    eexists. split; [reflexivity |]. simpl. split.
    + apply index_wf_set_versions; [done | |].
      * apply forallb_alter; [apply entry_wf_mark_compressed | by apply index_wf_versions].
      * apply forallb_alter_at; [|by apply index_wf_versions_text].
        intros v Hv Htext. apply json_text_mark_compressed; [|done].
        apply is_text_gz_name, (has_file_text name v); [done |].
        apply first_match_lookup in Hi as (w & Hw & Hfile & _). congruence.
    + apply set_versions_ok; [|done]. apply Forall_alter; [by apply versions_of_ok |].
      intros. by apply json_ok_mark_compressed.
  - destruct (mark_all_purged_wf removed data Hwf Hok) as (data' & ? & ? & ? & _).
    eauto.
Qed.

Lemma append_version_ok entry data :
  index_wf data = true -> json_ok data -> json_ok entry -> entry_wf entry = true ->
  json_text entry = true ->
  exists data', append_version entry data = Ok data' /\
                index_wf data' = true /\ json_ok data' /\
                versions_of data' = versions_of data ++ [entry].
Proof.
  intros Hwf Hok Heok Hewf Hetext. rewrite append_version_wf by done.
  eexists. split; [reflexivity |]. split_and!.
  - apply index_wf_set_versions; [done | |].
    + apply forallb_app_entry; [by apply index_wf_versions | done].
    + rewrite forallb_app. cbn [forallb].
      by rewrite (index_wf_versions_text _ Hwf), Hetext.
  - apply set_versions_ok; [|done].
    apply Forall_app. split; [by apply versions_of_ok | by constructor].
  - by apply versions_of_set_versions.
Qed.

(** C9 as the specification states it does not hold: no lock guards the
    index.  When [register_version] reads and writes the index between
    the [load_index] and the [save_index] of the background update, the
    entry it added is overwritten; when the background update falls
    between the two steps of [register_version], the update is
    overwritten. *)
Lemma overlapping_writes_lose_a_mutation :
  let u := CompressUpdate "scene_1.blend" in
  let entry := sample_entry "scene_4.blend" "active" false in
  let lost_entry := run_schedule u entry [BgLoad; FgLoad; FgSave; BgSave] sample_project in
  let lost_update := run_schedule u entry [FgLoad; BgLoad; BgSave; FgSave] sample_project in
  [BgLoad; FgLoad; FgSave; BgSave] ∈ interleavings /\
  [FgLoad; BgLoad; BgSave; FgSave] ∈ interleavings /\
  length (versions lost_entry) = 3%nat /\
  (has_file "scene_4.blend" <$> last (versions lost_entry)) = Some false /\
  (has_file "scene_4.blend" <$> last (versions lost_update)) = Some true /\
  (has_file "scene_1.blend" <$> versions lost_update !! 0%nat) = Some true /\
  (has_file "scene_1.blend.gz" <$> versions lost_update !! 0%nat) = Some false.
Proof.
  split; [set_solver |]. split; [set_solver |].
  split_and!; vm_compute; reflexivity.
Qed.

(** C9, amended.  When the two steps of [register_version] and the two
    steps of the background update do not overlap, and the strings of
    the new entry are text that [index.json] takes, neither mutation is
    lost: the index is the one that the two leave when one runs after
    the other, with the new entry and with the update. *)
Theorem serial_writes_keep_both (u : index_update) (entry : json) (p : project) :
  index_wf (load_index p) = true ->
  json_okb entry = true -> entry_wf entry = true -> json_text entry = true ->
  (exists updated final,
     apply_update u (load_index p) = Ok updated /\
     append_version entry updated = Ok final /\
     load_index (run_schedule u entry [BgLoad; BgSave; FgLoad; FgSave] p) = final /\
     versions_of final = versions_of updated ++ [entry]) /\
  (exists appended final,
     append_version entry (load_index p) = Ok appended /\
     versions_of appended = versions p ++ [entry] /\
     apply_update u appended = Ok final /\
     load_index (run_schedule u entry [FgLoad; FgSave; BgLoad; BgSave] p) = final).
Proof.
  intros Hwf Heok%json_okb_ok Hewf Hetext. pose proof (load_index_ok p) as Hok. split.
  - destruct (apply_update_wf u _ Hwf Hok) as (d1 & Hu & Hwf1 & Hok1).
    destruct (append_version_ok entry d1 Hwf1 Hok1 Heok Hewf Hetext)
      as (d2 & Ha & Hwf2 & Hok2 & Hv).
    exists d1, d2. split_and!; try done.
    unfold run_schedule. cbn [foldl step disk bg_data fg_data held]. rewrite Hu.
    cbn [foldl step disk bg_data fg_data held].
    rewrite save_index_text by by apply index_wf_text. cbn [snd].
    rewrite load_index_saved by done. rewrite Ha.
    cbn [foldl step disk bg_data fg_data held].
    rewrite save_index_text by by apply index_wf_text. cbn [snd].
    by apply load_index_saved.
  - destruct (append_version_ok entry _ Hwf Hok Heok Hewf Hetext)
      as (d1 & Ha & Hwf1 & Hok1 & Hv).
    destruct (apply_update_wf u d1 Hwf1 Hok1) as (d2 & Hu & Hwf2 & Hok2).
    exists d1, d2. split_and!; try done.
    unfold run_schedule. cbn [foldl step disk bg_data fg_data held]. rewrite Ha.
    cbn [foldl step disk bg_data fg_data held].
    rewrite save_index_text by by apply index_wf_text. cbn [snd].
    rewrite load_index_saved by done. rewrite Hu.
    cbn [foldl step disk bg_data fg_data held].
    rewrite save_index_text by by apply index_wf_text. cbn [snd].
    by apply load_index_saved.
Qed.

(** ** The theorems at sample project directories *)


Lemma serial_writes_keep_both_witness :
  let u := CompressUpdate "scene_1.blend" in
  let entry := sample_entry "scene_4.blend" "active" false in
  let p := sample_project in
  (exists updated final,
     apply_update u (load_index p) = Ok updated /\
     append_version entry updated = Ok final /\
     load_index (run_schedule u entry [BgLoad; BgSave; FgLoad; FgSave] p) = final /\
     versions_of final = versions_of updated ++ [entry]) /\
  (exists appended final,
     append_version entry (load_index p) = Ok appended /\
     versions_of appended = versions p ++ [entry] /\
     apply_update u appended = Ok final /\
     load_index (run_schedule u entry [FgLoad; FgSave; BgLoad; BgSave] p) = final).
Proof.
  apply (serial_writes_keep_both (CompressUpdate "scene_1.blend")
           (sample_entry "scene_4.blend" "active" false) sample_project);
    [vm_compute; reflexivity | vm_compute; reflexivity | reflexivity
    | vm_compute; reflexivity].
Defined.

(** ** The project directory of a document *)


Lemma split_sep_cons s : exists x xs, split_sep s = x :: xs.
Proof.
  destruct s as [|c r]; simpl; [eauto |].
  destruct (N_of_ascii c =? 47)%N; [eauto |].
  destruct (split_sep r); eauto.
Qed.

Lemma split_sep_no_sep s : Forall (fun x => all_chars no_sep x = true) (split_sep s).
Proof.
  induction s as [|c r IH]; simpl; [by repeat constructor |].
  destruct (N_of_ascii c =? 47)%N eqn:E; [by constructor |].
  destruct (split_sep r) as [|x xs].
  - repeat constructor. simpl. unfold no_sep. by rewrite E.
  - inversion IH; subst. constructor; [|done]. simpl. unfold no_sep at 1. by rewrite E.
Qed.

Lemma split_sep_plain s : all_chars no_sep s = true -> split_sep s = [s].
Proof.
  induction s as [|c r IH]; simpl; [done |].
  unfold no_sep at 1. destruct (N_of_ascii c =? 47)%N; [done |]. simpl.
  intros H. by rewrite IH.
Qed.

Lemma path_root_plain s : all_chars no_sep s = true -> path_root s = "".
Proof.
  unfold path_root. destruct s as [|c r]; [done |]. simpl.
  unfold no_sep at 1. destruct (N_of_ascii c =? 47)%N; [done |]. intros _.
  simpl. by rewrite Nat.sub_diag.
Qed.

Lemma all_chars_substring p n : forall s,
  all_chars p s = true -> all_chars p (substring 0 n s) = true.
Proof.
  induction n as [|n IH]; intros [|c r]; simpl; try done.
  intros [-> H]%andb_true_iff. simpl. by apply IH.
Qed.

Lemma path_name_no_sep s : all_chars no_sep (path_name (Path s)) = true.
Proof.
  unfold path_name, Path, path_parts. simpl.
  destruct (last _) as [x|] eqn:E; [|done]. simpl.
  apply last_Some_elem_of, list_elem_of_filter in E as [_ E].
  pose proof (split_sep_no_sep s) as H. rewrite Forall_forall in H. by apply H.
Qed.

Lemma stem_no_sep s : all_chars no_sep (stem (Path s)) = true.
Proof.
  unfold stem. pose proof (path_name_no_sep s) as H.
  destruct (rfind_dot _) as [i|]; [|done].
  destruct (_ && _); [|done]. by apply all_chars_substring.
Qed.

Lemma proj_name_no_sep b : all_chars no_sep (proj_name b) = true.
Proof. unfold proj_name. case_bool_decide; [done |]. apply stem_no_sep. Qed.

Lemma replace_char_chars (p : ascii -> bool) old new s :
  p new = true -> (forall c, c <> old -> In c (list_ascii_of_string s) -> p c = true) ->
  all_chars p (replace_char old new s) = true.
Proof.
  intros Hnew. induction s as [|c r IH]; simpl; [done |]. intros H.
  apply andb_true_iff. split.
  - case_bool_decide; [done |]. apply H; auto.
  - apply IH. intros c' ? ?. apply H; auto.
Qed.

Lemma all_chars_In p s c :
  all_chars p s = true -> In c (list_ascii_of_string s) -> p c = true.
Proof.
  induction s as [|x r IH]; simpl; [done |].
  intros [Hx Hr]%andb_true_iff [<-|Hin]; auto.
Qed.

(** X1. The folder [project_dir_for] returns is [root_dir] or a
    direct child of it: the name it appends is one component without a
    space and without a separator. *)
Theorem project_dir_for_child (blend_path root_dir : string) :
  all_chars (fun c => no_sep c && negb (bool_decide (c = " "%char)))
    (safe_name blend_path) = true /\
  (path_parts (safe_name blend_path) = [safe_name blend_path] \/
   path_parts (safe_name blend_path) = []) /\
  project_dir_for blend_path root_dir =
    path_str (PurePath (path_root root_dir)
                (path_parts root_dir ++ path_parts (safe_name blend_path))).
Proof.
  assert (all_chars (fun c => no_sep c && negb (bool_decide (c = " "%char)))
            (safe_name blend_path) = true) as Hchars.
  { unfold safe_name. apply replace_char_chars; [done |].
    intros c Hc Hin. apply andb_true_iff. split.
    - eapply all_chars_In; [apply proj_name_no_sep | done].
    - by rewrite bool_decide_eq_false_2. }
  assert (all_chars no_sep (safe_name blend_path) = true) as Hsep.
  { clear -Hchars. induction (safe_name blend_path) as [|c r IH]; simpl in *; [done |].
    apply andb_true_iff in Hchars as [[-> _]%andb_true_iff Hr]. simpl. by apply IH. }
  split_and!; [done | |].
  - unfold path_parts. rewrite split_sep_plain by done.
    rewrite filter_cons, filter_nil. case_decide; auto.
  - unfold project_dir_for, joinpath. simpl.
    by rewrite path_root_plain, bool_decide_eq_true_2 by done.
Qed.

Lemma split_sep_replace old new s :
  no_sep old = true -> no_sep new = true ->
  split_sep (replace_char old new s) = replace_char old new <$> split_sep s.
Proof.
  intros Hold Hnew. induction s as [|c r IH]; simpl; [done |].
  case_bool_decide as Hc.
  - subst c. unfold no_sep in Hold, Hnew.
    apply negb_true_iff in Hold, Hnew. rewrite Hold, Hnew, IH.
    destruct (split_sep r); simpl; by rewrite ?bool_decide_eq_true_2.
  - destruct (N_of_ascii c =? 47)%N; rewrite IH; [done |].
    destruct (split_sep r); simpl; by rewrite ?bool_decide_eq_false_2.
Qed.

Lemma replace_char_nil old new s : replace_char old new s = "" <-> s = "".
Proof. by destruct s. Qed.

Lemma replace_char_dot old new s :
  old <> "."%char -> new <> "."%char -> replace_char old new s = "." <-> s = ".".
Proof.
  intros Hold Hnew. destruct s as [|c [|c' r]]; simpl; try done.
  case_bool_decide; split; intros; simplify_eq; done.
Qed.

Lemma path_parts_replace old new s :
  no_sep old = true -> no_sep new = true -> old <> "."%char -> new <> "."%char ->
  path_parts (replace_char old new s) = replace_char old new <$> path_parts s.
Proof.
  intros. unfold path_parts. rewrite split_sep_replace by done.
  induction (split_sep s) as [|x xs IH]; [done |].
  rewrite fmap_cons, !filter_cons, IH.
  case_decide as Hx; case_decide as Hx'; try done.
  - destruct Hx'. rewrite <- (replace_char_nil old new x), <- (replace_char_dot old new x); done.
  - destruct Hx. rewrite (replace_char_nil old new x), (replace_char_dot old new x); done.
Qed.

Lemma rfind_dot_replace old new s :
  old <> "."%char -> new <> "."%char ->
  rfind_dot (replace_char old new s) = rfind_dot s.
Proof.
  intros Hold Hnew. induction s as [|c r IH]; simpl; [done |]. rewrite IH.
  destruct (rfind_dot r); [done |]. case_bool_decide; [|done]. subst c.
  assert (forall a, a <> "."%char -> (N_of_ascii a =? 46)%N = false) as Hne.
  { intros a Ha. apply N.eqb_neq. intros E. apply Ha.
    rewrite <- (ascii_N_embedding a), E. done. }
  by rewrite !Hne.
Qed.

Lemma length_replace_char old new s :
  String.length (replace_char old new s) = String.length s.
Proof. induction s; simpl; congruence. Qed.

Lemma substring_replace_char old new n : forall s,
  substring 0 n (replace_char old new s) = replace_char old new (substring 0 n s).
Proof. induction n as [|n IH]; intros [|c r]; simpl; try done. by rewrite IH. Qed.

Lemma stem_replace old new s :
  no_sep old = true -> no_sep new = true -> old <> "."%char -> new <> "."%char ->
  stem (Path (replace_char old new s)) = replace_char old new (stem (Path s)).
Proof.
  intros. unfold stem, path_name, Path. cbn [parts].
  rewrite path_parts_replace, fmap_last by done.
  assert (default "" (replace_char old new <$> last (path_parts s))
          = replace_char old new (default "" (last (path_parts s)))) as ->.
  { by destruct (last _). }
  rewrite rfind_dot_replace, length_replace_char by done.
  destruct (rfind_dot _); [|done]. destruct (_ && _); [|done].
  apply substring_replace_char.
Qed.

Lemma replace_char_idem old new s :
  new <> old -> replace_char old new (replace_char old new s) = replace_char old new s.
Proof.
  intros Hne. induction s as [|c r IH]; simpl; [done |]. rewrite IH. f_equal.
  destruct (decide (c = old)) as [->|Hc].
  - by rewrite (bool_decide_eq_true_2 (old = old)), bool_decide_eq_false_2.
  - by rewrite !(bool_decide_eq_false_2 (c = old)).
Qed.

Lemma safe_name_replace b : safe_name (replace_char " " "_" b) = safe_name b.
Proof.
  unfold safe_name, proj_name.
  destruct (decide (b = "")) as [->|Hb]; [done |].
  rewrite !bool_decide_eq_false_2; [| done | by rewrite replace_char_nil].
  rewrite stem_replace by done. by apply replace_char_idem.
Qed.

(** X2. A document whose path has spaces and the document whose path has
    underscores in their place get the same project folder. *)
Theorem project_dir_for_spaces (blend_path root_dir : string) :
  project_dir_for (replace_char " " "_" blend_path) root_dir
  = project_dir_for blend_path root_dir.
Proof. unfold project_dir_for. by rewrite safe_name_replace. Qed.

Lemma split_sep_app a b :
  split_sep (a +:+ String "/" b) = split_sep a ++ split_sep b.
Proof.
  induction a as [|c r IH]; simpl; [done |]. rewrite IH.
  destruct (N_of_ascii c =? 47)%N; [done |].
  destruct (split_sep_cons r) as (x & xs & ->). done.
Qed.

Lemma path_name_in_dir d n :
  is_basename n = true -> path_name (Path (d +:+ String "/" n)) = n.
Proof.
  unfold is_basename. intros [[[Hnil Hdot]%andb_true_iff _]%andb_true_iff Hsep]%andb_true_iff.
  apply negb_true_iff, bool_decide_eq_false in Hnil, Hdot.
  unfold path_name, Path, path_parts. cbn [parts].
  rewrite split_sep_app, (split_sep_plain n) by done.
  rewrite filter_app, filter_cons, filter_nil, decide_True by done.
  by rewrite last_snoc.
Qed.

(** X3. The project folder depends on the file name of the document
    only: documents of the same name in two folders share it. *)
Theorem project_dir_for_same_name (dir1 dir2 name root_dir : string) :
  is_basename name = true ->
  project_dir_for (dir1 +:+ "/" +:+ name) root_dir
  = project_dir_for (dir2 +:+ "/" +:+ name) root_dir.
Proof.
  intros Hn. unfold project_dir_for, safe_name, proj_name, stem.
  change ("/" +:+ name) with (String "/" name).
  rewrite !path_name_in_dir by done.
  rewrite !bool_decide_eq_false_2; [done | by destruct dir2 | by destruct dir1].
Qed.

Lemma project_dir_for_same_name_witness :
  project_dir_for ("/home/a" +:+ "/" +:+ "scene.blend") "/autosave"
  = project_dir_for ("/mnt/b" +:+ "/" +:+ "scene.blend") "/autosave".
Proof. apply (project_dir_for_same_name "/home/a" "/mnt/b" "scene.blend" "/autosave"). reflexivity. Defined.

(** ** Registering a version *)

(** X4. On a well-formed index, for a timestamp, a file name and a
    note that are text and a file of fewer than 2^53 bytes,
    [register_version] returns the entry it built and leaves the index
    with that entry after the entries it had. *)
Theorem register_version_appends (stamp : string) (filename : path) (note : string)
    (compressed : bool) (p : project) :
  index_wf (load_index p) = true ->
  is_text stamp = true -> is_text (basename filename) = true -> is_text note = true ->
  (forall size, getsize p filename = Some size -> (size < 2 ^ 53)%N) ->
  exists entry p',
    register_version stamp filename note compressed p = (Ok entry, p') /\
    history p' = history p /\ deleted p' = deleted p /\
    index_wf (load_index p') = true /\
    versions p' = versions p ++ [entry] /\
    field "file" entry = Some (JStr (basename filename)) /\
    field "timestamp" entry = Some (JStr stamp) /\
    field "size_MB" entry = Some (from_option size_MB JNull (getsize p filename)) /\
    field "note" entry = Some (JStr note) /\
    field "status" entry = Some (JStr "active") /\
    field "compressed" entry = Some (JBool compressed).
Proof.
  intros Hwf Hstamp Hfile Hnote _. rewrite register_version_run by done. cbn zeta.
  destruct (new_entry_ok p stamp filename note compressed) as [Hok Hent].
  pose proof (new_entry_text p stamp filename note compressed Hstamp Hfile Hnote)
    as Htext.
  set (entry := new_entry p stamp filename note compressed) in *.
  set (q := set_index _ p).
  destruct (appended p entry Hwf Hok Hent Htext q eq_refl) as [Hwf' Hv].
  exists entry, q. by split_and!.
Qed.

(** X5. When [index.json] is missing, is not UTF-8 or is not JSON,
    [register_version], for a timestamp, a file name and a note that
    are text, writes an index whose only entry is the new one. *)
Theorem register_version_rebuilds_index (stamp : string) (filename : path)
    (note : string) (compressed : bool) (p : project) :
  index p = None \/
  (exists txt, index p = Some txt /\ (is_text txt = false \/ json_loads txt = None)) ->
  is_text stamp = true -> is_text (basename filename) = true -> is_text note = true ->
  exists entry p',
    register_version stamp filename note compressed p = (Ok entry, p') /\
    load_index p' = JDict [("versions", JList [entry])].
Proof.
  intros Hidx Hstamp Hfile Hnote.
  assert (load_index p = empty_index) as Hload.
  { unfold load_index. destruct Hidx as [-> | (txt & -> & [-> | Hnone])]; [done..|].
    rewrite Hnone. by destruct (is_text txt). }
  assert (index_wf (load_index p) = true) as Hwf by by rewrite Hload.
  rewrite register_version_run by done. cbn zeta.
  eexists _, _. split; [reflexivity |].
  unfold versions. rewrite Hload. simpl.
  apply load_index_set_index.
  - apply ok_dict; [apply (bool_decide_unpack _); by vm_compute |].
    constructor; [|constructor]. apply ok_list.
    constructor; [|constructor]. apply new_entry_ok.
  - cbn [json_text forallb fst snd is_text]. rewrite new_entry_text by done. done.
Qed.

(** ** Writing the index *)


(** A file name that is not text, as a file system of Linux allows it,
    costs the index: [register_version] raises and the three entries
    that [index.json] held are gone at the next reading. *)
Example register_version_loses_index :
  let filename := Elsewhere (String "255"%char ".blend") None in
  let r := register_version "2024-10-27 02:31:00" filename "manual" false
             sample_project in
  length (versions sample_project) = 3 /\
  r.1 = Raise UnicodeEncodeError /\
  load_index r.2 = empty_index.
Proof. split_and!; vm_compute; reflexivity. Qed.

(** ** Saving a snapshot *)

(** X6. When the host saves the copy, [save_versioned_copy] on a
    well-formed index, for a stem, timestamps and a note that are text
    and a copy of fewer than 2^53 bytes, writes the file
    [<stem>_<stamp>.blend] into [history/] and appends its entry, active
    and not compressed; when the host fails it returns nothing and only
    [history/] is created. *)
Theorem save_versioned_copy_registers (stem file_stamp stamp : string) (now : Z)
    (note bytes : string) (p : project) :
  index_wf (load_index p) = true ->
  is_text stem = true -> is_text file_stamp = true ->
  is_text stamp = true -> is_text note = true ->
  (N.of_nat (String.length bytes) < 2 ^ 53)%N ->
  let filename := stem +:+ "_" +:+ file_stamp +:+ ".blend" in
  (exists entry p',
     save_versioned_copy (Some bytes) stem file_stamp stamp now note p
       = (Ok (Some filename), p') /\
     history p' = Some (<[filename := File bytes now]> (default ∅ (history p))) /\
     deleted p' = deleted p /\
     index_wf (load_index p') = true /\
     versions p' = versions p ++ [entry] /\
     entry = JDict [("file", JStr filename); ("timestamp", JStr stamp);
                    ("size_MB", size_MB (N.of_nat (String.length bytes)));
                    ("note", JStr note); ("status", JStr "active");
                    ("compressed", JBool false)]) /\
  save_versioned_copy None stem file_stamp stamp now note p
    = (Ok None, set_history (default ∅ (history p)) p).
Proof.
  intros Hwf Hstem Hfs Hstamp Hnote _ filename. split; [|done].
  destruct (save_versioned_copy_saved stem file_stamp stamp now note bytes p
              Hwf Hstem Hfs Hstamp Hnote) as (entry & p' & H).
  by exists entry, p'.
Qed.

(** X7. Two snapshots of one document taken while the clock shows the
    same second bear one file name: the second file replaces the first
    in [history/] and the index gets two entries for that name.  The
    stem, the timestamps and the note are text. *)
Theorem save_versioned_copy_same_second (stem file_stamp stamp1 stamp2 : string)
    (now1 now2 : Z) (note bytes1 bytes2 : string) (p : project) :
  index_wf (load_index p) = true ->
  is_text stem = true -> is_text file_stamp = true ->
  is_text stamp1 = true -> is_text stamp2 = true -> is_text note = true ->
  let filename := stem +:+ "_" +:+ file_stamp +:+ ".blend" in
  exists p1 p2 entry1 entry2,
    save_versioned_copy (Some bytes1) stem file_stamp stamp1 now1 note p
      = (Ok (Some filename), p1) /\
    save_versioned_copy (Some bytes2) stem file_stamp stamp2 now2 note p1
      = (Ok (Some filename), p2) /\
    history p2 = Some (<[filename := File bytes2 now2]> (default ∅ (history p))) /\
    versions p2 = versions p ++ [entry1; entry2] /\
    has_file filename entry1 = true /\ has_file filename entry2 = true.
Proof.
  intros Hwf Hstem Hfs Hstamp1 Hstamp2 Hnote filename.
  destruct (save_versioned_copy_saved stem file_stamp stamp1 now1 note bytes1 p
              Hwf Hstem Hfs Hstamp1 Hnote)
    as (entry1 & p1 & Hrun1 & Hh1 & _ & Hwf1 & Hv1 & ->).
  destruct (save_versioned_copy_saved stem file_stamp stamp2 now2 note bytes2 p1
              Hwf1 Hstem Hfs Hstamp2 Hnote)
    as (entry2 & p2 & Hrun2 & Hh2 & _ & _ & Hv2 & ->).
  eexists p1, p2, _, _. split_and!; try done.
  - rewrite Hh2, Hh1. simpl. by rewrite insert_insert_eq.
  - by rewrite Hv2, Hv1, <- app_assoc.
  - unfold has_file. simpl. by rewrite bool_decide_eq_true_2.
  - unfold has_file. simpl. by rewrite bool_decide_eq_true_2.
Qed.

(** ** Moving and restoring a file *)

(** X8. When the file is in [history/], [move_to_deleted] on a
    well-formed index moves it to [deleted/] with its bytes and its
    mtime, in place of a file of that name already there, touches no
    other file, and writes [deleted] into the first entry that bears
    the name and into no other. *)
Theorem move_to_deleted_moves (name : string) (p : project) (f : file) :
  index_wf (load_index p) = true ->
  lookup_file (history p) name = Some f ->
  exists p',
    move_to_deleted name p = (Ok true, p') /\
    (forall n, lookup_file (history p') n
               = if decide (n = name) then None else lookup_file (history p) n) /\
    (forall n, lookup_file (deleted p') n
               = if decide (n = name) then Some f else lookup_file (deleted p) n) /\
    index_wf (load_index p') = true /\
    versions p' =
      match first_match name (versions p) with
      | Some i => alter (on_fields (mark_status "deleted")) i (versions p)
      | None => versions p
      end.
Proof.
  intros Hwf Hf. destruct (history p) as [h|] eqn:Hh; [|done]. simpl in Hf.
  destruct (move_to_deleted_state name p h f Hwf Hh Hf) as (data & -> & Hok & Hwf' & Hv).
  eexists. split; [reflexivity |]. split_and!.
  - intros n. simpl. case_decide as Hn.
    + subst n. apply lookup_delete_eq.
    + by rewrite lookup_delete_ne.
  - intros n. simpl. case_decide as Hn.
    + subst n. apply lookup_insert_eq.
    + rewrite lookup_insert_ne by done. by destruct (deleted p).
  - by rewrite load_index_saved.
  - unfold versions at 1. by rewrite load_index_saved.
Qed.

(** X9. When the file is in [deleted/], [restore_deleted] on a
    well-formed index, for a timestamp and a name that are text and a
    file of fewer than 2^53 bytes, moves it back to [history/] with its
    bytes and its mtime and writes [active] into the first entry that
    bears the name; when no entry bears it, an entry with the note
    [restored] is appended. *)
Theorem restore_deleted_restores (stamp name : string) (p : project) (f : file) :
  index_wf (load_index p) = true ->
  is_text stamp = true -> is_text name = true ->
  (N.of_nat (String.length (content f)) < 2 ^ 53)%N ->
  lookup_file (deleted p) name = Some f ->
  exists p',
    restore_deleted stamp name p = (Ok true, p') /\
    (forall n, lookup_file (history p') n
               = if decide (n = name) then Some f else lookup_file (history p) n) /\
    (forall n, lookup_file (deleted p') n
               = if decide (n = name) then None else lookup_file (deleted p) n) /\
    index_wf (load_index p') = true /\
    versions p' =
      match first_match name (versions p) with
      | Some i => alter (on_fields (mark_status "active")) i (versions p)
      | None =>
          versions p ++
            [JDict [("file", JStr name); ("timestamp", JStr stamp);
                    ("size_MB", size_MB (N.of_nat (String.length (content f))));
                    ("note", JStr "restored"); ("status", JStr "active");
                    ("compressed", JBool (ends_with ".gz" name))]]
      end.
Proof.
  intros Hwf Hstamp Hname _ Hf. destruct (deleted p) as [d|] eqn:Hd; [|done].
  simpl in Hf.
  destruct (restore_deleted_state stamp name p d f Hwf Hstamp Hname Hd Hf)
    as (data & -> & Hok & Hwf' & Hv).
  eexists. split; [reflexivity |]. split_and!.
  - intros n. simpl. case_decide as Hn.
    + subst n. apply lookup_insert_eq.
    + rewrite lookup_insert_ne by done. by destruct (history p).
  - intros n. simpl. case_decide as Hn.
    + subst n. apply lookup_delete_eq.
    + by rewrite lookup_delete_ne.
  - by rewrite load_index_saved.
  - unfold versions at 1. by rewrite load_index_saved.
Qed.

(** X10. On a well-formed index, for a basename and a timestamp that
    are text, [move_to_deleted] and [restore_deleted] return whether
    the file was where they look for it, and a [restore_deleted] that
    finds no file changes nothing. *)
Theorem move_and_restore_report (stamp name : string) (p : project) :
  index_wf (load_index p) = true ->
  is_basename name = true -> is_text stamp = true -> is_text name = true ->
  (move_to_deleted name p).1
    = Ok (bool_decide (is_Some (lookup_file (history p) name))) /\
  (restore_deleted stamp name p).1
    = Ok (bool_decide (is_Some (lookup_file (deleted p) name))) /\
  (lookup_file (deleted p) name = None -> (restore_deleted stamp name p).2 = p).
Proof.
  intros Hwf _ Hstamp Hname. split_and!.
  - destruct (lookup_file (history p) name) as [f|] eqn:Hf.
    + destruct (history p) as [h|] eqn:Hh; [|done]. simpl in Hf.
      destruct (move_to_deleted_state name p h f Hwf Hh Hf) as (data & -> & _).
      done.
    + rewrite move_to_deleted_absent by done. simpl.
      done.
  - destruct (lookup_file (deleted p) name) as [f|] eqn:Hf.
    + destruct (deleted p) as [d|] eqn:Hd; [|done]. simpl in Hf.
      destruct (restore_deleted_state stamp name p d f Hwf Hstamp Hname Hd Hf)
        as (data & -> & _).
      done.
    + rewrite restore_deleted_missing by done. simpl.
      done.
  - intros Hf. by rewrite restore_deleted_missing.
Qed.

(** X11. When the index is an object without [versions], its strings
    being text, and the file is in [deleted/], [restore_deleted] moves
    the file back and returns true, and the entry it builds is dropped:
    the index is written again as it was read. *)
Theorem restore_deleted_drops_entry (stamp name : string) (p : project) (f : file)
    (fields : list (string * json)) :
  load_index p = JDict fields -> dict_get "versions" fields = None ->
  json_text (load_index p) = true ->
  lookup_file (deleted p) name = Some f ->
  exists p',
    restore_deleted stamp name p = (Ok true, p') /\
    lookup_file (history p') name = Some f /\
    lookup_file (deleted p') name = None /\
    load_index p' = load_index p.
Proof.
  intros Hload Hnone Htext Hf. destruct (deleted p) as [d|] eqn:Hd; [|done].
  simpl in Hf.
  pose proof (load_index_ok p) as Hok. rewrite Hload in Htext, Hok.
  unfold restore_deleted. run_call. rewrite Hd. simpl. rewrite Hf. simpl.
  unfold load_index at 1. simpl. fold (load_index p). rewrite Hload.
  unfold update_first_version. rewrite Hnone. simpl.
  unfold append_restored, py_get. rewrite ?Hnone. simpl. rewrite ?Hnone.
  rewrite save_index_text by done.
  eexists. split; [reflexivity |]. split_and!.
  - simpl. apply lookup_insert_eq.
  - simpl. apply lookup_delete_eq.
  - by rewrite load_index_set_index.
Qed.

(** X12. When the index is not an object and the file is in [history/],
    [move_to_deleted] raises [AttributeError] after it has moved the
    file; [index.json] is left as it was. *)
Theorem move_to_deleted_raises_after_move (name : string) (p : project) (f : file) :
  (forall fields, load_index p <> JDict fields) ->
  lookup_file (history p) name = Some f ->
  exists p',
    move_to_deleted name p = (Raise AttributeError, p') /\
    index p' = index p /\
    lookup_file (history p') name = None /\
    lookup_file (deleted p') name = Some f.
Proof.
  intros Hload Hf. destruct (history p) as [h|] eqn:Hh; [|done]. simpl in Hf.
  rewrite (move_to_deleted_found _ _ _ _ Hh Hf). cbn zeta.
  assert (update_first_version name (mark_status "deleted") (load_index p)
          = Raise AttributeError) as ->.
  { destruct (load_index p) as [| | | | |fields]; try done. by destruct (Hload fields). }
  eexists. split; [reflexivity |]. split_and!; [done | |].
  - simpl. apply lookup_delete_eq.
  - simpl. apply lookup_insert_eq.
Qed.

(** ** Purging *)

Lemma purge_nothing project_dir plain now days p :
  expired project_dir plain now days p = [] ->
  purge_deleted_older_than project_dir plain now days p = (Ok [], p).
Proof.
  intros E. unfold purge_deleted_older_than. run_call.
  fold (expired project_dir plain now days p).
  rewrite E. simpl. f_equal. by destruct p as [i h [d|]].
Qed.

(** X14. When no file of [deleted/] is older than [days] days,
    [purge_deleted_older_than], for a project directory at a path
    without pattern characters, returns the empty list and writes
    nothing, whatever [index.json] holds. *)
Theorem purge_within_window (project_dir : string)
    (plain : has_magic project_dir = false) (now days : Z) (p : project) :
  (forall n f, lookup_file (deleted p) n = Some f ->
               (now - mtime f <= days * 86400)%Z) ->
  purge_deleted_older_than project_dir plain now days p = (Ok [], p).
Proof.
  intros Hyoung. apply purge_nothing.
  destruct (expired project_dir plain now days p) as [|n l] eqn:E; [done |].
  assert (n ∈ expired project_dir plain now days p) as Hn by (rewrite E; apply elem_of_cons; by left).
  apply elem_of_expired in Hn as (f & Hf & _ & Hage).
  specialize (Hyoung n f Hf). lia.
Qed.

(** X15. A second [purge_deleted_older_than] at the same reading of the
    clock finds nothing to remove and writes nothing.  The project
    directory is at a path without pattern characters. *)
Theorem purge_twice (project_dir : string) (plain : has_magic project_dir = false)
    (now days : Z) (p : project) :
  index_wf (load_index p) = true ->
  exists removed p',
    purge_deleted_older_than project_dir plain now days p = (Ok removed, p') /\
    purge_deleted_older_than project_dir plain now days p' = (Ok [], p').
Proof.
  intros Hwf. destruct (purge_run project_dir plain now days p Hwf) as (p' & Hrun & _ & Hd & _).
  exists (expired project_dir plain now days p), p'. split; [done |]. apply purge_nothing.
  destruct (expired project_dir plain now days p') as [|n l] eqn:E; [done |].
  assert (n ∈ expired project_dir plain now days p') as Hn by (rewrite E; apply elem_of_cons; by left).
  apply elem_of_expired in Hn as (f & Hf & Hhid & Hage).
  rewrite Hd in Hf. destruct (deleted p) as [d|] eqn:Hdp; [|done]. simpl in Hf.
  rewrite lookup_foldr_delete in Hf. case_decide as Hin; [done |].
  destruct Hin. apply elem_of_expired. exists f. by rewrite Hdp.
Qed.

(** ** Compression *)

Lemma is_hidden_gz_name n : n <> "" -> is_hidden (gz_name n) = is_hidden n.
Proof. by destruct n. Qed.

Lemma ends_with_gz_name n : ends_with ".gz" (gz_name n) = true.
Proof.
  unfold gz_name. induction n as [|c n IH]; [done |].
  simpl. rewrite IH. apply orb_true_r.
Qed.

Lemma fnmatch_blend_nonempty n : fnmatch_blend n = true -> n <> "".
Proof. by intros H ->. Qed.

Section Compression_more.

Variable project_dir : string.
Hypothesis plain : has_magic project_dir = false.
Variable gzip : string -> string.
Variable now : Z.

Lemma compress_old_versions_done k p :
  index_wf (load_index p) = true ->
  let files := sorted_newest_first (glob project_dir plain fnmatch_blend (history p)) in
  exists p',
    compress_old_versions project_dir plain gzip now k p = (Ok tt, p') /\
    compression_done gzip now (py_slice_from k files).*1 p p'.
Proof.
  intros Hwf files. unfold compress_old_versions. run_call. fold files.
  assert (exists m, py_slice_from k files = drop m files) as [m Hm].
  { unfold py_slice_from. destruct (0 <=? k)%Z; eauto. }
  rewrite Hm. destruct (dropped_names_ok project_dir plain m p) as [Hnd Hnames].
  destruct (compress_each_spec gzip now _ p Hwf Hnd Hnames) as (p' & Hrun & Hdone).
  by exists p'.
Qed.

(** The files [*.blend] that a compression of all but the first [m]
    leaves. *)
Lemma compression_done_left m p p' :
  let files := sorted_newest_first (glob project_dir plain fnmatch_blend (history p)) in
  compression_done gzip now (drop m files).*1 p p' ->
  (forall nf, nf ∈ glob project_dir plain fnmatch_blend (history p') <-> nf ∈ take m files) /\
  length (glob project_dir plain fnmatch_blend (history p')) = Nat.min m (length files).
Proof.
  intros files Hdone.
  set (kept := take m files). set (older := drop m files).
  assert (Permutation files (glob project_dir plain fnmatch_blend (history p))) as Hperm
    by apply sorted_newest_first_perm.
  assert (files = kept ++ older) as Hsplit by (symmetry; apply take_drop).
  assert (NoDup files.*1) as Hnd.
  { rewrite Hperm. apply NoDup_glob_names. }
  assert (forall name f, (name, f) ∈ files <->
            lookup_file (history p) name = Some f /\ is_hidden name = false /\
            fnmatch_blend name = true) as Hfiles.
  { intros name f. rewrite Hperm. apply elem_of_glob. }
  assert (forall name f, (name, f) ∈ older -> (name, f) ∈ files) as Holder.
  { intros name f H. rewrite Hsplit. apply elem_of_app. by right. }
  assert (forall name f, (name, f) ∈ kept -> name ∉ older.*1) as Hdisj.
  { intros name f Hin Hin'. rewrite Hsplit, fmap_app in Hnd.
    apply NoDup_app in Hnd as (_ & Hnd & _). apply (Hnd name); [|done].
    apply list_elem_of_fmap. by exists (name, f). }
  destruct Hdone as [Cwf Cdel Cgone Ckept Clen Centry Cother].
  assert (forall nf, nf ∈ glob project_dir plain fnmatch_blend (history p') <-> nf ∈ kept) as Hleft.
  { intros [name f]. rewrite elem_of_glob. split.
    - intros (Hf & Hhid & Hb).
      assert (name ∉ older.*1) as Hnot.
      { intros ([n' f'] & ? & Hin)%list_elem_of_fmap. simplify_eq/=.
        pose proof Hin as Hin'. apply Holder, Hfiles in Hin' as (Hf' & _).
        destruct (Cgone n' f') as [Hnone _]; [|done |congruence].
        apply list_elem_of_fmap. by exists (n', f'). }
      rewrite Ckept in Hf; [| done | intros; by apply blend_not_gz].
      assert ((name, f) ∈ files) as Hin by by apply Hfiles.
      rewrite Hsplit in Hin. apply elem_of_app in Hin as [?|Hin]; [done |].
      destruct Hnot. apply list_elem_of_fmap. by exists (name, f).
    - intros Hin. pose proof (Hdisj _ _ Hin) as Hnot.
      assert ((name, f) ∈ files) as Hin'.
      { rewrite Hsplit. apply elem_of_app. by left. }
      apply Hfiles in Hin' as (Hf & Hhid & Hb).
      rewrite Ckept; [done | done | intros; by apply blend_not_gz]. }
  split; [done |].
  transitivity (length kept).
  - apply Permutation_length, NoDup_Permutation; [| |done].
    + eapply NoDup_fmap_1, NoDup_glob_names.
    + apply (NoDup_fmap_1 fst). rewrite Hsplit, fmap_app in Hnd.
      by apply NoDup_app in Hnd as (? & _).
  - unfold kept. by rewrite length_take.
Qed.

End Compression_more.

(** X25. [compress_old_versions(project_dir, keep_uncompressed=k)] with
    [k >= 0], for a project directory at a path without pattern
    characters whose index is well formed.  With the files of
    [history/] whose name ends in [.blend] and does not start with a
    dot sorted newest first, [kept] the first [k] of them and [older]
    the others:
    - exactly [min k n] such files are left in [history/], and they are
      the [kept] ones, each at least as recent as each of the [older];
    - every [older] file is gone from [history/] and its bytes are
      there, compressed, under the name with [.gz] appended;
    - the first entry of the index that bears its name, whatever the
      status of that entry, bears the [.gz] name and has [compressed]
      set to true, its other fields being as they were ([status] set to
      [active] when the entry had none). *)
Theorem compress_old_versions_spec (project_dir : string)
    (plain : has_magic project_dir = false) (gzip : string -> string) (now k : Z)
    (p : project) :
  (0 <= k)%Z ->
  index_wf (load_index p) = true ->
  let files :=
    sorted_newest_first (glob project_dir plain fnmatch_blend (history p)) in
  let kept := take (Z.to_nat k) files in
  let older := drop (Z.to_nat k) files in
  exists p',
    compress_old_versions project_dir plain gzip now k p = (Ok tt, p') /\
    (forall name f, (name, f) ∈ kept \/ (name, f) ∈ older <->
       lookup_file (history p) name = Some f /\ is_hidden name = false /\
       fnmatch_blend name = true) /\
    length (glob project_dir plain fnmatch_blend (history p'))
      = Nat.min (Z.to_nat k) (length files) /\
    (forall name f, (name, f) ∈ kept <->
       lookup_file (history p') name = Some f /\ is_hidden name = false /\
       fnmatch_blend name = true) /\
    (forall a b, a ∈ kept -> b ∈ older -> (mtime b.2 <= mtime a.2)%Z) /\
    (forall name f, (name, f) ∈ older ->
       lookup_file (history p') name = None /\
       lookup_file (history p') (gz_name name)
         = Some (File (gzip (content f)) now)) /\
    (forall name f i v, (name, f) ∈ older ->
       first_match name (versions p) = Some i -> versions p !! i = Some v ->
       exists v', versions p' !! i = Some v' /\
         field "file" v' = Some (JStr (gz_name name)) /\
         field "compressed" v' = Some (JBool true) /\
         field "status" v' = Some (default (JStr "active") (field "status" v)) /\
         (forall key, key <> "file" -> key <> "compressed" -> key <> "status" ->
            field key v' = field key v)).
Proof.
  intros Hk Hwf files kept older.
  destruct (compress_old_versions_done project_dir plain gzip now k p Hwf)
    as (p' & Hrun & Hdone).
  unfold py_slice_from in Hdone. rewrite (proj2 (Z.leb_le 0 k)) in Hdone by done.
  fold files in Hdone. fold older in Hdone.
  assert (forall name f, (name, f) ∈ files <->
            lookup_file (history p) name = Some f /\ is_hidden name = false /\
            fnmatch_blend name = true) as Hfiles.
  { intros name f. unfold files. rewrite sorted_newest_first_perm. apply elem_of_glob. }
  assert (forall name f, (name, f) ∈ older -> (name, f) ∈ files) as Holder.
  { intros name f H. rewrite <- (take_drop (Z.to_nat k) files). apply elem_of_app.
    by right. }
  pose proof (compression_done_left project_dir plain gzip now _ p p' Hdone)
    as [Hleft Hlen].
  destruct Hdone as [Cwf Cdel Cgone Ckept Clen Centry Cother].
  exists p'. split_and!.
  - done.
  - intros name f. unfold kept, older. rewrite <- elem_of_app, take_drop.
    apply Hfiles.
  - done.
  - intros name f.
    etrans; [symmetry; apply (Hleft (name, f)) | apply elem_of_glob].
  - intros a b Ha Hb.
    apply (sorted_app_order kept older); [|done..].
    unfold kept, older. rewrite take_drop. apply sorted_newest_first_sorted.
  - intros name f Hin. apply Cgone.
    + apply list_elem_of_fmap. by exists (name, f).
    + by apply Holder, Hfiles in Hin as (? & _).
  - intros name f i v Hin Hfirst Hi.
    pose proof (versions_entry_wf _ _ _ Hwf Hi) as Hent.
    eexists. split.
    { eapply Centry; [|done..]. apply list_elem_of_fmap. by exists (name, f). }
    destruct v as [| | | | |d]; try done. simpl. split_and!.
    + apply mark_compressed_file.
    + apply mark_compressed_compressed.
    + unfold mark_compressed. cbn zeta. rewrite dict_get_set.
      by rewrite !dict_get_set_ne by done.
    + intros. by apply mark_compressed_other.
Qed.

(** X16. [compress_old_versions] on a well-formed index, for a project
    directory at a path without pattern characters, leaves [deleted/]
    as it is, takes no entry out of the index, and leaves as it is
    every file of [history/] whose name starts with a dot or ends
    neither in [.blend] nor in [.gz]. *)
Theorem compress_old_versions_leaves (project_dir : string)
    (plain : has_magic project_dir = false) (gzip : string -> string) (now k : Z)
    (p : project) :
  index_wf (load_index p) = true ->
  exists p',
    compress_old_versions project_dir plain gzip now k p = (Ok tt, p') /\
    deleted p' = deleted p /\
    length (versions p') = length (versions p) /\
    (forall n, is_hidden n = true \/
               (fnmatch_blend n = false /\ ends_with ".gz" n = false) ->
       lookup_file (history p') n = lookup_file (history p) n).
Proof.
  intros Hwf.
  destruct (compress_old_versions_done project_dir plain gzip now k p Hwf)
    as (p' & Hrun & Hdone).
  assert (exists m, py_slice_from k (sorted_newest_first (glob project_dir plain fnmatch_blend (history p)))
                    = drop m (sorted_newest_first (glob project_dir plain fnmatch_blend (history p))))
    as [m Hm].
  { unfold py_slice_from. destruct (0 <=? k)%Z; eauto. }
  rewrite Hm in Hdone. destruct (dropped_names_ok project_dir plain m p) as [_ Hnames].
  cbn zeta in Hnames.
  assert (forall n, n ∈ (drop m (sorted_newest_first (glob project_dir plain fnmatch_blend (history p)))).*1 ->
            is_hidden n = false) as Hvis.
  { intros n ([n' f] & -> & Hin)%list_elem_of_fmap. simpl.
    assert ((n', f) ∈ glob project_dir plain fnmatch_blend (history p)) as Hg.
    { rewrite <- (sorted_newest_first_perm (glob project_dir plain fnmatch_blend (history p))).
      rewrite <- (take_drop m (sorted_newest_first _)). apply elem_of_app. by right. }
    by apply elem_of_glob in Hg as (_ & ? & _). }
  destruct Hdone as [Cwf Cdel Cgone Ckept Clen Centry Cother].
  exists p'. split_and!; try done.
  intros n Hn. apply Ckept.
  - intros Hin. destruct Hn as [Hhid | [Hb _]].
    + by rewrite (Hvis n Hin) in Hhid.
    + destruct (Hnames n Hin) as [Hb' _]. by rewrite Hb' in Hb.
  - intros n' Hin ->. destruct (Hnames n' Hin) as [Hb' _].
    destruct Hn as [Hhid | [_ Hgz]].
    + rewrite is_hidden_gz_name in Hhid by by apply fnmatch_blend_nonempty.
      by rewrite (Hvis n' Hin) in Hhid.
    + by rewrite ends_with_gz_name in Hgz.
Qed.

(** X17. After [compress_old_versions] with a [keep_uncompressed] that is
    not negative, a second call with the same [keep_uncompressed]
    changes nothing.  The project directory is at a path without
    pattern characters. *)
Theorem compress_old_versions_twice (project_dir : string)
    (plain : has_magic project_dir = false) (gzip : string -> string)
    (now now' k : Z) (p : project) :
  (0 <= k)%Z -> index_wf (load_index p) = true ->
  exists p',
    compress_old_versions project_dir plain gzip now k p = (Ok tt, p') /\
    compress_old_versions project_dir plain gzip now' k p' = (Ok tt, p').
Proof.
  intros Hk Hwf.
  destruct (compress_old_versions_done project_dir plain gzip now k p Hwf)
    as (p' & Hrun & Hdone).
  exists p'. split; [done |].
  unfold py_slice_from in Hdone. rewrite (proj2 (Z.leb_le 0 k)) in Hdone by done.
  apply compression_done_left in Hdone as [_ Hlen].
  unfold compress_old_versions. run_call.
  unfold py_slice_from. rewrite (proj2 (Z.leb_le 0 k)) by done.
  rewrite drop_ge; [done |].
  rewrite (Permutation_length (sorted_newest_first_perm _)), Hlen. lia.
Qed.

(** X18. A negative [keep_uncompressed] counts from the old end: on a
    well-formed index, for a project directory at a path without
    pattern characters, the call compresses the [-k] oldest of the
    files of [history/] whose name ends in [.blend] and does not start
    with a dot, all of them when there are fewer, and leaves the
    others. *)
Theorem compress_old_versions_negative (project_dir : string)
    (plain : has_magic project_dir = false) (gzip : string -> string) (now k : Z)
    (p : project) :
  (k < 0)%Z -> index_wf (load_index p) = true ->
  let files := sorted_newest_first (glob project_dir plain fnmatch_blend (history p)) in
  let kept := take (length files - Z.to_nat (- k)) files in
  let older := drop (length files - Z.to_nat (- k)) files in
  exists p',
    compress_old_versions project_dir plain gzip now k p = (Ok tt, p') /\
    (forall name f, (name, f) ∈ kept \/ (name, f) ∈ older <->
       lookup_file (history p) name = Some f /\ is_hidden name = false /\
       fnmatch_blend name = true) /\
    length older = Nat.min (Z.to_nat (- k)) (length files) /\
    (forall name f, (name, f) ∈ kept <->
       lookup_file (history p') name = Some f /\ is_hidden name = false /\
       fnmatch_blend name = true) /\
    (forall name f, (name, f) ∈ older ->
       lookup_file (history p') name = None /\
       lookup_file (history p') (gz_name name) = Some (File (gzip (content f)) now)).
Proof.
  intros Hk Hwf files kept older.
  destruct (compress_old_versions_done project_dir plain gzip now k p Hwf)
    as (p' & Hrun & Hdone).
  exists p'. split; [done |].
  unfold py_slice_from in Hdone. rewrite (proj2 (Z.leb_gt 0 k)) in Hdone by done.
  fold files in Hdone. fold older in Hdone.
  split_and!.
  - intros name f. unfold kept, older. rewrite <- elem_of_app, take_drop.
    unfold files. rewrite sorted_newest_first_perm. apply elem_of_glob.
  - unfold older. rewrite length_drop. lia.
  - apply compression_done_left in Hdone as [Hleft _]. intros name f.
    etrans; [symmetry; apply (Hleft (name, f)) | apply elem_of_glob].
  - intros name f Hin. destruct Hdone as [_ _ Cgone _ _ _ _]. apply Cgone.
    + apply list_elem_of_fmap. by exists (name, f).
    + assert ((name, f) ∈ glob project_dir plain fnmatch_blend (history p)) as Hg.
      { rewrite <- (sorted_newest_first_perm (glob project_dir plain fnmatch_blend (history p))).
        fold files. rewrite <- (take_drop (length files - Z.to_nat (- k)) files).
        apply elem_of_app. by right. }
      by apply elem_of_glob in Hg as (? & _).
Qed.

(** ** Listing the versions *)

Lemma keep_not_deleted xs :
  (fix keep (l : list json) : result (list json) :=
     match l with
     | [] => Ok []
     | v :: l' =>
         (st <~ py_get "status" JNull v ;;
          rest <~ keep l' ;;
          Ok (if is_str "deleted" st then rest else v :: rest))%py
     end) xs
  = if forallb is_dict xs
    then Ok (filter (fun v => has_status "deleted" v = false) xs)
    else Raise AttributeError.
Proof.
  induction xs as [|v xs IH]; [done |].
  rewrite IH. clear IH.
  destruct v as [| | | | |d]; try done.
  assert (has_status "deleted" (JDict d)
          = is_str "deleted" (default JNull (dict_get "status" d))) as Hs.
  { unfold has_status. simpl. by destruct (dict_get "status" d). }
  assert (py_get "status" JNull (JDict d)
          = Ok (default JNull (dict_get "status" d))) as ->.
  { simpl. by destruct (dict_get "status" d). }
  cbn [forallb is_dict andb result_bind]. rewrite filter_cons, Hs.
  destruct (forallb is_dict xs); cbn [result_bind]; [|done].
  destruct (is_str "deleted" _).
  - by rewrite decide_False.
  - by rewrite decide_True.
Qed.

(** X19. When [versions] is a list, [list_versions] with
    [include_deleted] returns the list as it is.  Without
    [include_deleted] it returns the items whose status is not
    [deleted] when every item is an object, with or without a [file]
    or a [status], and raises [AttributeError] when some item is not
    an object.  Neither call changes the project directory. *)
Theorem list_versions_on_list (p : project) (fields : list (string * json))
    (xs : list json) :
  load_index p = JDict fields -> dict_get "versions" fields = Some (JList xs) ->
  list_versions true p = (Ok (JList xs), p) /\
  list_versions false p
  = (if forallb is_dict xs
     then Ok (JList (filter (fun v => has_status "deleted" v = false) xs))
     else Raise AttributeError, p).
Proof.
  intros Hload Hv. unfold list_versions. run_call. rewrite Hload.
  unfold py_get. rewrite Hv. split; [done |]. cbn [py_iter].
  rewrite keep_not_deleted. by destruct (forallb is_dict xs).
Qed.

(** ** The size recorded for a file *)

(** X20. A file of fewer than 5243 bytes is recorded with the size
    [0.0]. *)
Theorem size_MB_small (size : N) : (size < 5243)%N -> size_MB size = JNum "0.0".
Proof.
  intros H. unfold size_MB, round_half_even.
  rewrite (N.div_small (size * 100)), (N.mod_small (size * 100)) by lia.
  rewrite (proj2 (N.ltb_lt _ _)) by lia. done.
Qed.

(** ** Sequences of operations on a well-formed index *)

Lemma length_purge_entries removed : forall xs,
  length (purge_entries removed xs) = length xs.
Proof.
  induction removed as [|n removed IH]; intros xs; [done |].
  simpl. fold (purge_entries removed (map (purge_entry n) xs)).
  by rewrite IH, length_map.
Qed.

Lemma run_op_step project_dir plain gzip o p :
  index_wf (load_index p) = true -> op_text o = true ->
  index_wf (load_index (run_op project_dir plain gzip o p)) = true /\
  length (versions p) <= length (versions (run_op project_dir plain gzip o p)) /\
  op_result project_dir plain gzip o p = Ok tt.
Proof.
  intros Hwf Htext. destruct o as [host stem file_stamp stamp now note
                                  | stamp filename note compressed
                                  | now k | name | stamp name | now days];
    simpl in *.
  - apply andb_true_iff in Htext as [[[Hstem Hfs]%andb_true_iff Hstamp]%andb_true_iff Hnote].
    destruct host as [bytes|].
    + destruct (save_versioned_copy_saved stem file_stamp stamp now note bytes p
                  Hwf Hstem Hfs Hstamp Hnote)
        as (entry & p' & -> & _ & _ & Hwf' & Hv & _).
      simpl. rewrite Hv, length_app. split_and!; [done | lia | done].
    + split_and!; done.
  - apply andb_true_iff in Htext as [[Hstamp Hfile]%andb_true_iff Hnote].
    rewrite register_version_run by done. cbn zeta. simpl.
    destruct (new_entry_ok p stamp filename note compressed) as [Hok Hent].
    pose proof (new_entry_text p stamp filename note compressed Hstamp Hfile Hnote)
      as Hetext.
    destruct (appended p _ Hwf Hok Hent Hetext
                (set_index (json_dumps (set_versions
                   (versions p ++ [new_entry p stamp filename note compressed])
                   (load_index p))) p) eq_refl) as [Hwf' Hv].
    rewrite Hv, length_app. split_and!; [done | lia | done].
  - destruct (compress_old_versions_run project_dir plain gzip now k p Hwf)
      as (p' & names & -> & Hdone).
    destruct Hdone as [Cwf _ _ _ Clen _ _]. simpl. rewrite Clen. split_and!; done.
  - destruct (lookup_file (history p) name) as [f|] eqn:Hf.
    + destruct (history p) as [h|] eqn:Hh; [|done]. simpl in Hf.
      destruct (move_to_deleted_run name p h f Hwf Hh Hf) as (p' & -> & Hwf' & Hv).
      simpl. rewrite Hv. split_and!; [done | | done].
      destruct (first_match name (versions p)); [by rewrite length_alter | done].
    + rewrite move_to_deleted_absent by done. simpl. split_and!; done.
  - apply andb_true_iff in Htext as [Hstamp Hname].
    destruct (lookup_file (deleted p) name) as [f|] eqn:Hf.
    + destruct (deleted p) as [d|] eqn:Hd; [|done]. simpl in Hf.
      destruct (restore_deleted_run stamp name p d f Hwf Hstamp Hname Hd Hf)
        as (p' & -> & Hwf' & Hv).
      simpl. rewrite Hv. split_and!; [done | | done].
      destruct (first_match name (versions p)); [by rewrite length_alter |].
      rewrite length_app. lia.
    + rewrite restore_deleted_missing by done. simpl. split_and!; done.
  - destruct (purge_run project_dir plain now days p Hwf)
      as (p' & -> & _ & _ & Hwf' & Hv).
    simpl. rewrite Hv, length_purge_entries. split_and!; done.
Qed.

(** X21. From a well-formed index, whatever operations run one after
    the other on a project directory at a path without pattern
    characters, with basenames for the files and text for the strings
    that go into the index, none of them raises, the index stays well
    formed, and no entry is taken out of it. *)
Theorem operations_keep_index (project_dir : string)
    (plain : has_magic project_dir = false) (gzip : string -> string)
    (ops : list op) (p : project) :
  index_wf (load_index p) = true ->
  forallb op_text ops = true ->
  forallb op_basenames ops = true ->
  index_wf (load_index (run_ops project_dir plain gzip ops p)) = true /\
  length (versions p) <= length (versions (run_ops project_dir plain gzip ops p)) /\
  (forall pre o post, ops = pre ++ o :: post ->
     op_result project_dir plain gzip o (run_ops project_dir plain gzip pre p) = Ok tt).
Proof.
  intros Hwf Htext _. revert p Hwf. induction ops as [|o ops IH]; intros p Hwf.
  { split_and!; [done | done |]. intros [|??] ???; done. }
  cbn [forallb] in Htext. apply andb_true_iff in Htext as [Ho Hops].
  destruct (run_op_step project_dir plain gzip o p Hwf Ho) as (Hwf' & Hlen & Hres).
  destruct (IH Hops (run_op project_dir plain gzip o p) Hwf') as (Hwf'' & Hlen' & Hres').
  split_and!; [done | simpl; lia |].
  intros [|o' pre] o1 post E; simplify_eq/=; [done |]. by eapply Hres'.
Qed.

(** ** The background worker *)

Section Worker_facts.

Variable project_dir : string.
Hypothesis plain : has_magic project_dir = false.
Variable gzip : string -> string.

Lemma compress_one_deleted now name p :
  deleted (compress_one gzip now name p).2 = deleted p.
Proof.
  unfold compress_one, compress_file. run_call.
  destruct (history p) as [h|]; [|done]. simpl.
  destruct (h !! name) as [f|]; [|done]. simpl.
  destruct (update_first_version _ _ _) as [[data found]|]; [|done]. simpl.
  unfold save_index. by destruct (write_chunks _) as [txt []].
Qed.

Lemma compress_each_deleted now names : forall p,
  deleted (compress_each gzip now names p).2 = deleted p.
Proof.
  induction names as [|name names IH]; intros p; [done |].
  simpl. unfold bind. pose proof (compress_one_deleted now name p) as H.
  destruct (compress_one gzip now name p) as [[[]|e] p1]; simpl in *.
  - by rewrite IH.
  - done.
Qed.

Lemma compress_old_versions_deleted now k p :
  deleted (compress_old_versions project_dir plain gzip now k p).2 = deleted p.
Proof. unfold compress_old_versions. run_call. apply compress_each_deleted. Qed.

End Worker_facts.

(** X22. With [purge_days] at 0 the thread of the worker removes
    nothing from [deleted/], and it returns without raising whatever
    the project directory, at a path without pattern characters,
    holds. *)
Theorem compress_thread_purge_disabled (proj_dir : string)
    (plain : has_magic proj_dir = false) (gzip : string -> string)
    (settings : UASettings) (now_gz now_purge : Z) (p : project) :
  (purge_days settings <= 0)%Z ->
  exists p',
    _compress gzip proj_dir plain settings now_gz now_purge p = (Ok tt, p') /\
    deleted p' = deleted p.
Proof.
  intros Hdays. unfold _compress. rewrite (proj2 (Z.ltb_ge 0 _)) by done.
  unfold bind, ret.
  pose proof (compress_old_versions_deleted proj_dir plain gzip now_gz
                (keep_uncompressed settings) p) as H.
  destruct (compress_old_versions _ _ _ _ _ p) as [[[]|e] p']; simpl in *; eauto.
Qed.

Lemma ends_with_append_r suffix s : ends_with suffix (s +:+ suffix) = true.
Proof.
  induction s as [|c s IH]; simpl.
  - destruct suffix; [done |]. cbn [ends_with]. apply orb_true_iff. left.
    by apply bool_decide_eq_true_2.
  - rewrite IH. apply orb_true_r.
Qed.

Lemma snapshot_name_blend stem file_stamp :
  fnmatch_blend (stem +:+ "_" +:+ file_stamp +:+ ".blend") = true.
Proof.
  unfold fnmatch_blend. rewrite <- !append_assoc. apply ends_with_append_r.
Qed.

Lemma autosave_worker_run gzip settings bytes filepath base_dir plain
    file_stamp stamp now now_gz now_purge p :
  index_wf (load_index p) = true ->
  is_text (proj_name filepath) = true ->
  is_text file_stamp = true -> is_text stamp = true ->
  let filename := proj_name filepath +:+ "_" +:+ file_stamp +:+ ".blend" in
  exists p1 p2 p',
    history p1 = Some (<[filename := File bytes now]> (default ∅ (history p))) /\
    length (versions p1) = S (length (versions p)) /\
    compression_done gzip now_gz
      (py_slice_from (keep_uncompressed settings)
         (sorted_newest_first (glob (project_dir_for filepath base_dir) plain fnmatch_blend (history p1)))).*1 p1 p2 /\
    _autosave_worker gzip settings (Some bytes) filepath base_dir plain
      file_stamp stamp now now_gz now_purge p = (Ok (Some filename), p') /\
    history p' = history p2 /\
    index_wf (load_index p') = true /\
    length (versions p') = length (versions p2).
Proof.
  intros Hwf Hstem Hfs Hstamp filename.
  destruct (save_versioned_copy_saved (proj_name filepath) file_stamp stamp now
              "auto" bytes p Hwf Hstem Hfs Hstamp eq_refl)
    as (entry & p1 & Hsave & Hh1 & _ & Hwf1 & Hv1 & _).
  destruct (compress_old_versions_done (project_dir_for filepath base_dir) plain
              gzip now_gz (keep_uncompressed settings) p1 Hwf1)
    as (p2 & Hrun & Hdone).
  pose proof (cd_index_wf _ _ _ _ _ Hdone) as Hwf2.
  unfold _autosave_worker, _compress.
  unfold bind at 1. rewrite Hsave. unfold bind at 1. unfold bind at 1. rewrite Hrun.
  destruct (0 <? purge_days settings)%Z.
  - destruct (purge_run (project_dir_for filepath base_dir) plain now_purge
                (purge_days settings) p2 Hwf2)
      as (p3 & Hpurge & Hh3 & _ & Hwf3 & Hv3).
    unfold bind, ret. rewrite Hpurge.
    exists p1, p2, p3. split_and!; try done.
    + rewrite Hv1, length_app. simpl. lia.
    + by rewrite Hv3, length_purge_entries.
  - unfold ret. exists p1, p2, p2. split_and!; try done.
    rewrite Hv1, length_app. simpl. lia.
Qed.

(** X23. After a call of the worker that saved its copy, on a
    well-formed index, for a project directory at a path without
    pattern characters and with [keep_uncompressed] not negative, at
    most [keep_uncompressed] of the files of [history/] bear a name
    that ends in [.blend] and does not start with a dot; the index is
    well formed and has one entry more.  The name of the document and
    the timestamps are text. *)
Theorem autosave_worker_bounds_uncompressed (gzip : string -> string)
    (settings : UASettings) (bytes filepath base_dir : string)
    (plain : has_magic (project_dir_for filepath base_dir) = false)
    (file_stamp stamp : string) (now now_gz now_purge : Z) (p : project) :
  index_wf (load_index p) = true ->
  is_text (proj_name filepath) = true ->
  is_text file_stamp = true -> is_text stamp = true ->
  (0 <= keep_uncompressed settings)%Z ->
  exists p' visible,
    _autosave_worker gzip settings (Some bytes) filepath base_dir plain
      file_stamp stamp now now_gz now_purge p
    = (Ok (Some (proj_name filepath +:+ "_" +:+ file_stamp +:+ ".blend")), p') /\
    (forall name f, (name, f) ∈ visible <->
       lookup_file (history p') name = Some f /\ is_hidden name = false /\
       fnmatch_blend name = true) /\
    NoDup visible /\
    length visible <= Z.to_nat (keep_uncompressed settings) /\
    index_wf (load_index p') = true /\
    length (versions p') = S (length (versions p)).
Proof.
  intros Hwf Hstem Hfs Hstamp Hk.
  destruct (autosave_worker_run gzip settings bytes filepath base_dir plain
              file_stamp stamp now now_gz now_purge p Hwf Hstem Hfs Hstamp)
    as (p1 & p2 & p' & Hh1 & Hv1 & Hdone & Hrun & Hh' & Hwf' & Hv').
  exists p', (glob (project_dir_for filepath base_dir) plain fnmatch_blend (history p')).
  split_and!; try done.
  - intros name f. apply elem_of_glob.
  - eapply NoDup_fmap_1, NoDup_glob_names.
  - unfold py_slice_from in Hdone. rewrite (proj2 (Z.leb_le 0 _)) in Hdone by done.
    pose proof (cd_length _ _ _ _ _ Hdone) as Hlen.
    apply compression_done_left in Hdone as [_ Hleft]. rewrite Hh', Hleft. lia.
  - rewrite Hv', <- Hv1. by destruct Hdone.
Qed.

(** X24. When the copy the worker saved is newer than every file of
    [history/] and [keep_uncompressed] is at least 1, the copy is still
    in [history/], uncompressed, when the worker and its thread are
    done.  The project directory is at a path without pattern
    characters; the name of the document and the timestamps are
    text. *)
Theorem autosave_worker_keeps_new_copy (gzip : string -> string)
    (settings : UASettings) (bytes filepath base_dir : string)
    (plain : has_magic (project_dir_for filepath base_dir) = false)
    (file_stamp stamp : string) (now now_gz now_purge : Z) (p : project) :
  index_wf (load_index p) = true ->
  is_text (proj_name filepath) = true ->
  is_text file_stamp = true -> is_text stamp = true ->
  (1 <= keep_uncompressed settings)%Z ->
  (forall n f, lookup_file (history p) n = Some f -> (mtime f < now)%Z) ->
  let filename := proj_name filepath +:+ "_" +:+ file_stamp +:+ ".blend" in
  exists p',
    _autosave_worker gzip settings (Some bytes) filepath base_dir plain
      file_stamp stamp now now_gz now_purge p = (Ok (Some filename), p') /\
    lookup_file (history p') filename = Some (File bytes now).
Proof.
  intros Hwf Hstem Hfs Hstamp Hk Hold filename.
  destruct (autosave_worker_run gzip settings bytes filepath base_dir plain
              file_stamp stamp now now_gz now_purge p Hwf Hstem Hfs Hstamp)
    as (p1 & p2 & p' & Hh1 & Hv1 & Hdone & Hrun & Hh' & Hwf' & Hv').
  fold filename in Hh1, Hrun.
  exists p'. split; [done |]. rewrite Hh'.
  unfold py_slice_from in Hdone. rewrite (proj2 (Z.leb_le 0 _)) in Hdone by lia.
  set (files := sorted_newest_first (glob (project_dir_for filepath base_dir) plain fnmatch_blend (history p1))) in *.
  set (k := Z.to_nat (keep_uncompressed settings)) in *.
  assert (Permutation files (glob (project_dir_for filepath base_dir) plain fnmatch_blend (history p1))) as Hperm
    by apply sorted_newest_first_perm.
  assert (lookup_file (history p1) filename = Some (File bytes now)) as Hnew.
  { rewrite Hh1. simpl. apply lookup_insert_eq. }
  assert (forall n f, (n, f) ∈ files -> n <> filename -> (mtime f < now)%Z) as Holder.
  { intros n f Hin Hne. rewrite Hperm in Hin. apply elem_of_glob in Hin as (Hf & _).
    rewrite Hh1 in Hf. simpl in Hf. rewrite lookup_insert_ne in Hf by done.
    apply (Hold n f). by destruct (history p). }
  assert (filename ∉ (drop k files).*1) as Hnot.
  { intros ([n f] & Hn & Hin)%list_elem_of_fmap. simpl in Hn. subst n.
    assert ((filename, f) ∈ files) as Hin'.
    { rewrite <- (take_drop k files). apply elem_of_app. by right. }
    assert (f = File bytes now) as ->.
    { rewrite Hperm in Hin'. apply elem_of_glob in Hin' as (Hf & _). congruence. }
    assert (k <= length files) as Hlen.
    { destruct (decide (k <= length files)); [done |].
      rewrite drop_ge in Hin by lia. by apply elem_of_nil in Hin. }
    destruct (take k files) as [|[n0 f0] rest] eqn:Htake.
    { apply (f_equal length) in Htake. rewrite length_take in Htake.
      simpl in Htake. unfold k in *. lia. }
    assert ((n0, f0) ∈ take k files) as Hin0 by (rewrite Htake; apply elem_of_cons; by left).
    assert (newer_or_equal (n0, f0) (filename, File bytes now)) as Hord.
    { apply (sorted_app_order (take k files) (drop k files)); [|done..].
      rewrite take_drop. apply sorted_newest_first_sorted. }
    unfold newer_or_equal in Hord. simpl in Hord.
    assert (n0 <> filename) as Hne.
    { intros ->. assert (NoDup files.*1) as Hnd.
      { rewrite Hperm. apply NoDup_glob_names. }
      rewrite <- (take_drop k files), fmap_app in Hnd.
      apply NoDup_app in Hnd as (_ & Hnd & _). apply (Hnd filename).
      - apply list_elem_of_fmap. by exists (filename, f0).
      - apply list_elem_of_fmap. by exists (filename, File bytes now). }
    assert ((n0, f0) ∈ files) as Hin0'.
    { rewrite <- (take_drop k files). apply elem_of_app. by left. }
    pose proof (Holder n0 f0 Hin0' Hne). lia. }
  destruct Hdone as [_ _ _ Ckept _ _ _].
  rewrite Ckept; [done | done |].
  intros n _. apply blend_not_gz, snapshot_name_blend.
Qed.

(** ** The further theorems at sample project directories *)

Lemma lookup_file_Forall (d : option dir) (P : string -> file -> Prop) :
  Forall (fun nf => P nf.1 nf.2) (listdir d) ->
  forall n f, lookup_file d n = Some f -> P n f.
Proof.
  intros H n f Hf. rewrite Forall_forall in H. apply (H (n, f)).
  unfold listdir, lookup_file in *. destruct d as [m|]; [|done].
  by apply elem_of_map_to_list.
Qed.

Lemma register_version_appends_witness :
  let p := sample_project in
  let filename := InHistory "scene_3.blend" in
  exists entry p',
    register_version "2024-10-27 02:31:00" filename "manual" false p = (Ok entry, p') /\
    history p' = history p /\ deleted p' = deleted p /\
    index_wf (load_index p') = true /\
    versions p' = versions p ++ [entry] /\
    field "file" entry = Some (JStr (basename filename)) /\
    field "timestamp" entry = Some (JStr "2024-10-27 02:31:00") /\
    field "size_MB" entry = Some (from_option size_MB JNull (getsize p filename)) /\
    field "note" entry = Some (JStr "manual") /\
    field "status" entry = Some (JStr "active") /\
    field "compressed" entry = Some (JBool false).
Proof.
  apply (register_version_appends "2024-10-27 02:31:00" (InHistory "scene_3.blend")
           "manual" false sample_project); [reflexivity..|].
  intros size Hsize. vm_compute in Hsize. injection Hsize as <-. reflexivity.
Defined.

Lemma register_version_rebuilds_index_witness :
  exists entry p',
    register_version "2024-10-27 02:31:00" (Elsewhere "scene_4.blend" None) "auto" false
      (Project (Some "{") None None) = (Ok entry, p') /\
    load_index p' = JDict [("versions", JList [entry])].
Proof.
  apply (register_version_rebuilds_index "2024-10-27 02:31:00"
           (Elsewhere "scene_4.blend" None) "auto" false (Project (Some "{") None None)).
  - right. exists "{". split; [reflexivity |]. right. vm_compute. reflexivity.
  - reflexivity.
  - reflexivity.
  - reflexivity.
Defined.


Lemma save_versioned_copy_registers_witness :
  let p := sample_project in
  let filename := "scene" +:+ "_" +:+ "2024-10-27_02-31-00" +:+ ".blend" in
  (exists entry p',
     save_versioned_copy (Some "four") "scene" "2024-10-27_02-31-00"
       "2024-10-27 02:31:00" 400 "auto" p = (Ok (Some filename), p') /\
     history p' = Some (<[filename := File "four" 400]> (default ∅ (history p))) /\
     deleted p' = deleted p /\
     index_wf (load_index p') = true /\
     versions p' = versions p ++ [entry] /\
     entry = JDict [("file", JStr filename); ("timestamp", JStr "2024-10-27 02:31:00");
                    ("size_MB", size_MB (N.of_nat (String.length "four")));
                    ("note", JStr "auto"); ("status", JStr "active");
                    ("compressed", JBool false)]) /\
  save_versioned_copy None "scene" "2024-10-27_02-31-00" "2024-10-27 02:31:00" 400 "auto" p
    = (Ok None, set_history (default ∅ (history p)) p).
Proof.
  apply (save_versioned_copy_registers "scene" "2024-10-27_02-31-00"
           "2024-10-27 02:31:00" 400 "auto" "four" sample_project);
    reflexivity.
Defined.

Lemma save_versioned_copy_same_second_witness :
  let p := sample_project in
  let filename := "scene" +:+ "_" +:+ "2024-10-27_02-30-00" +:+ ".blend" in
  exists p1 p2 entry1 entry2,
    save_versioned_copy (Some "four") "scene" "2024-10-27_02-30-00"
      "2024-10-27 02:30:00" 400 "auto" p = (Ok (Some filename), p1) /\
    save_versioned_copy (Some "five") "scene" "2024-10-27_02-30-00"
      "2024-10-27 02:30:00" 4000 "auto" p1 = (Ok (Some filename), p2) /\
    history p2 = Some (<[filename := File "five" 4000]> (default ∅ (history p))) /\
    versions p2 = versions p ++ [entry1; entry2] /\
    has_file filename entry1 = true /\ has_file filename entry2 = true.
Proof.
  apply (save_versioned_copy_same_second "scene" "2024-10-27_02-30-00"
           "2024-10-27 02:30:00" "2024-10-27 02:30:00" 400 4000 "auto" "four" "five"
           sample_project);
    reflexivity.
Defined.

Lemma move_to_deleted_moves_witness :
  let p := sample_project in
  let name := "scene_1.blend" in
  exists p',
    move_to_deleted name p = (Ok true, p') /\
    (forall n, lookup_file (history p') n
               = if decide (n = name) then None else lookup_file (history p) n) /\
    (forall n, lookup_file (deleted p') n
               = if decide (n = name) then Some (File "one" 100)
                 else lookup_file (deleted p) n) /\
    index_wf (load_index p') = true /\
    versions p' =
      match first_match name (versions p) with
      | Some i => alter (on_fields (mark_status "deleted")) i (versions p)
      | None => versions p
      end.
Proof.
  apply (move_to_deleted_moves "scene_1.blend" sample_project (File "one" 100));
    vm_compute; reflexivity.
Defined.

Lemma restore_deleted_restores_witness :
  let p := sample_project_deleted in
  let name := "scene_2.blend" in
  let stamp := "2024-10-27 02:31:00" in
  exists p',
    restore_deleted stamp name p = (Ok true, p') /\
    (forall n, lookup_file (history p') n
               = if decide (n = name) then Some (File "two" 200)
                 else lookup_file (history p) n) /\
    (forall n, lookup_file (deleted p') n
               = if decide (n = name) then None else lookup_file (deleted p) n) /\
    index_wf (load_index p') = true /\
    versions p' =
      match first_match name (versions p) with
      | Some i => alter (on_fields (mark_status "active")) i (versions p)
      | None =>
          versions p ++
            [JDict [("file", JStr name); ("timestamp", JStr stamp);
                    ("size_MB",
                     size_MB (N.of_nat (String.length (content (File "two" 200)))));
                    ("note", JStr "restored"); ("status", JStr "active");
                    ("compressed", JBool (ends_with ".gz" name))]]
      end.
Proof.
  apply (restore_deleted_restores "2024-10-27 02:31:00" "scene_2.blend"
           sample_project_deleted (File "two" 200));
    reflexivity.
Defined.

Lemma move_and_restore_report_witness :
  let p := sample_project_deleted in
  let name := "scene_2.blend" in
  let stamp := "2024-10-27 02:31:00" in
  (move_to_deleted name p).1
    = Ok (bool_decide (is_Some (lookup_file (history p) name))) /\
  (restore_deleted stamp name p).1
    = Ok (bool_decide (is_Some (lookup_file (deleted p) name))) /\
  (lookup_file (deleted p) name = None -> (restore_deleted stamp name p).2 = p).
Proof.
  apply (move_and_restore_report "2024-10-27 02:31:00" "scene_2.blend"
           sample_project_deleted);
    reflexivity.
Defined.

Lemma restore_deleted_drops_entry_witness :
  let p := Project (Some "{}") None (Some {["scene_1.blend" := File "one" 100]}) in
  exists p',
    restore_deleted "2024-10-27 02:31:00" "scene_1.blend" p = (Ok true, p') /\
    lookup_file (history p') "scene_1.blend" = Some (File "one" 100) /\
    lookup_file (deleted p') "scene_1.blend" = None /\
    load_index p' = load_index p.
Proof.
  apply (restore_deleted_drops_entry "2024-10-27 02:31:00" "scene_1.blend"
           (Project (Some "{}") None (Some {["scene_1.blend" := File "one" 100]}))
           (File "one" 100) []);
    vm_compute; reflexivity.
Defined.

Lemma move_to_deleted_raises_after_move_witness :
  let p := Project (Some "[]") (Some {["scene_1.blend" := File "one" 100]}) None in
  exists p',
    move_to_deleted "scene_1.blend" p = (Raise AttributeError, p') /\
    index p' = index p /\
    lookup_file (history p') "scene_1.blend" = None /\
    lookup_file (deleted p') "scene_1.blend" = Some (File "one" 100).
Proof.
  apply (move_to_deleted_raises_after_move "scene_1.blend"
           (Project (Some "[]") (Some {["scene_1.blend" := File "one" 100]}) None)
           (File "one" 100)).
  - intros fields H. vm_compute in H. discriminate H.
  - vm_compute. reflexivity.
Defined.

Lemma purge_deleted_older_than_spec_witness :
  let p := sample_project_deleted in
  let now := 1000000%Z in
  let days := 1%Z in
  exists p',
    purge_deleted_older_than sample_dir eq_refl now days p
      = (Ok (expired sample_dir eq_refl now days p), p') /\
    (forall n, n ∈ expired sample_dir eq_refl now days p <->
       exists f, lookup_file (deleted p) n = Some f /\ is_hidden n = false /\
                 (days * 86400 < now - mtime f)%Z) /\
    (forall n, lookup_file (deleted p') n =
       if decide (n ∈ expired sample_dir eq_refl now days p) then None else lookup_file (deleted p) n) /\
    history p' = history p /\
    (forall i v, versions p !! i = Some v ->
       versions p' !! i =
       Some (if existsb (fun n => has_file n v) (expired sample_dir eq_refl now days p)
             then on_fields (mark_status "purged") v else v)).
Proof.
  apply (purge_deleted_older_than_spec sample_dir eq_refl 1000000 1
           sample_project_deleted).
  vm_compute. reflexivity.
Defined.

Lemma purge_within_window_witness :
  purge_deleted_older_than sample_dir eq_refl 300 1 sample_project_deleted
  = (Ok [], sample_project_deleted).
Proof.
  apply (purge_within_window sample_dir eq_refl 300 1 sample_project_deleted).
  apply (lookup_file_Forall _ (fun _ f => (300 - mtime f <= 1 * 86400)%Z)).
  vm_compute. repeat constructor; discriminate.
Defined.

Lemma purge_twice_witness :
  exists removed p',
    purge_deleted_older_than sample_dir eq_refl 1000000 1 sample_project_deleted
      = (Ok removed, p') /\
    purge_deleted_older_than sample_dir eq_refl 1000000 1 p' = (Ok [], p').
Proof.
  apply (purge_twice sample_dir eq_refl 1000000 1 sample_project_deleted).
  vm_compute. reflexivity.
Defined.

Lemma compress_old_versions_leaves_witness :
  let gzip := fun bytes : string => "gz:" +:+ bytes in
  let p := sample_project_deleted in
  exists p',
    compress_old_versions sample_dir eq_refl gzip 400 0 p = (Ok tt, p') /\
    deleted p' = deleted p /\
    length (versions p') = length (versions p) /\
    (forall n, is_hidden n = true \/
               (fnmatch_blend n = false /\ ends_with ".gz" n = false) ->
       lookup_file (history p') n = lookup_file (history p) n).
Proof.
  apply (compress_old_versions_leaves sample_dir eq_refl (fun bytes => "gz:" +:+ bytes)
           400 0 sample_project_deleted).
  vm_compute. reflexivity.
Defined.

Lemma compress_old_versions_twice_witness :
  let gzip := fun bytes : string => "gz:" +:+ bytes in
  exists p',
    compress_old_versions sample_dir eq_refl gzip 400 1 sample_project = (Ok tt, p') /\
    compress_old_versions sample_dir eq_refl gzip 500 1 p' = (Ok tt, p').
Proof.
  apply (compress_old_versions_twice sample_dir eq_refl (fun bytes => "gz:" +:+ bytes)
           400 500 1 sample_project); [lia | vm_compute; reflexivity].
Defined.

Lemma compress_old_versions_negative_witness :
  let gzip := fun bytes : string => "gz:" +:+ bytes in
  let p := sample_project in
  let k := (-1)%Z in
  let files := sorted_newest_first (glob sample_dir eq_refl fnmatch_blend (history p)) in
  let kept := take (length files - Z.to_nat (- k)) files in
  let older := drop (length files - Z.to_nat (- k)) files in
  exists p',
    compress_old_versions sample_dir eq_refl gzip 400 k p = (Ok tt, p') /\
    (forall name f, (name, f) ∈ kept \/ (name, f) ∈ older <->
       lookup_file (history p) name = Some f /\ is_hidden name = false /\
       fnmatch_blend name = true) /\
    length older = Nat.min (Z.to_nat (- k)) (length files) /\
    (forall name f, (name, f) ∈ kept <->
       lookup_file (history p') name = Some f /\ is_hidden name = false /\
       fnmatch_blend name = true) /\
    (forall name f, (name, f) ∈ older ->
       lookup_file (history p') name = None /\
       lookup_file (history p') (gz_name name) = Some (File (gzip (content f)) 400)).
Proof.
  apply (compress_old_versions_negative sample_dir eq_refl
           (fun bytes => "gz:" +:+ bytes) 400 (-1) sample_project);
    [lia | vm_compute; reflexivity].
Defined.

Lemma list_versions_on_list_witness :
  let p := Project (Some (json_dumps (JDict [("versions", JList [JNum "1"])]))) None None in
  list_versions true p = (Ok (JList [JNum "1"]), p) /\
  list_versions false p
  = (if forallb is_dict [JNum "1"]
     then Ok (JList (filter (fun v => has_status "deleted" v = false) [JNum "1"]))
     else Raise AttributeError, p).
Proof.
  apply (list_versions_on_list
           (Project (Some (json_dumps (JDict [("versions", JList [JNum "1"])]))) None None)
           [("versions", JList [JNum "1"])] [JNum "1"]);
    vm_compute; reflexivity.
Defined.

Lemma size_MB_small_witness : size_MB 5242 = JNum "0.0".
Proof. apply (size_MB_small 5242). reflexivity. Defined.

Lemma operations_keep_index_witness :
  let gzip := fun bytes : string => "gz:" +:+ bytes in
  let p := sample_project in
  let ops := [Move "scene_1.blend"; Compress 400 1; Purge 1000000 1;
              Restore "2024-10-27 02:31:00" "scene_1.blend"] in
  index_wf (load_index (run_ops sample_dir eq_refl gzip ops p)) = true /\
  length (versions p) <= length (versions (run_ops sample_dir eq_refl gzip ops p)) /\
  (forall pre o post, ops = pre ++ o :: post ->
     op_result sample_dir eq_refl gzip o (run_ops sample_dir eq_refl gzip pre p)
     = Ok tt).
Proof.
  apply (operations_keep_index sample_dir eq_refl (fun bytes => "gz:" +:+ bytes)
           [Move "scene_1.blend"; Compress 400 1; Purge 1000000 1;
            Restore "2024-10-27 02:31:00" "scene_1.blend"] sample_project);
    [vm_compute; reflexivity | reflexivity | reflexivity].
Defined.

Lemma compress_thread_purge_disabled_witness :
  let gzip := fun bytes : string => "gz:" +:+ bytes in
  exists p',
    _compress gzip sample_dir eq_refl (Settings 1 0) 400 1000000 sample_project_deleted
      = (Ok tt, p') /\
    deleted p' = deleted sample_project_deleted.
Proof.
  apply (compress_thread_purge_disabled sample_dir eq_refl
           (fun bytes => "gz:" +:+ bytes) (Settings 1 0) 400 1000000
           sample_project_deleted).
  simpl. lia.
Defined.

Lemma autosave_worker_bounds_uncompressed_witness :
  let gzip := fun bytes : string => "gz:" +:+ bytes in
  let settings := Settings 3 30 in
  let p := sample_project in
  exists p' visible,
    _autosave_worker gzip settings (Some "four") "/home/me/scene.blend" "/autosave"
      eq_refl "2024-10-27_02-31-00" "2024-10-27 02:31:00" 400 401 402 p
    = (Ok (Some (proj_name "/home/me/scene.blend" +:+ "_" +:+ "2024-10-27_02-31-00"
                 +:+ ".blend")), p') /\
    (forall name f, (name, f) ∈ visible <->
       lookup_file (history p') name = Some f /\ is_hidden name = false /\
       fnmatch_blend name = true) /\
    NoDup visible /\
    length visible <= Z.to_nat (keep_uncompressed settings) /\
    index_wf (load_index p') = true /\
    length (versions p') = S (length (versions p)).
Proof.
  apply (autosave_worker_bounds_uncompressed (fun bytes => "gz:" +:+ bytes)
           (Settings 3 30) "four" "/home/me/scene.blend" "/autosave" eq_refl
           "2024-10-27_02-31-00" "2024-10-27 02:31:00" 400 401 402 sample_project);
    [vm_compute; reflexivity | reflexivity | reflexivity | reflexivity | simpl; lia].
Defined.

Lemma autosave_worker_keeps_new_copy_witness :
  let gzip := fun bytes : string => "gz:" +:+ bytes in
  let filename := proj_name "/home/me/scene.blend" +:+ "_" +:+ "2024-10-27_02-31-00"
                  +:+ ".blend" in
  exists p',
    _autosave_worker gzip (Settings 1 30) (Some "four") "/home/me/scene.blend"
      "/autosave" eq_refl "2024-10-27_02-31-00" "2024-10-27 02:31:00" 400 401 402
      sample_project
    = (Ok (Some filename), p') /\
    lookup_file (history p') filename = Some (File "four" 400).
Proof.
  apply (autosave_worker_keeps_new_copy (fun bytes => "gz:" +:+ bytes)
           (Settings 1 30) "four" "/home/me/scene.blend" "/autosave" eq_refl
           "2024-10-27_02-31-00" "2024-10-27 02:31:00" 400 401 402 sample_project);
    [vm_compute; reflexivity | reflexivity | reflexivity | reflexivity | simpl; lia |].
  apply (lookup_file_Forall _ (fun _ f => (mtime f < 400)%Z)).
  vm_compute. repeat constructor.
Defined.

Lemma compress_old_versions_spec_witness :
  let gzip := fun bytes : string => "gz:" +:+ bytes in
  let p := sample_project in
  let files := sorted_newest_first (glob sample_dir eq_refl fnmatch_blend (history p)) in
  let kept := take 1 files in
  let older := drop 1 files in
  exists p',
    compress_old_versions sample_dir eq_refl gzip 400 1 p = (Ok tt, p') /\
    (forall name f, (name, f) ∈ kept \/ (name, f) ∈ older <->
       lookup_file (history p) name = Some f /\ is_hidden name = false /\
       fnmatch_blend name = true) /\
    length (glob sample_dir eq_refl fnmatch_blend (history p'))
      = Nat.min 1 (length files) /\
    (forall name f, (name, f) ∈ kept <->
       lookup_file (history p') name = Some f /\ is_hidden name = false /\
       fnmatch_blend name = true) /\
    (forall a b, a ∈ kept -> b ∈ older -> (mtime b.2 <= mtime a.2)%Z) /\
    (forall name f, (name, f) ∈ older ->
       lookup_file (history p') name = None /\
       lookup_file (history p') (gz_name name)
         = Some (File (gzip (content f)) 400)) /\
    (forall name f i v, (name, f) ∈ older ->
       first_match name (versions p) = Some i -> versions p !! i = Some v ->
       exists v', versions p' !! i = Some v' /\
         field "file" v' = Some (JStr (gz_name name)) /\
         field "compressed" v' = Some (JBool true) /\
         field "status" v' = Some (default (JStr "active") (field "status" v)) /\
         (forall key, key <> "file" -> key <> "compressed" -> key <> "status" ->
            field key v' = field key v)).
Proof.
  apply (compress_old_versions_spec sample_dir eq_refl (fun bytes => "gz:" +:+ bytes)
           400 1 sample_project); [lia | vm_compute; reflexivity].
Defined.

